(** * QueryChain AI: the agent pipelines and the confidence arbitration

    A shallow embedding of [gemini_backend.js] (the three pipelines
    [runNlToQueryPipeline], [runRagPipeline], [runUpdatePipeline] and the
    two endpoints) and of the embedding backfill script
    ([createEmbeddings]), followed by the properties of the specification
    that were checked against them.

    The language model, the embedding endpoint and the query language of
    the document store are collaborators: they are the fields of an
    environment [Env], and every definition and theorem is parametric in
    it.  The database and the log of external interactions are threaded
    explicitly through a state-and-exception monad [M]. *)

From Stdlib Require Import ZArith QArith String List Bool Lia.
From stdpp Require Import base option list strings gmap.

Set Warnings "-register-all".

Local Open Scope string_scope.
Local Open Scope list_scope.

(** ** JSON values

    Filter expressions, mutation expressions and record attributes are the
    objects [JSON.parse] returns. *)

Inductive json : Type :=
  | JNull
  | JBool (b : bool)
  | JNum (q : Q)
  | JStr (s : string)
  | JArr (items : list json)
  | JObj (members : list (string * json)).

(** Equality of values; numbers are compared by value. *)
Fixpoint json_eqb (x y : json) {struct x} : bool :=
  let fix items_eqb (xs ys : list json) {struct xs} : bool :=
    match xs, ys with
    | [], [] => true
    | x' :: xs', y' :: ys' => json_eqb x' y' && items_eqb xs' ys'
    | _, _ => false
    end in
  let fix members_eqb (xs ys : list (string * json)) {struct xs} : bool :=
    match xs, ys with
    | [], [] => true
    | (k, x') :: xs', (l, y') :: ys' =>
        String.eqb k l && json_eqb x' y' && members_eqb xs' ys'
    | _, _ => false
    end in
  match x, y with
  | JNull, JNull => true
  | JBool a, JBool b => Bool.eqb a b
  | JNum p, JNum q => Qeq_bool p q
  | JStr s, JStr t => String.eqb s t
  | JArr xs, JArr ys => items_eqb xs ys
  | JObj xs, JObj ys => members_eqb xs ys
  | _, _ => false
  end.

(** [x > y] on numbers *)
Definition Qgtb (x y : Q) : bool := negb (Qle_bool x y).

(** JavaScript truthiness of a property read: [None] is [undefined]. *)
Definition truthy (v : option json) : bool :=
  match v with
  | None | Some JNull | Some (JBool false) | Some (JStr "") => false
  | Some (JNum q) => negb (Qeq_bool q 0)
  | Some _ => true
  end.

(** [{}] *)
Definition is_empty_object (j : json) : bool :=
  match j with
  | JObj [] => true
  | _ => false
  end.

(** The top-level keys of an object, the operators of a mutation. *)
Definition keys (j : json) : list string :=
  match j with
  | JObj members => map fst members
  | _ => []
  end.

(** ** Records, permissions, audit entries and the database *)

(** A record of a collection: its attributes by name, [_id] and
    [docEmbedding] among them. *)
Abbreviation Doc := (gmap string json).

Definition doc_eqb (d1 d2 : Doc) : bool :=
  let fix go (xs ys : list (string * json)) : bool :=
    match xs, ys with
    | [], [] => true
    | (k, x) :: xs', (l, y) :: ys' => String.eqb k l && json_eqb x y && go xs' ys'
    | _, _ => false
    end in
  go (map_to_list d1) (map_to_list d2).

Definition vector_json (v : list Q) : json := JArr (map JNum v).

Record User : Type := mkUser { id : string; role : string }.

(** A document of the [Permissions] collection. *)
Record Permission : Type := mkPermission {
  perm_role : string;
  allowedCollections : list string
}.

(** The output of the update agent: [{ filter, update }]. *)
Record UpdateQuery : Type := mkUpdateQuery { filter : json; update : json }.

(** The two shapes of document inserted into [AuditLogs]. *)
Inductive AuditEntry : Type :=
  | QueryAudit (userId role userInput : string) (mongoQuery : json)
               (results : nat) (timestamp : nat)
  | UpdateAudit (userId role userInput : string) (mongoQuery : UpdateQuery)
                (modifiedCount : nat) (timestamp : nat).

(** The database [Employees]: [Permissions] and [AuditLogs] have the shape
    the program reads and writes; every other collection is a list of
    records, found by name (an unknown name is an empty collection).
    [collection] and [set_collection] reach these other collections only:
    a request whose target is named [Permissions] or [AuditLogs] is not
    described by them, and the properties of the update pipeline that
    depend on the target exclude the two names. *)
Record DB : Type := mkDB {
  Permissions : list Permission;
  AuditLogs : list AuditEntry;
  collections : gmap string (list Doc)
}.

Definition collection (d : DB) (name : string) : list Doc :=
  default [] (collections d !! name).

Definition set_collection (d : DB) (name : string) (docs : list Doc) : DB :=
  mkDB (Permissions d) (AuditLogs d) (<[name := docs]> (collections d)).

Definition insert_audit (d : DB) (e : AuditEntry) : DB :=
  mkDB (Permissions d) (AuditLogs d ++ [e]) (collections d).

(** ** Agents and their replies *)

Inductive Prompt : Type :=
  | QUERY_AGENT_PROMPT
  | SECURITY_AGENT_PROMPT
  | OPTIMIZATION_AGENT_PROMPT
  | VALIDATION_AGENT_PROMPT
  | RAG_AGENT_PROMPT
  | UPDATE_AGENT_PROMPT
  | UPDATE_SECURITY_AGENT_PROMPT.

(** [{ isSafe, reason }] *)
Record SecurityCheck : Type := mkSecurityCheck { isSafe : bool; reason : string }.

(** [{ isUseful, confidence, suggestion }] *)
Record Validation : Type := mkValidation {
  isUseful : bool;
  confidence : Q;
  suggestion : string
}.

(** What a completion is read as, by the prompt that asked for it. The
    replies are those of the shape the prompt asks for: a completion that
    parses to another value, [null] for instance, is not among them. *)
Definition Output (p : Prompt) : Type :=
  match p with
  | QUERY_AGENT_PROMPT | OPTIMIZATION_AGENT_PROMPT => json
  | SECURITY_AGENT_PROMPT | UPDATE_SECURITY_AGENT_PROMPT => SecurityCheck
  | VALIDATION_AGENT_PROMPT => Validation
  | RAG_AGENT_PROMPT => string
  | UPDATE_AGENT_PROMPT => UpdateQuery
  end.

(** The texts the program sends, kept by their parts: the string is a
    function of them. *)
Inductive Text : Type :=
  | Raw (s : string)
  | Stringify (j : json)
  | StringifyUpdate (u : UpdateQuery)
  | QuestionContext (question : string) (context : list Doc)
  | ManagerText (Name CGPA Branch Role Company CTC Details : json).

(** [!userQuery]: only the empty string is falsy among them. *)
Definition is_empty_text (t : Text) : bool :=
  match t with
  | Raw "" => true
  | _ => false
  end.

(** [candidates[0].content?.parts?.[0]?.text] is tested for truthiness, so
    an empty candidate text counts as no text. Only the reply to the RAG
    agent is returned as a bare text; a text that [JSON.parse] reads is
    not empty. *)
Definition empty_candidate (p : Prompt) : Output p -> bool :=
  match p with
  | RAG_AGENT_PROMPT => fun text => String.eqb text ""
  | _ => fun _ => false
  end.

(** The reply of the completion endpoint, by the cases [callGemini]
    distinguishes. [Answer] carries the candidate text as it is read
    ([JSON.parse] when [isJson], the text itself for the RAG agent);
    [Garbled] is a candidate text that [JSON.parse] rejects. *)
Inductive Reply (A : Type) : Type :=
  | Unreachable (message : string)
  | Status (code : nat) (errorBody : string)
  | Blocked (blockReason : string)
  | NoCandidate
  | Garbled (text : string)
  | Answer (a : A).

Arguments Unreachable {A} message.
Arguments Status {A} code errorBody.
Arguments Blocked {A} blockReason.
Arguments NoCandidate {A}.
Arguments Garbled {A} text.
Arguments Answer {A} a.

(** The reply of the embedding endpoint. [EmbedNoValues] is a body from
    which [result.embedding.values] is not a vector. *)
Inductive EmbedReply : Type :=
  | EmbedUnreachable (message : string)
  | EmbedStatus (code : nat) (errorBody : string)
  | EmbedNoValues
  | EmbedValues (values : list Q).

(** The collaborators. [gemini] and [embedContent] are the two endpoints:
    what they answer is a function of what they are sent, and nothing is
    assumed of it. [matches] and [applyUpdate] are the store's reading of
    a filter and of a mutation; [vectorSearch] is its [$vectorSearch]
    stage (index, path, query vector, number of candidates, limit), giving
    the retained records with their scores. *)
Record Env : Type := mkEnv {
  gemini : forall p : Prompt, Text -> Reply (Output p);
  embedContent : Text -> EmbedReply;
  matches : json -> Doc -> bool;
  applyUpdate : json -> Doc -> Doc;
  vectorSearch : string -> string -> list Q -> nat -> nat -> list Doc -> list (Doc * Q)
}.

(** ** Errors, events and the monad *)

Inductive Error : Type :=
  | EmptyQueryError
  | UpstreamError (code : nat) (errorBody : string)
  | TransportError (message : string)
  | ContentBlockedError (blockReason : string)
  | InvalidResponseError
  | MalformedModelOutputError (text : string)
  | EmbeddingUpstreamError (code : nat) (errorBody : string)
  | EmbeddingTypeError
  | DimensionMismatchError (actual expected : nat)
  | QuerySecurityRejectedError (reason : string)
  | UpdateSecurityRejectedError (reason : string)
  | AccessDeniedError (role collectionName : string).

(** The interactions with the outside, in the order they are made. *)
Inductive Event : Type :=
  | CallGemini (systemPrompt : Prompt) (userQuery : Text)
  | CallEmbedding (text : Text)
  | FindPermission (role : string)
  | Find (collectionName : string) (filter : json)
  | Aggregate (collectionName : string) (queryVector : list Q)
  | UpdateMany (collectionName : string) (filter update : json)
  | UpdateOne (collectionName : string) (_id : option json) (embedding : list Q)
  | InsertAudit (entry : AuditEntry)
  | ConsoleError (e : Error).

Record World : Type := mkWorld {
  db : DB;
  trace : list Event;
  clock : nat
}.

Inductive Outcome (A : Type) : Type :=
  | Return (a : A)
  | Throw (e : Error).

Arguments Return {A} a.
Arguments Throw {A} e.

Definition M (A : Type) : Type := World -> Outcome A * World.

#[global] Instance M_ret : MRet M := fun A a w => (Return a, w).

#[global] Instance M_bind : MBind M := fun A B f m w =>
  match m w with
  | (Return a, w') => f a w'
  | (Throw e, w') => (Throw e, w')
  end.

Definition throw {A} (e : Error) : M A := fun w => (Throw e, w).

Definition emit (ev : Event) : M unit := fun w =>
  (Return tt, mkWorld (db w) (trace w ++ [ev]) (clock w)).

Definition get_db : M DB := fun w => (Return (db w), w).

Definition put_db (d : DB) : M unit := fun w =>
  (Return tt, mkWorld d (trace w) (clock w)).

(** [new Date()] *)
Definition new_Date : M nat := fun w =>
  (Return (clock w), mkWorld (db w) (trace w) (S (clock w))).

(** ** Asynchronous functions

    An [async] function runs without interruption up to its next
    [await], and what the program awaits is one interaction with the
    outside: a request to an endpoint or an operation of the store.
    [Await m k] waits for [m] and goes on as [k] with what [m] gave; when
    [m] throws the function throws, as no pipeline catches an error
    without throwing it again. *)
Inductive Task (A : Type) : Type :=
  | Finished (o : Outcome A)
  | Await (B : Type) (m : M B) (k : B -> Task A).

Arguments Finished {A} o.
Arguments Await {A B} m k.

(** The function run from here to its end, with nothing else running. *)
Fixpoint run_task {A} (t : Task A) : M A :=
  match t with
  | Finished o => fun w => (o, w)
  | Await m k => b ← m; run_task (k b)
  end.

(** The awaited interaction completes and the function runs on to its
    next [await], or to its end. *)
Definition resume {A} (t : Task A) (w : World) : Task A * World :=
  match t with
  | Finished o => (Finished o, w)
  | Await m k =>
      match m w with
      | (Return b, w') => (k b, w')
      | (Throw e, w') => (Finished (Throw e), w')
      end
  end.

(** Which of two functions that run together is resumed next. *)
Inductive Pick : Type :=
  | fst_task
  | snd_task.

(** [Promise.all] rejects with the first rejection in time: [seen] is
    that rejection, once there is one. *)
Definition rejection {A B} (seen : option Error) (l : Task A) (r : Task B) : option Error :=
  match seen, l, r with
  | Some e, _, _ => Some e
  | None, Finished (Throw e), _ => Some e
  | None, _, Finished (Throw e) => Some e
  | None, _, _ => None
  end.

(** What [Promise.all] settles with, once both functions are done: the
    first rejection, and both results when there is none. Without a
    rejection seen before, [l] has run to its end before [r] and its
    rejection is the first. *)
Definition settle {A B} (seen : option Error) (a : Outcome A) (b : Outcome B)
  : Outcome (A * B) :=
  match seen, a, b with
  | Some e, _, _ => Throw e
  | None, Return x, Return y => Return (x, y)
  | None, Throw e, _ => Throw e
  | None, Return _, Throw e => Throw e
  end.

(** [Promise.all([l, r])] under a schedule, the order in which the awaited
    interactions of the two functions complete. A function that has
    finished lets its turn pass; when the schedule is used up, [l] runs to
    its end and then [r]. Both functions run to their end, also after a
    rejection, since a promise is not cancelled: the world that is given
    is the one they leave. *)
Fixpoint Promise_all {A B} (schedule : list Pick) (seen : option Error)
    (l : Task A) (r : Task B) (w : World) : Outcome (A * B) * World :=
  let seen := rejection seen l r in
  match schedule with
  | [] =>
      let '(a, w1) := run_task l w in
      let '(b, w2) := run_task r w1 in
      (settle seen a b, w2)
  | fst_task :: rest =>
      let '(l', w') := resume l w in Promise_all rest seen l' r w'
  | snd_task :: rest =>
      let '(r', w') := resume r w in Promise_all rest seen l r' w'
  end.

(** ** The store operations the program uses

    The operations succeed: a store that rejects a filter or a mutation,
    or that fails a write, is not among the collaborators. *)

Section Store.
Context (E : Env).

(** [db.collection("Permissions").findOne({ role })] *)
Definition findOnePermission (r : string) : M (option Permission) :=
  emit (FindPermission r);;
  d ← get_db;
  mret (List.find (fun p => String.eqb (perm_role p) r) (Permissions d)).

(** [Array.prototype.includes] on a list of names *)
Definition includes (names : list string) (x : string) : bool :=
  existsb (String.eqb x) names.

(** [permission && (allowed.includes("*") || allowed.includes(name))] *)
Definition hasPermission (permission : option Permission) (collectionName : string) : bool :=
  match permission with
  | None => false
  | Some p =>
      includes (allowedCollections p) "*" || includes (allowedCollections p) collectionName
  end.

(** [collection.find(filter).toArray()] *)
Definition find (collectionName : string) (f : json) : M (list Doc) :=
  emit (Find collectionName f);;
  d ← get_db;
  mret (List.filter (matches E f) (collection d collectionName)).

(** [.project({ docEmbedding: 0 })] *)
Definition project_out_embedding (docs : list Doc) : list Doc :=
  map (delete "docEmbedding") docs.

(** [collection.updateMany(filter, update)], giving [modifiedCount]: the
    matched records that the mutation changed. *)
Definition modified (f u : json) (d : Doc) : bool :=
  matches E f d && negb (doc_eqb d (applyUpdate E u d)).

Definition updateMany_docs (f u : json) (docs : list Doc) : list Doc :=
  map (fun d => if matches E f d then applyUpdate E u d else d) docs.

Definition updateMany (collectionName : string) (f u : json) : M nat :=
  emit (UpdateMany collectionName f u);;
  d ← get_db;
  let docs := collection d collectionName in
  put_db (set_collection d collectionName (updateMany_docs f u docs));;
  mret (length (List.filter (modified f u) docs)).

(** The filter [{ _id: doc._id }] *)
Definition has_id (_id : option json) (d : Doc) : bool :=
  match _id, d !! "_id" with
  | Some a, Some b => json_eqb a b
  | None, None => true
  | _, _ => false
  end.

(** [collection.updateOne({ _id }, { $set: { docEmbedding: embedding } })]:
    the first record with that [_id] gets the attribute. *)
Fixpoint updateOne_docs (_id : option json) (embedding : list Q) (docs : list Doc) : list Doc :=
  match docs with
  | [] => []
  | d :: rest =>
      if has_id _id d
      then <["docEmbedding" := vector_json embedding]> d :: rest
      else d :: updateOne_docs _id embedding rest
  end.

Definition updateOne (collectionName : string) (_id : option json) (embedding : list Q) : M unit :=
  emit (UpdateOne collectionName _id embedding);;
  d ← get_db;
  put_db (set_collection d collectionName
            (updateOne_docs _id embedding (collection d collectionName))).

(** [db.collection("AuditLogs").insertOne(entry)] *)
Definition insertAudit (entry : AuditEntry) : M unit :=
  emit (InsertAudit entry);;
  d ← get_db;
  put_db (insert_audit d entry).

(** [x || 'N/A'] *)
Definition or_NA (v : option json) : json :=
  if truthy v then default JNull v else JStr "N/A".

(** [createTextForEmbedding], the same in both files. *)
Definition createTextForEmbedding (doc : Doc) : Text :=
  ManagerText (or_NA (doc !! "Name")) (or_NA (doc !! "CGPA")) (or_NA (doc !! "Branch"))
              (or_NA (doc !! "Role")) (or_NA (doc !! "Company")) (or_NA (doc !! "CTC"))
              (or_NA (doc !! "Details")).
End Store.

Definition EMBEDDING_DIMENSIONS : nat := 768.

(** ** [gemini_backend.js] *)

Module gemini_backend.

(** The return value of [runNlToQueryPipeline]. *)
Record NlResult : Type := mkNlResult {
  nl_type : string;
  nl_confidence : Q;
  data : list Doc;
  mongoQuery : json;
  securityCheck : SecurityCheck;
  validation : Validation
}.

(** The return value of [runRagPipeline]. *)
Record RagResult : Type := mkRagResult {
  rag_type : string;
  rag_confidence : Q;
  answer : string;
  context : list Doc
}.

(** The return value of [runUpdatePipeline]. *)
Record UpdateResult : Type := mkUpdateResult {
  success : bool;
  modifiedCount : nat;
  reEmbeddedCount : nat
}.

(** The body of a hybrid answer: [{ winner, ...result }]. *)
Inductive HybridBody : Type :=
  | nl_to_query (nlResult : NlResult)
  | rag (ragResult : RagResult).

Inductive Response (A : Type) : Type :=
  | BadRequest
  | ServerError (details : Error)
  | Json (body : A).

Arguments BadRequest {A}.
Arguments ServerError {A} details.
Arguments Json {A} body.

Section Pipelines.
Context (E : Env).

Definition callGemini (systemPrompt : Prompt) (userQuery : Text) : M (Output systemPrompt) :=
  if is_empty_text userQuery then throw EmptyQueryError
  else
    emit (CallGemini systemPrompt userQuery);;
    match gemini E systemPrompt userQuery with
    | Unreachable message => throw (TransportError message)
    | Status code errorBody => throw (UpstreamError code errorBody)
    | Answer a =>
        if empty_candidate systemPrompt a then throw InvalidResponseError else mret a
    | Garbled text => throw (MalformedModelOutputError text)
    | Blocked blockReason => throw (ContentBlockedError blockReason)
    | NoCandidate => throw InvalidResponseError
    end.

(** On a body without a vector the function throws, as the code does when
    [result.embedding] is missing; a body with an [embedding] that has no
    [values] makes the code return [undefined], and the properties that
    depend on what is stored exclude that reply. *)
Definition getEmbedding (text : Text) : M (list Q) :=
  emit (CallEmbedding text);;
  match embedContent E text with
  | EmbedUnreachable message => throw (TransportError message)
  | EmbedStatus code errorBody => throw (EmbeddingUpstreamError code errorBody)
  | EmbedNoValues => throw EmbeddingTypeError
  | EmbedValues values => mret values
  end.

(** REUSABLE PIPELINE 1: NL-to-Query *)
Definition runNlToQueryPipeline (userInput collectionName : string) (user : User)
  : M NlResult :=
  (* 1. Query Agent *)
  mongoQuery ← callGemini QUERY_AGENT_PROMPT (Raw userInput);
  (* 2. Security Agent *)
  securityCheck ← callGemini SECURITY_AGENT_PROMPT (Stringify mongoQuery);
  if negb (isSafe securityCheck)
  then throw (QuerySecurityRejectedError (reason securityCheck))
  else
    (* 3. Optimization Agent *)
    optimizedQuery ← callGemini OPTIMIZATION_AGENT_PROMPT (Stringify mongoQuery);
    (* 4. Validation Agent *)
    validation ← callGemini VALIDATION_AGENT_PROMPT (Raw userInput);
    (* 5. Run Query *)
    permission ← findOnePermission (role user);
    if negb (hasPermission permission collectionName)
    then throw (AccessDeniedError (role user) collectionName)
    else
      found ← find E collectionName optimizedQuery;
      let data := project_out_embedding found in
      (* 6. Audit Log *)
      timestamp ← new_Date;
      insertAudit (QueryAudit (id user) (role user) userInput optimizedQuery
                              (length data) timestamp);;
      (* 7. Return final result *)
      mret (mkNlResult "data"
              (if Nat.eqb (length data) 0 then 0%Q else confidence validation)
              data optimizedQuery securityCheck validation).

(** The [$project] stage of the vector search: the embedding is
    dropped and the score added. *)
Definition project_score (hit : Doc * Q) : Doc :=
  <["score" := JNum (snd hit)]> (delete "docEmbedding" (fst hit)).

(** REUSABLE PIPELINE 2: RAG *)
Definition runRagPipeline (userInput : string) (user : User) : M RagResult :=
  (* 1. Get embedding for the user's query *)
  queryVector ← getEmbedding (Raw userInput);
  (* 2. Perform Vector Search *)
  emit (Aggregate "managers" queryVector);;
  d ← get_db;
  let hits := vectorSearch E "vectorIndex" "docEmbedding" queryVector 100 5
                (collection d "managers") in
  let retrievedDocs := map project_score hits in
  match hits with
  | [] =>
      mret (mkRagResult "answer" 0%Q
              "I'm sorry, I couldn't find any relevant information in the database to answer that question."
              [])
  | first :: _ =>
      (* 3. Call Gemini to generate a natural language answer *)
      let topScore := snd first in
      answer ← callGemini RAG_AGENT_PROMPT (QuestionContext userInput retrievedDocs);
      (* 4. RETURN FINAL RAG RESULT *)
      mret (mkRagResult "answer" topScore answer retrievedDocs)
  end.

(** The loop of step 5 of the update pipeline, from a count. *)
Fixpoint reSync (collectionName : string) (updatedDocs : list Doc) (reEmbeddedCount : nat)
  : M nat :=
  match updatedDocs with
  | [] => mret reEmbeddedCount
  | doc :: rest =>
      let textToEmbed := createTextForEmbedding doc in
      embedding ← getEmbedding textToEmbed;
      updateOne collectionName (doc !! "_id") embedding;;
      reSync collectionName rest (S reEmbeddedCount)
  end.

(** REUSABLE PIPELINE 3: Update *)
Definition runUpdatePipeline (userInput collectionName : string) (user : User)
  : M UpdateResult :=
  (* 1. Check Permissions *)
  permission ← findOnePermission (role user);
  if negb (hasPermission permission collectionName)
  then throw (AccessDeniedError (role user) collectionName)
  else
    (* 2. Update Agent *)
    updateQuery ← callGemini UPDATE_AGENT_PROMPT (Raw userInput);
    (* 3. Update Security Agent *)
    securityCheck ← callGemini UPDATE_SECURITY_AGENT_PROMPT (StringifyUpdate updateQuery);
    if negb (isSafe securityCheck)
    then throw (UpdateSecurityRejectedError (reason securityCheck))
    else
      (* 4. Run Update Query *)
      modifiedCount ← updateMany E collectionName (filter updateQuery) (update updateQuery);
      (* 5. Re-sync RAG Embeddings *)
      reEmbeddedCount ←
        (if Nat.ltb 0 modifiedCount
         then
           updatedDocs ← find E collectionName (filter updateQuery);
           reSync collectionName updatedDocs 0
         else mret 0);
      (* 6. Audit Log *)
      timestamp ← new_Date;
      insertAudit (UpdateAudit (id user) (role user) userInput updateQuery
                               modifiedCount timestamp);;
      mret (mkUpdateResult true modifiedCount reEmbeddedCount).

(** The hard-coded user of both endpoints. *)
Definition hard_coded_user : User := mkUser "user-123" "Admin".

(** [POST /api/hybrid-query], in the order of events in which the
    structured-query pipeline has finished before the first interaction
    of the retrieval pipeline completes; [hybrid_query_scheduled] below
    is the request in any order. *)
Definition hybrid_query (userInput collectionName : string)
  : World -> Response HybridBody * World := fun w =>
  let user := hard_coded_user in
  if (String.eqb userInput "" || String.eqb collectionName "")%bool
  then (BadRequest, w)
  else
    let '(nl, w1) := runNlToQueryPipeline userInput collectionName user w in
    let '(rg, w2) := runRagPipeline userInput user w1 in
    match nl, rg with
    | Return nlResult, Return ragResult =>
        if Qgtb (nl_confidence nlResult) (rag_confidence ragResult)
        then (Json (nl_to_query nlResult), w2)
        else (Json (rag ragResult), w2)
    | Throw error, _ => (ServerError error, w2)
    | _, Throw error => (ServerError error, w2)
    end.

(** [runNlToQueryPipeline], [await] by [await]. [new Date()] is taken when
    the read of the collection has completed. *)
Definition runNlToQueryPipeline_async (userInput collectionName : string) (user : User)
  : Task NlResult :=
  (* 1. Query Agent *)
  Await (callGemini QUERY_AGENT_PROMPT (Raw userInput)) (fun mongoQuery =>
  (* 2. Security Agent *)
  Await (callGemini SECURITY_AGENT_PROMPT (Stringify mongoQuery)) (fun securityCheck =>
  if negb (isSafe securityCheck)
  then Finished (Throw (QuerySecurityRejectedError (reason securityCheck)))
  else
    (* 3. Optimization Agent *)
    Await (callGemini OPTIMIZATION_AGENT_PROMPT (Stringify mongoQuery)) (fun optimizedQuery =>
    (* 4. Validation Agent *)
    Await (callGemini VALIDATION_AGENT_PROMPT (Raw userInput)) (fun validation =>
    (* 5. Run Query *)
    Await (findOnePermission (role user)) (fun permission =>
    if negb (hasPermission permission collectionName)
    then Finished (Throw (AccessDeniedError (role user) collectionName))
    else
      Await (found ← find E collectionName optimizedQuery;
             timestamp ← new_Date;
             mret (found, timestamp)) (fun '(found, timestamp) =>
      let data := project_out_embedding found in
      (* 6. Audit Log *)
      Await (insertAudit (QueryAudit (id user) (role user) userInput optimizedQuery
                                     (length data) timestamp)) (fun _ =>
      (* 7. Return final result *)
      Finished (Return (mkNlResult "data"
                          (if Nat.eqb (length data) 0 then 0%Q else confidence validation)
                          data optimizedQuery securityCheck validation))))))))).

(** [collection.aggregate([{ $vectorSearch }, { $project }]).toArray()] on
    [managers], before the [$project] stage. *)
Definition aggregate_managers (queryVector : list Q) : M (list (Doc * Q)) :=
  emit (Aggregate "managers" queryVector);;
  d ← get_db;
  mret (vectorSearch E "vectorIndex" "docEmbedding" queryVector 100 5
          (collection d "managers")).

(** [runRagPipeline], [await] by [await]. *)
Definition runRagPipeline_async (userInput : string) (user : User) : Task RagResult :=
  (* 1. Get embedding for the user's query *)
  Await (getEmbedding (Raw userInput)) (fun queryVector =>
  (* 2. Perform Vector Search *)
  Await (aggregate_managers queryVector) (fun hits =>
  let retrievedDocs := map project_score hits in
  match hits with
  | [] =>
      Finished (Return (mkRagResult "answer" 0%Q
        "I'm sorry, I couldn't find any relevant information in the database to answer that question."
        []))
  | first :: _ =>
      (* 3. Call Gemini to generate a natural language answer *)
      let topScore := snd first in
      Await (callGemini RAG_AGENT_PROMPT (QuestionContext userInput retrievedDocs))
            (fun answer =>
      (* 4. RETURN FINAL RAG RESULT *)
      Finished (Return (mkRagResult "answer" topScore answer retrievedDocs)))
  end)).

(** [POST /api/hybrid-query]: [Promise.all] of the two pipelines, started
    on the text of the request, and the comparison of the confidences.
    The answer is sent when both have returned or at the first rejection;
    the world is the one both pipelines have left when they are done. *)
Definition hybrid_query_scheduled (schedule : list Pick) (userInput collectionName : string)
  : World -> Response HybridBody * World := fun w =>
  let user := hard_coded_user in
  if (String.eqb userInput "" || String.eqb collectionName "")%bool
  then (BadRequest, w)
  else
    match Promise_all schedule None
            (runNlToQueryPipeline_async userInput collectionName user)
            (runRagPipeline_async userInput user) w with
    | (Return (nlResult, ragResult), w') =>
        if Qgtb (nl_confidence nlResult) (rag_confidence ragResult)
        then (Json (nl_to_query nlResult), w')
        else (Json (rag ragResult), w')
    | (Throw error, w') => (ServerError error, w')
    end.

(** [POST /api/update-query] *)
Definition update_query (userInput collectionName : string)
  : World -> Response UpdateResult * World := fun w =>
  let user := hard_coded_user in
  if (String.eqb userInput "" || String.eqb collectionName "")%bool
  then (BadRequest, w)
  else
    match runUpdatePipeline userInput collectionName user w with
    | (Return result, w') => (Json result, w')
    | (Throw error, w') => (ServerError error, w')
    end.
End Pipelines.

End gemini_backend.

(** ** The backfill script [createEmbeddings] *)

Module create_data_embeddings.

Section Backfill.
Context (E : Env).

(** This [getEmbedding] reports a failure and returns [null]. *)
Definition getEmbedding (text : Text) : M (option (list Q)) :=
  emit (CallEmbedding text);;
  match embedContent E text with
  | EmbedUnreachable message =>
      emit (ConsoleError (TransportError message));; mret None
  | EmbedStatus code errorBody =>
      emit (ConsoleError (EmbeddingUpstreamError code errorBody));; mret None
  | EmbedNoValues =>
      emit (ConsoleError EmbeddingTypeError);; mret None
  | EmbedValues values => mret (Some values)
  end.

(** The loop over [documentsToProcess], from a count. *)
Fixpoint process (documentsToProcess : list Doc) (count : nat) : M nat :=
  match documentsToProcess with
  | [] => mret count
  | doc :: rest =>
      (* 1. Create the text string *)
      let textToEmbed := createTextForEmbedding doc in
      (* 2. Get the embedding *)
      embedding ← getEmbedding textToEmbed;
      match embedding with
      | Some embedding =>
          if negb (Nat.eqb (length embedding) EMBEDDING_DIMENSIONS)
          then
            emit (ConsoleError (DimensionMismatchError (length embedding)
                                                       EMBEDDING_DIMENSIONS));;
            process rest count
          else
            (* 3. Save the embedding back to the document *)
            updateOne "managers" (doc !! "_id") embedding;;
            process rest (S count)
      | None => process rest count
      end
  end.

(** [{ docEmbedding: { $exists: false } }] *)
Definition without_embedding : json :=
  JObj [("docEmbedding", JObj [("$exists", JBool false)])].

(** The result is the count the script prints. *)
Definition createEmbeddings : M nat :=
  documentsToProcess ← find E "managers" without_embedding;
  if Nat.eqb (length documentsToProcess) 0
  then mret 0
  else process documentsToProcess 0.
End Backfill.

End create_data_embeddings.

(** ** The contracts of the two security prompts

    What [SECURITY_AGENT_PROMPT] and [UPDATE_SECURITY_AGENT_PROMPT] ask of
    the model, as decision procedures. The program has no such procedure:
    a verdict is the reply of the model, read at [isSafe]. *)

(** Every key of a value, at any depth. *)
Fixpoint all_keys (j : json) : list string :=
  match j with
  | JArr items => flat_map all_keys items
  | JObj members => flat_map (fun m => fst m :: all_keys (snd m)) members
  | _ => []
  end.

(** "DANGEROUS queries use operators like ..." *)
Definition dangerous_operators : list string :=
  ["$where"; "$function"; "$eval"; "$lookup"; "$unionWith"].

Definition query_is_dangerous (q : json) : bool :=
  existsb (fun k => existsb (String.eqb k) dangerous_operators) (all_keys q).

(** "Any operator other than $set is DANGEROUS." *)
Definition uses_other_operator (u : json) : bool :=
  existsb (fun k => negb (String.eqb k "$set")) (keys u).

(** "The filter object MUST NOT be empty" and "MUST only use $set". *)
Definition update_is_dangerous (u : UpdateQuery) : bool :=
  is_empty_object (filter u) || uses_other_operator (update u).

(** ** A small store and scripted agents, for the concrete runs *)

Module Sample.
Import gemini_backend.

(** A filter of attribute equalities: [{ k1: v1, ... }]. *)
Definition equal_attributes (f : json) (d : Doc) : bool :=
  match f with
  | JObj members =>
      forallb (fun m => match d !! fst m with
                        | Some v => json_eqb v (snd m)
                        | None => false
                        end) members
  | _ => false
  end.

(** [{ $set: { k1: v1, ... } }]; other operators are left out. *)
Definition set_attributes (u : json) (d : Doc) : Doc :=
  match u with
  | JObj members =>
      fold_left (fun acc m =>
                   match m with
                   | ("$set", JObj fields) =>
                       fold_left (fun acc' kv => <[fst kv := snd kv]> acc') fields acc
                   | _ => acc
                   end) members d
  | _ => d
  end.

(** The first [limit] records that carry an embedding, each scored 4/5. *)
Definition first_with_embedding (index path : string) (queryVector : list Q)
    (numCandidates limit : nat) (docs : list Doc) : list (Doc * Q) :=
  map (fun d => (d, 4 # 5))
      (take limit (List.filter (fun d => bool_decide (is_Some (d !! path))) docs)).

(** Agents that give fixed answers; the two security agents decide on
    what they are shown. *)
Definition scripted
    (query optimized : Reply json) (security : json -> Reply SecurityCheck)
    (validated : Reply Validation) (answered : Reply string)
    (updated : Reply UpdateQuery) (update_security : UpdateQuery -> Reply SecurityCheck)
  : forall p : Prompt, Text -> Reply (Output p) :=
  fun p =>
    match p return Text -> Reply (Output p) with
    | QUERY_AGENT_PROMPT => fun _ => query
    | SECURITY_AGENT_PROMPT => fun t =>
        match t with Stringify q => security q | _ => NoCandidate end
    | OPTIMIZATION_AGENT_PROMPT => fun _ => optimized
    | VALIDATION_AGENT_PROMPT => fun _ => validated
    | RAG_AGENT_PROMPT => fun _ => answered
    | UPDATE_AGENT_PROMPT => fun _ => updated
    | UPDATE_SECURITY_AGENT_PROMPT => fun t =>
        match t with StringifyUpdate u => update_security u | _ => NoCandidate end
    end.

(** A security agent that follows [SECURITY_AGENT_PROMPT]. *)
Definition security (q : json) : Reply SecurityCheck :=
  Answer (if query_is_dangerous q
          then mkSecurityCheck false "Query contains potentially dangerous operators."
          else mkSecurityCheck true "Query uses safe find operators.").

(** An update security agent that follows [UPDATE_SECURITY_AGENT_PROMPT]. *)
Definition update_security (u : UpdateQuery) : Reply SecurityCheck :=
  Answer (if is_empty_object (filter u)
          then mkSecurityCheck false "Update filter is empty. This is too broad."
          else if uses_other_operator (update u)
          then mkSecurityCheck false "Update uses a dangerous operator other than $set."
          else mkSecurityCheck true "Update uses $set operator and a specific filter.").

Definition specific : Validation :=
  mkValidation true (95 # 100) "Query is clear and specific.".

Definition env (query optimized : json) (validated : Validation)
    (updated : UpdateQuery) (embedding : list Q) : Env :=
  mkEnv (scripted (Answer query) (Answer optimized) security (Answer validated)
                  (Answer "Kangan Gupta is in the CO branch.")
                  (Answer updated) update_security)
        (fun _ => EmbedValues embedding)
        equal_attributes set_attributes first_with_embedding.

Definition kangan : Doc :=
  {[ "_id" := JNum 1; "Name" := JStr "Kangan Gupta"; "Branch" := JStr "CO";
     "CTC" := JNum 70; "docEmbedding" := vector_json [1%Q; 0%Q; 0%Q] ]}.

Definition vidit : Doc :=
  {[ "_id" := JNum 2; "Name" := JStr "Vidit Tayal"; "Branch" := JStr "CO";
     "CTC" := JNum 60 ]}.

Definition asha : Doc :=
  {[ "_id" := JNum 7; "Name" := JStr "Asha"; "Branch" := JStr "IT" ]}.

Definition store : DB :=
  mkDB [mkPermission "Admin" ["*"]; mkPermission "Guest" ["public"]]
       []
       {[ "managers" := [kangan; vidit]; "students" := [asha] ]}.

Definition world : World := mkWorld store [] 0.

Definition admin : User := hard_coded_user.
Definition guest : User := mkUser "user-456" "Guest".

Definition in_CO : json := JObj [("Branch", JStr "CO")].
Definition where_sleep : json := JObj [("$where", JStr "sleep(10000)")].
Definition named_kangan : json := JObj [("Name", JStr "Kangan Gupta")].
Definition set_CTC_70 : json := JObj [("$set", JObj [("CTC", JNum 70)])].
Definition set_CTC_75 : json := JObj [("$set", JObj [("CTC", JNum 75)])].
Definition no_update : UpdateQuery := mkUpdateQuery (JObj []) (JObj []).
Definition raise_kangan : UpdateQuery := mkUpdateQuery named_kangan set_CTC_75.
Definition level_CO : UpdateQuery := mkUpdateQuery in_CO set_CTC_70.
Definition paid_60 : json := JObj [("CTC", JNum 60)].
Definition raise_paid_60 : UpdateQuery := mkUpdateQuery paid_60 set_CTC_70.

(** An embedding of the wrong length. *)
Definition short_vector : list Q := [1 # 2; 1 # 4].


(** The agents translate to [in_CO], optimize to the same filter and score
    0.95; the update agent raises the CTC of one record. *)
Definition env_plain : Env := env in_CO in_CO specific raise_kangan short_vector.


(** The optimization agent answers with a [$where] filter. *)
Definition env_where : Env := env in_CO where_sleep specific raise_kangan short_vector.

(** The query agent itself answers with a [$where] filter. *)
Definition env_unsafe : Env := env where_sleep where_sleep specific raise_kangan short_vector.

(** The update agent sets the CTC of the whole CO branch to 70. *)
Definition env_level : Env := env in_CO in_CO specific level_CO short_vector.

(** The update agent refuses: empty filter and empty mutation. *)
Definition env_refusal : Env := env in_CO in_CO specific no_update short_vector.

(** The update agent sets to 70 the CTC of the records where it is 60. *)
Definition env_raise_60 : Env := env in_CO in_CO specific raise_paid_60 short_vector.

Definition safe_verdict : SecurityCheck :=
  mkSecurityCheck true "Query uses safe find operators.".

Definition find_CO : string := "find managers in CO".

(** An update of every record: the filter is empty. *)
Definition everyone_75 : UpdateQuery := mkUpdateQuery (JObj []) set_CTC_75.

Definition lax_verdict : SecurityCheck :=
  mkSecurityCheck true "Update uses $set operator and a specific filter.".

(** The update agent answers [everyone_75] and the update security agent
    finds every update safe. *)
Definition env_lax : Env :=
  mkEnv (scripted (Answer in_CO) (Answer in_CO) security (Answer specific)
                  (Answer "Kangan Gupta is in the CO branch.")
                  (Answer everyone_75) (fun _ => Answer lax_verdict))
        (fun _ => EmbedValues short_vector)
        equal_attributes set_attributes first_with_embedding.
End Sample.


(** ** Predicates used by the statements *)

(** The events the retrieval pipeline can produce. *)
Definition rag_event (userInput : string) (ev : Event) : Prop :=
  match ev with
  | CallEmbedding text => text = Raw userInput
  | Aggregate collectionName _ => collectionName = "managers"
  | CallGemini systemPrompt (QuestionContext question _) =>
      systemPrompt = RAG_AGENT_PROMPT /\ question = userInput
  | _ => False
  end.

(** A call of the model or a reading of the permissions: the events of a
    run that has not touched a collection or the audit log. *)
Definition model_or_gate_event (ev : Event) : Prop :=
  match ev with
  | CallGemini _ _ | FindPermission _ => True
  | _ => False
  end.

(** The events the structured-query pipeline can produce, for an input
    text and a target collection. *)
Definition nl_event (userInput collectionName : string) (ev : Event) : Prop :=
  match ev with
  | CallGemini QUERY_AGENT_PROMPT text
  | CallGemini VALIDATION_AGENT_PROMPT text => text = Raw userInput
  | CallGemini SECURITY_AGENT_PROMPT text
  | CallGemini OPTIMIZATION_AGENT_PROMPT text => exists q : json, text = Stringify q
  | FindPermission _ | InsertAudit _ => True
  | Find name _ => name = collectionName
  | _ => False
  end.

(** The claim of the role on a collection fails: it has no permission
    record, or its record lists neither the wildcard nor the collection. *)
Definition unauthorized (d : DB) (user : User) (collectionName : string) : Prop :=
  match List.find (fun p => String.eqb (perm_role p) (role user)) (Permissions d) with
  | None => True
  | Some p =>
      ~ In "*" (allowedCollections p) /\ ~ In collectionName (allowedCollections p)
  end.

(** The events of a completed re-embedding loop over [docs]. *)
Definition reSync_events (E : Env) (collectionName : string) (docs : list Doc) : list Event :=
  flat_map (fun doc =>
              match embedContent E (createTextForEmbedding doc) with
              | EmbedValues embedding =>
                  [CallEmbedding (createTextForEmbedding doc);
                   UpdateOne collectionName (doc !! "_id") embedding]
              | _ => [CallEmbedding (createTextForEmbedding doc)]
              end) docs.

(** An event of a hybrid request. *)
Definition hybrid_event (userInput collectionName : string) (ev : Event) : Prop :=
  nl_event userInput collectionName ev \/ rag_event userInput ev.

(** An event that is not the write of an embedding of the wrong length. *)
Definition stores_declared_dimension (ev : Event) : Prop :=
  match ev with
  | UpdateOne _ _ embedding => length embedding = EMBEDDING_DIMENSIONS
  | _ => True
  end.

(** The answer of the permission gate for a user and a collection. *)
Definition permitted (d : DB) (user : User) (collectionName : string) : bool :=
  hasPermission (List.find (fun p => String.eqb (perm_role p) (role user)) (Permissions d))
                collectionName.

(** Two records that agree on every attribute but the embedding. *)
Definition same_but_docEmbedding (d d' : Doc) : Prop :=
  forall k : string, k <> "docEmbedding" -> d' !! k = d !! k.

(** What a step of the program may do to the store, if it only rewrites
    embeddings of one collection. *)
Definition only_embeddings_of (collectionName : string) (d d' : DB) : Prop :=
  Permissions d' = Permissions d /\
  AuditLogs d' = AuditLogs d /\
  (forall other : string, other <> collectionName ->
     collection d' other = collection d other) /\
  Forall2 same_but_docEmbedding (collection d collectionName) (collection d' collectionName).

(** Splits on the reply of the model that [H] waits for. *)
Ltac case_reply H :=
  match type of H with
  | context [gemini ?E ?p ?t] =>
      let R := fresh "Hreply" in
      destruct (gemini E p t) eqn:R;
      cbn -[List.find List.filter hasPermission permitted] in H;
      try discriminate H
  end.

(** Closes the case where the run in [H] has just thrown. *)
Ltac thrown H :=
  inversion H; subst; cbn;
  repeat split; auto;
  eexists; rewrite <- ?app_assoc; (split; [reflexivity|]);
  cbn; repeat econstructor.

(** Splits on the reply of the model in [H]; the failing replies throw. *)
Ltac case_reply_or_thrown H :=
  match type of H with
  | context [gemini ?E ?p ?t] =>
      let R := fresh "Hreply" in
      destruct (gemini E p t) eqn:R;
      cbn -[List.find List.filter hasPermission permitted] in H;
      try (thrown H; fail)
  end.

(** Takes the induction hypothesis [IH] for the rest of a backfill loop. *)
Ltac continue_with IH :=
  match goal with
  | |- context [create_data_embeddings.process _ _ ?n ?w1] =>
      let evs := fresh "evs" in
      let Ht := fresh "Ht" in
      let He := fresh "He" in
      destruct (IH n w1) as (evs & Ht & He); rewrite Ht
  end.

(** Unfolds the operations of [M]. *)
Ltac run_M :=
  unfold mbind, M_bind, mret, M_ret, throw, emit, get_db, put_db, new_Date in *;
  cbn [fst snd db trace clock] in *.


(** ** Predicates and samples for the further properties *)

(** An event of the re-embedding loop. *)
Definition reSync_event (ev : Event) : Prop :=
  match ev with
  | CallEmbedding _ | UpdateOne _ _ _ => True
  | _ => False
  end.

(** The events of a run that got as far as the update: the permission
    lookup, the two model calls and the update itself. *)
Definition update_prefix (collectionName userInput : string) (user : User) (u : UpdateQuery)
  : list Event :=
  [FindPermission (role user);
   CallGemini UPDATE_AGENT_PROMPT (Raw userInput);
   CallGemini UPDATE_SECURITY_AGENT_PROMPT (StringifyUpdate u);
   UpdateMany collectionName (filter u) (update u)].

(** The attributes [createTextForEmbedding] reads. *)
Definition summary_attributes : list string :=
  ["Name"; "CGPA"; "Branch"; "Role"; "Company"; "CTC"; "Details"].

(** The backfill script stores an embedding for this record: the endpoint
    answers a vector of the declared dimension. *)
Definition storable (E : Env) (doc : Doc) : bool :=
  match embedContent E (createTextForEmbedding doc) with
  | EmbedValues values => Nat.eqb (length values) EMBEDDING_DIMENSIONS
  | _ => false
  end.

(** What the backfill script does for one record. *)
Definition process_events_of (E : Env) (doc : Doc) : list Event :=
  CallEmbedding (createTextForEmbedding doc) ::
  match embedContent E (createTextForEmbedding doc) with
  | EmbedUnreachable message => [ConsoleError (TransportError message)]
  | EmbedStatus code errorBody => [ConsoleError (EmbeddingUpstreamError code errorBody)]
  | EmbedNoValues => [ConsoleError EmbeddingTypeError]
  | EmbedValues values =>
      if Nat.eqb (length values) EMBEDDING_DIMENSIONS
      then [UpdateOne "managers" (doc !! "_id") values]
      else [ConsoleError (DimensionMismatchError (length values) EMBEDDING_DIMENSIONS)]
  end.

(** The sample agents and store, with the embedding endpoint answering
    503 to every request. *)
Definition env_offline : Env :=
  mkEnv (gemini Sample.env_plain)
        (fun _ => EmbedStatus 503 "Service Unavailable")
        (matches Sample.env_plain) (applyUpdate Sample.env_plain)
        (vectorSearch Sample.env_plain).

(** The query agent answers a [$where] filter, which the security agent
    rejects, and the embedding endpoint answers 503: both pipelines of a
    hybrid request throw. *)
Definition env_unsafe_offline : Env :=
  mkEnv (gemini Sample.env_unsafe)
        (fun _ => EmbedStatus 503 "Service Unavailable")
        (matches Sample.env_plain) (applyUpdate Sample.env_plain)
        (vectorSearch Sample.env_plain).

(** A record whose CTC is 0. *)
Definition unpaid : Doc := {[ "_id" := JNum 9; "Name" := JStr "Ravi"; "CTC" := JNum 0 ]}.

(** The sample store without any stored embedding. *)
Definition world_unembedded : World :=
  mkWorld (mkDB (Permissions Sample.store) []
                {[ "managers" := [Sample.vidit]; "students" := [Sample.asha] ]})
          [] 0.

(** The answer of the retrieval pipeline when the search finds nothing. *)
Definition nothing_found : gemini_backend.RagResult :=
  gemini_backend.mkRagResult "answer" 0
    "I'm sorry, I couldn't find any relevant information in the database to answer that question."
    [].

(** An event of the update pipeline that comes after the update. *)
Definition after_update_event (ev : Event) : Prop :=
  match ev with
  | CallEmbedding _ | UpdateOne _ _ _ | Find _ _ | InsertAudit _ => True
  | _ => False
  end.

(** A store that reads every filter as "has no embedding": the reading of
    the one filter the backfill script uses. *)
Definition missing_embedding (f : json) (d : Doc) : bool :=
  match d !! "docEmbedding" with
  | None => true
  | Some _ => false
  end.

(** The sample agents with that store; the embedding endpoint answers the
    short vector. *)
Definition env_backfill : Env :=
  mkEnv (gemini Sample.env_plain) (embedContent Sample.env_plain)
        missing_embedding (applyUpdate Sample.env_plain) (vectorSearch Sample.env_plain).

(** The records of a list have pairwise different [_id]s. *)
Fixpoint distinct_ids (docs : list Doc) : Prop :=
  match docs with
  | [] => True
  | d :: rest =>
      Forall (fun d' : Doc => has_id (d !! "_id") d' = false /\
                              has_id (d' !! "_id") d = false) rest /\
      distinct_ids rest
  end.

(** The record with the embedding that the endpoint gives for its text. *)
Definition embedded (E : Env) (d : Doc) : Doc :=
  match embedContent E (createTextForEmbedding d) with
  | EmbedValues embedding => <["docEmbedding" := vector_json embedding]> d
  | _ => d
  end.

(** The collection after a completed re-embedding loop over [docs]. *)
Definition reSync_docs (E : Env) (docs stored : list Doc) : list Doc :=
  fold_left (fun acc doc =>
               match embedContent E (createTextForEmbedding doc) with
               | EmbedValues embedding => updateOne_docs (doc !! "_id") embedding acc
               | _ => acc
               end) docs stored.

(** Requests to the embedding endpoint and writes of an embedding, among
    the events of a run. *)
Definition is_embedding_call (ev : Event) : bool :=
  match ev with
  | CallEmbedding _ => true
  | _ => false
  end.

Definition is_embedding_write (ev : Event) : bool :=
  match ev with
  | UpdateOne _ _ _ => true
  | _ => false
  end.


(** ** Functions that run together *)

(** Two worlds with the same store and the same clock. *)
Definition same_state (w1 w2 : World) : Prop :=
  db w1 = db w2 /\ clock w1 = clock w2.

(** An interaction that only reads the collections: its outcome is a
    function of them, the store and the clock stay, and it is one event. *)
Definition reads_collections {B} (m : M B) : Prop :=
  forall w : World,
    exists (o : Outcome B) (ev : Event),
      forall w1 : World,
        collections (db w1) = collections (db w) ->
        m w1 = (o, mkWorld (db w1) (trace w1 ++ [ev]) (clock w1)).

(** An interaction that leaves the collections as they are: its outcome
    and what it does are a function of the store and the clock, and it is
    one event. *)
Definition keeps_collections {B} (m : M B) : Prop :=
  forall w : World,
    exists (o : Outcome B) (d' : DB) (c' : nat) (ev : Event),
      collections d' = collections (db w) /\
      forall w1 : World,
        same_state w1 w ->
        m w1 = (o, mkWorld d' (trace w1 ++ [ev]) c').

(** A function all of whose interactions only read the collections. *)
Fixpoint reader {A} (t : Task A) : Prop :=
  match t with
  | Finished _ => True
  | Await m k => reads_collections m /\ forall b, reader (k b)
  end.

(** A function all of whose interactions leave the collections. *)
Fixpoint keeper {A} (t : Task A) : Prop :=
  match t with
  | Finished _ => True
  | Await m k => keeps_collections m /\ forall b, keeper (k b)
  end.

(** [t] is an interleaving of [l] and [r]: the elements of both, each list
    in its own order. *)
Inductive interleaved {A : Type} : list A -> list A -> list A -> Prop :=
  | interleaved_nil : interleaved [] [] []
  | interleaved_left (x : A) (l r t : list A) :
      interleaved l r t -> interleaved (x :: l) r (x :: t)
  | interleaved_right (x : A) (l r t : list A) :
      interleaved l r t -> interleaved l (x :: r) (x :: t).

(** What [Promise.all] gives for the outcomes [a] and [b] of its two
    functions: both results, or the error of the one that threw; when
    both threw, the error of one of them. *)
Definition settles {A B} (seen : option Error) (a : Outcome A) (b : Outcome B)
    (res : Outcome (A * B)) : Prop :=
  match seen, a, b with
  | Some e, _, _ => res = Throw e
  | None, Return x, Return y => res = Return (x, y)
  | None, Throw e, Return _ => res = Throw e
  | None, Return _, Throw e => res = Throw e
  | None, Throw e1, Throw e2 => res = Throw e1 \/ res = Throw e2
  end.

(** The answer of a hybrid request for the outcomes of its pipelines. *)
Definition answers (nl : Outcome gemini_backend.NlResult) (rg : Outcome gemini_backend.RagResult)
    (response : gemini_backend.Response gemini_backend.HybridBody) : Prop :=
  match nl, rg with
  | Return nlResult, Return ragResult =>
      response =
        if Qgtb (gemini_backend.nl_confidence nlResult) (gemini_backend.rag_confidence ragResult)
        then gemini_backend.Json (gemini_backend.nl_to_query nlResult)
        else gemini_backend.Json (gemini_backend.rag ragResult)
  | Throw e, Return _ => response = gemini_backend.ServerError e
  | Return _, Throw e => response = gemini_backend.ServerError e
  | Throw e1, Throw e2 =>
      response = gemini_backend.ServerError e1 \/ response = gemini_backend.ServerError e2
  end.


(** * Properties *)

Import gemini_backend.

(** ** Running the monad *)

Lemma bind_run {A B} (m : M A) (f : A -> M B) (w : World) :
  (m ≫= f) w =
  match m w with
  | (Return a, w') => f a w'
  | (Throw e, w') => (Throw e, w')
  end.
Proof. reflexivity. Qed.

(** ** The store *)

Lemma collection_set_same (d : DB) (name : string) (docs : list Doc) :
  collection (set_collection d name docs) name = docs.
Proof. unfold collection, set_collection; cbn. by rewrite lookup_insert_eq. Qed.

Lemma collection_set_other (d : DB) (name other : string) (docs : list Doc) :
  other <> name ->
  collection (set_collection d name docs) other = collection d other.
Proof. intros H. unfold collection, set_collection; cbn. by rewrite lookup_insert_ne. Qed.

Lemma same_but_docEmbedding_refl (d : Doc) : same_but_docEmbedding d d.
Proof. by intros k _. Qed.

Lemma same_but_docEmbedding_trans (d1 d2 d3 : Doc) :
  same_but_docEmbedding d1 d2 -> same_but_docEmbedding d2 d3 ->
  same_but_docEmbedding d1 d3.
Proof. intros H12 H23 k Hk. rewrite (H23 k Hk). by apply H12. Qed.

Lemma all_same_but_docEmbedding_refl (docs : list Doc) :
  Forall2 same_but_docEmbedding docs docs.
Proof. induction docs; constructor; auto using same_but_docEmbedding_refl. Qed.

Lemma all_same_but_docEmbedding_trans (l1 l2 l3 : list Doc) :
  Forall2 same_but_docEmbedding l1 l2 -> Forall2 same_but_docEmbedding l2 l3 ->
  Forall2 same_but_docEmbedding l1 l3.
Proof.
  intros H12. revert l3. induction H12; intros l3 H23; inversion H23; subst.
  - constructor.
  - constructor; eauto using same_but_docEmbedding_trans.
Qed.

(** One write of the loop: the first record with the [_id] gets a new
    embedding, nothing else moves. *)
Lemma updateOne_docs_frame (_id : option json) (embedding : list Q) (docs : list Doc) :
  Forall2 same_but_docEmbedding docs (updateOne_docs _id embedding docs).
Proof.
  induction docs as [|d rest IH]; cbn.
  - constructor.
  - destruct (has_id _id d).
    + constructor.
      * intros k Hk. by rewrite lookup_insert_ne.
      * apply all_same_but_docEmbedding_refl.
    + constructor; auto using same_but_docEmbedding_refl.
Qed.

Lemma only_embeddings_of_refl (c : string) (d : DB) : only_embeddings_of c d d.
Proof. repeat split; auto using all_same_but_docEmbedding_refl. Qed.

Lemma only_embeddings_of_trans (c : string) (d1 d2 d3 : DB) :
  only_embeddings_of c d1 d2 -> only_embeddings_of c d2 d3 -> only_embeddings_of c d1 d3.
Proof.
  intros (P1 & A1 & O1 & F1) (P2 & A2 & O2 & F2). repeat split.
  - congruence.
  - congruence.
  - intros other H. rewrite O2, O1; auto.
  - eauto using all_same_but_docEmbedding_trans.
Qed.

Lemma updateOne_only_embeddings (c : string) (_id : option json) (e : list Q) (w : World) :
  fst (updateOne c _id e w) = Return tt /\
  only_embeddings_of c (db w) (db (snd (updateOne c _id e w))).
Proof.
  unfold updateOne. run_M. split; [reflexivity|]. repeat split.
  - intros other H. by apply collection_set_other.
  - rewrite collection_set_same. apply updateOne_docs_frame.
Qed.

Section ReSync.
Context (E : Env).

Lemma getEmbedding_db (text : Text) (w : World) :
  db (snd (getEmbedding E text w)) = db w.
Proof. unfold getEmbedding. run_M. by destruct (embedContent E text). Qed.

(** C10. In the re-embedding loop of the update pipeline every write sets
    the [docEmbedding] attribute only: whatever the embedding endpoint
    answers, and wherever the loop stops, the permissions, the audit log
    and the other collections are as before, and the records of the
    target collection are the same in number and order, each with every
    attribute other than [docEmbedding] unchanged. *)
Theorem reSync_sets_only_docEmbedding
    (collectionName : string) (updatedDocs : list Doc) (reEmbeddedCount : nat) (w : World) :
  let w' := snd (reSync E collectionName updatedDocs reEmbeddedCount w) in
  Permissions (db w') = Permissions (db w) /\
  AuditLogs (db w') = AuditLogs (db w) /\
  (forall other : string, other <> collectionName ->
     collection (db w') other = collection (db w) other) /\
  Forall2 (fun d d' : Doc => forall k : string, k <> "docEmbedding" -> d' !! k = d !! k)
          (collection (db w) collectionName) (collection (db w') collectionName).
Proof.
  cbn zeta. change (only_embeddings_of collectionName (db w)
    (db (snd (reSync E collectionName updatedDocs reEmbeddedCount w)))).
  revert reEmbeddedCount w.
  induction updatedDocs as [|doc rest IH]; intros n w.
  - apply only_embeddings_of_refl.
  - cbn [reSync]. rewrite bind_run.
    pose proof (getEmbedding_db (createTextForEmbedding doc) w) as Hdb.
    destruct (getEmbedding E (createTextForEmbedding doc) w) as [[embedding|e] w1];
      cbn [snd] in Hdb.
    + rewrite bind_run.
      destruct (updateOne_only_embeddings collectionName (doc !! "_id") embedding w1)
        as [Hret Hframe].
      destruct (updateOne collectionName (doc !! "_id") embedding w1) as [o w2].
      cbn [fst snd] in *. subst o. rewrite Hdb in Hframe.
      eapply only_embeddings_of_trans; [exact Hframe|apply IH].
    + cbn [snd]. rewrite Hdb. apply only_embeddings_of_refl.
Qed.

End ReSync.


(** ** The structured-query pipeline *)

Section NlToQuery.
Context (E : Env).

(** A run that returns went through every stage: this is all it did. *)
Lemma runNlToQueryPipeline_Return
    (userInput collectionName : string) (user : User) (w w' : World) (r : NlResult) :
  runNlToQueryPipeline E userInput collectionName user w = (Return r, w') ->
  exists q : json,
    gemini E QUERY_AGENT_PROMPT (Raw userInput) = Answer q /\
    gemini E SECURITY_AGENT_PROMPT (Stringify q) = Answer (securityCheck r) /\
    isSafe (securityCheck r) = true /\
    gemini E OPTIMIZATION_AGENT_PROMPT (Stringify q) = Answer (mongoQuery r) /\
    gemini E VALIDATION_AGENT_PROMPT (Raw userInput) = Answer (validation r) /\
    permitted (db w) user collectionName = true /\
    data r = project_out_embedding
               (List.filter (matches E (mongoQuery r)) (collection (db w) collectionName)) /\
    nl_confidence r = (if Nat.eqb (length (data r)) 0 then 0%Q else confidence (validation r)) /\
    let entry := QueryAudit (id user) (role user) userInput (mongoQuery r)
                            (length (data r)) (clock w) in
    db w' = insert_audit (db w) entry /\
    trace w' = trace w ++
      [CallGemini QUERY_AGENT_PROMPT (Raw userInput);
       CallGemini SECURITY_AGENT_PROMPT (Stringify q);
       CallGemini OPTIMIZATION_AGENT_PROMPT (Stringify q);
       CallGemini VALIDATION_AGENT_PROMPT (Raw userInput);
       FindPermission (role user);
       Find collectionName (mongoQuery r);
       InsertAudit entry].
Proof.
  intros H. unfold runNlToQueryPipeline, callGemini, findOnePermission, find, insertAudit in H.
  run_M.
  destruct (is_empty_text (Raw userInput)) eqn:Hempty;
    cbn -[List.find List.filter hasPermission] in H; [discriminate|].
  case_reply H. case_reply H.
  destruct (isSafe a0) eqn:Hsafe; cbn -[List.find List.filter hasPermission] in H; [|discriminate].
  case_reply H. case_reply H.
  fold (permitted (db w) user collectionName) in H.
  destruct (permitted (db w) user collectionName) eqn:Hperm;
    cbn -[List.find List.filter hasPermission] in H; [|discriminate].
  inversion H; subst; clear H. cbn -[List.filter].
  exists a. rewrite <- !app_assoc. cbn -[List.filter]. repeat split; auto.
Qed.


(** A run that throws has called the model and read the permissions at
    most: no collection was read and nothing was written. *)
Lemma runNlToQueryPipeline_Throw
    (userInput collectionName : string) (user : User) (w w' : World) (e : Error) :
  runNlToQueryPipeline E userInput collectionName user w = (Throw e, w') ->
  db w' = db w /\ clock w' = clock w /\
  exists evs : list Event,
    trace w' = trace w ++ evs /\
    Forall model_or_gate_event evs /\ Forall (nl_event userInput collectionName) evs.
Proof.
  intros H. unfold runNlToQueryPipeline, callGemini, findOnePermission, find, insertAudit in H.
  run_M.
  destruct (is_empty_text (Raw userInput)) eqn:Hempty;
    cbn -[List.find List.filter hasPermission] in H.
  { inversion H; subst. repeat split; auto. exists []. by rewrite app_nil_r. }
  case_reply_or_thrown H. case_reply_or_thrown H.
  destruct (isSafe a0) eqn:Hsafe; cbn -[List.find List.filter hasPermission] in H;
    [|thrown H].
  case_reply_or_thrown H. case_reply_or_thrown H.
  fold (permitted (db w) user collectionName) in H.
  destruct (permitted (db w) user collectionName) eqn:Hperm;
    cbn -[List.find List.filter hasPermission] in H; [discriminate|thrown H].
Qed.


(** With every agent answering and a safe verdict, an unauthorized
    request stops at the permission gate. *)
Lemma runNlToQueryPipeline_denied
    (userInput collectionName : string) (user : User) (w : World)
    (q o : json) (s : SecurityCheck) (v : Validation) :
  userInput <> "" ->
  gemini E QUERY_AGENT_PROMPT (Raw userInput) = Answer q ->
  gemini E SECURITY_AGENT_PROMPT (Stringify q) = Answer s ->
  isSafe s = true ->
  gemini E OPTIMIZATION_AGENT_PROMPT (Stringify q) = Answer o ->
  gemini E VALIDATION_AGENT_PROMPT (Raw userInput) = Answer v ->
  permitted (db w) user collectionName = false ->
  fst (runNlToQueryPipeline E userInput collectionName user w) =
  Throw (AccessDeniedError (role user) collectionName).
Proof.
  intros Hu Hq Hs Hsafe Ho Hv Hperm.
  unfold runNlToQueryPipeline, callGemini, findOnePermission. run_M.
  destruct userInput as [|c0 rest]; [done|].
  cbn -[List.find hasPermission]. rewrite Hq. cbn -[List.find hasPermission].
  rewrite Hs. cbn -[List.find hasPermission].
  rewrite Hsafe. cbn -[List.find hasPermission].
  rewrite Ho. cbn -[List.find hasPermission].
  rewrite Hv. cbn -[List.find hasPermission].
  fold (permitted (db w) user collectionName). by rewrite Hperm.
Qed.

End NlToQuery.

(** ** The retrieval pipeline *)

Section Rag.
Context (E : Env).

(** Whatever its outcome, the retrieval pipeline leaves the store and the
    clock as they were and adds only events of its three steps. *)
Lemma runRagPipeline_effect (userInput : string) (user : User) (w : World) :
  let w' := snd (runRagPipeline E userInput user w) in
  db w' = db w /\ clock w' = clock w /\
  exists evs : list Event, trace w' = trace w ++ evs /\ Forall (rag_event userInput) evs.
Proof.
  unfold runRagPipeline, getEmbedding, callGemini. run_M.
  destruct (embedContent E (Raw userInput)) as [m|c b| |v]; cbn;
    try (repeat split; auto; eexists; split; [reflexivity|];
         repeat constructor; fail).
  destruct (vectorSearch E "vectorIndex" "docEmbedding" v 100 5 (collection (db w) "managers"))
    as [|first hits]; cbn.
  - repeat split; auto. eexists. rewrite <- app_assoc. split; [reflexivity|].
    repeat constructor.
  - destruct (gemini E RAG_AGENT_PROMPT _) as [| | | | |a]; cbn;
      try destruct (String.eqb a ""); cbn;
      (repeat split; auto; eexists; rewrite <- !app_assoc; split; [reflexivity|];
       repeat constructor).
Qed.


End Rag.

(** ** The arbitration *)


Section Arbitration.
Context (E : Env).



End Arbitration.


(** ** The update pipeline *)

Section Update.
Context (E : Env).

Lemma includes_In (names : list string) (x : string) :
  includes names x = true <-> In x names.
Proof.
  unfold includes. rewrite existsb_exists. split.
  - intros (y & Hy & Heq). apply String.eqb_eq in Heq. by subst.
  - intros H. exists x. split; [done|apply String.eqb_refl].
Qed.

(** The permission gate says no exactly on unauthorized requests. *)
Lemma permitted_false (d : DB) (user : User) (collectionName : string) :
  permitted d user collectionName = false <-> unauthorized d user collectionName.
Proof.
  unfold permitted, unauthorized, hasPermission.
  destruct (List.find _ (Permissions d)) as [p|]; [|done].
  rewrite orb_false_iff, <- !not_true_iff_false, !includes_In. tauto.
Qed.

(** A completed loop has re-embedded every record it was given, one
    embedding call and one write for each. *)
Lemma reSync_Return
    (collectionName : string) (docs : list Doc) (n m : nat) (w w' : World) :
  reSync E collectionName docs n w = (Return m, w') ->
  m = n + length docs /\
  clock w' = clock w /\
  trace w' = trace w ++ reSync_events E collectionName docs.
Proof.
  revert n w. induction docs as [|doc rest IH]; intros n w H.
  - cbn in H. run_M. inversion H; subst. cbn. rewrite app_nil_r. repeat split; try lia.
  - cbn [reSync] in H. unfold getEmbedding, updateOne in H. run_M.
    unfold reSync_events. cbn [flat_map]. fold (reSync_events E collectionName rest).
    destruct (embedContent E (createTextForEmbedding doc)) as [msg|c b| |v];
      cbn -[reSync createTextForEmbedding] in H; try discriminate H.
    apply IH in H as (-> & Hclock & Htrace). cbn -[createTextForEmbedding] in *.
    rewrite Htrace, <- !app_assoc. repeat split; auto; lia.
Qed.

(** The re-embedding loop, whatever its outcome: it rewrites embeddings of
    the collection and nothing else, and calls the embedding endpoint and
    writes single records and nothing else. *)
Lemma reSync_effect (collectionName : string) (docs : list Doc) (n : nat) (w : World) :
  let w' := snd (reSync E collectionName docs n w) in
  clock w' = clock w /\
  only_embeddings_of collectionName (db w) (db w') /\
  exists evs : list Event, trace w' = trace w ++ evs /\ Forall reSync_event evs.
Proof.
  cbn zeta. revert n w. induction docs as [|doc rest IH]; intros n w.
  - cbn. repeat split; auto using all_same_but_docEmbedding_refl.
    exists []. by rewrite app_nil_r.
  - cbn [reSync]. unfold getEmbedding, updateOne. run_M.
    destruct (embedContent E (createTextForEmbedding doc)) as [m|c b| |v];
      cbn -[reSync createTextForEmbedding collection set_collection];
      try (split; [reflexivity|]; split; [apply only_embeddings_of_refl|];
           eexists; split; [reflexivity|]; repeat constructor).
    match goal with
    | |- context [reSync E collectionName rest (S n) ?w1] =>
        destruct (IH (S n) w1) as (Hclock & Hframe & evs & Htrace & Hevs)
    end.
    cbn -[reSync createTextForEmbedding collection set_collection] in *.
    split; [exact Hclock|]. split.
    + eapply only_embeddings_of_trans; [|exact Hframe].
      repeat split; auto.
      * intros other H. by apply collection_set_other.
      * rewrite collection_set_same. apply updateOne_docs_frame.
    + rewrite Htrace, <- !app_assoc. eexists. split; [reflexivity|].
      cbn -[createTextForEmbedding]. repeat (constructor; [exact I|]). exact Hevs.
Qed.

(** A run of the update pipeline that returns went through every step:
    this is all it did. *)
Lemma runUpdatePipeline_Return
    (userInput collectionName : string) (user : User) (w w' : World) (r : UpdateResult) :
  runUpdatePipeline E userInput collectionName user w = (Return r, w') ->
  permitted (db w) user collectionName = true /\
  exists (u : UpdateQuery) (verdict : SecurityCheck),
    gemini E UPDATE_AGENT_PROMPT (Raw userInput) = Answer u /\
    gemini E UPDATE_SECURITY_AGENT_PROMPT (StringifyUpdate u) = Answer verdict /\
    isSafe verdict = true /\
    let docs := collection (db w) collectionName in
    let refetched :=
      List.filter (matches E (filter u)) (updateMany_docs E (filter u) (update u) docs) in
    success r = true /\
    modifiedCount r = length (List.filter (modified E (filter u) (update u)) docs) /\
    reEmbeddedCount r = (if Nat.ltb 0 (modifiedCount r) then length refetched else 0) /\
    trace w' = trace w ++
      [FindPermission (role user);
       CallGemini UPDATE_AGENT_PROMPT (Raw userInput);
       CallGemini UPDATE_SECURITY_AGENT_PROMPT (StringifyUpdate u);
       UpdateMany collectionName (filter u) (update u)] ++
      (if Nat.ltb 0 (modifiedCount r)
       then Find collectionName (filter u) :: reSync_events E collectionName refetched
       else []) ++
      [InsertAudit (UpdateAudit (id user) (role user) userInput u
                                (modifiedCount r) (clock w))].
Proof.
  intros H.
  unfold runUpdatePipeline, callGemini, findOnePermission, updateMany, find, insertAudit in H.
  run_M. fold (permitted (db w) user collectionName) in H.
  destruct (is_empty_text (Raw userInput)) eqn:Hempty;
    (destruct (permitted (db w) user collectionName) eqn:Hperm;
     cbn -[List.filter reSync Nat.ltb collection set_collection] in H; [|discriminate H]);
    [discriminate H|].
  split; [reflexivity|].
  destruct (gemini E UPDATE_AGENT_PROMPT (Raw userInput)) as [| | | | |u] eqn:Hu;
    cbn -[List.filter reSync Nat.ltb collection set_collection] in H; try discriminate H.
  destruct (gemini E UPDATE_SECURITY_AGENT_PROMPT (StringifyUpdate u))
    as [| | | | |verdict] eqn:Hv;
    cbn -[List.filter reSync Nat.ltb collection set_collection] in H; try discriminate H.
  destruct (isSafe verdict) eqn:Hsafe; cbn -[List.filter reSync Nat.ltb collection set_collection] in H;
    [|discriminate H].
  exists u, verdict. repeat (split; [reflexivity|]).
  destruct (Nat.ltb 0 (length (List.filter (modified E (filter u) (update u))
                                 (collection (db w) collectionName)))) eqn:Hmod;
    cbn -[List.filter reSync Nat.ltb collection set_collection] in H.
  - rewrite collection_set_same in H.
    match type of H with
    | context [reSync E ?c ?docs ?n ?w0] =>
        destruct (reSync E c docs n w0) as [[m|e] w2] eqn:Hsync
    end; cbn -[List.filter reSync Nat.ltb collection set_collection] in H; [|discriminate H].
    apply reSync_Return in Hsync as (-> & Hclock & Htrace).
    inversion H; subst; clear H. cbn -[List.filter Nat.ltb collection set_collection] in *.
    rewrite Hmod, Htrace, Hclock, <- !app_assoc. cbn -[List.filter Nat.ltb collection set_collection].
    repeat split; auto.
  - inversion H; subst; clear H. cbn -[List.filter Nat.ltb collection set_collection].
    rewrite Hmod, <- !app_assoc. repeat split; auto.
Qed.

(** The update pipeline asks the permission gate first. *)
Lemma runUpdatePipeline_denied
    (userInput collectionName : string) (user : User) (w : World) :
  permitted (db w) user collectionName = false ->
  runUpdatePipeline E userInput collectionName user w =
  (Throw (AccessDeniedError (role user) collectionName),
   mkWorld (db w) (trace w ++ [FindPermission (role user)]) (clock w)).
Proof.
  intros Hperm. unfold runUpdatePipeline, findOnePermission. run_M.
  fold (permitted (db w) user collectionName). by rewrite Hperm.
Qed.

(** C3, as the code has it. The update safety check is the reply of the
    model to [UPDATE_SECURITY_AGENT_PROMPT], read at [isSafe]; the pipeline
    does not look at the filter or at the mutation itself. For an
    authorized update request that the update agent has translated and
    the update security agent has judged: if the verdict is unsafe the
    pipeline throws the security rejection with the reason of the verdict,
    its only events being the permission lookup and the two model calls,
    so no update is sent to the store and the database is unchanged; if
    the verdict is safe the translated update is sent to the store,
    whatever its filter and its mutation are. *)
Theorem unsafe_verdict_aborts_update
    (userInput collectionName : string) (user : User) (w : World)
    (u : UpdateQuery) (verdict : SecurityCheck) :
  permitted (db w) user collectionName = true ->
  userInput <> "" ->
  gemini E UPDATE_AGENT_PROMPT (Raw userInput) = Answer u ->
  gemini E UPDATE_SECURITY_AGENT_PROMPT (StringifyUpdate u) = Answer verdict ->
  let run := runUpdatePipeline E userInput collectionName user w in
  (isSafe verdict = false ->
   run = (Throw (UpdateSecurityRejectedError (reason verdict)),
          mkWorld (db w)
                  (trace w ++
                     [FindPermission (role user);
                      CallGemini UPDATE_AGENT_PROMPT (Raw userInput);
                      CallGemini UPDATE_SECURITY_AGENT_PROMPT (StringifyUpdate u)])
                  (clock w))) /\
  (isSafe verdict = true ->
   exists evs : list Event,
     trace (snd run) =
       trace w ++
         [FindPermission (role user);
          CallGemini UPDATE_AGENT_PROMPT (Raw userInput);
          CallGemini UPDATE_SECURITY_AGENT_PROMPT (StringifyUpdate u);
          UpdateMany collectionName (filter u) (update u)] ++ evs).
Proof.
  intros Hperm Hinput Hu Hv. cbn zeta.
  unfold runUpdatePipeline, callGemini, findOnePermission, updateMany, find, insertAudit.
  run_M. fold (permitted (db w) user collectionName). rewrite Hperm.
  destruct userInput as [|c0 rest]; [done|].
  cbn -[List.filter reSync Nat.ltb collection set_collection].
  rewrite Hu. cbn -[List.filter reSync Nat.ltb collection set_collection].
  rewrite Hv. cbn -[List.filter reSync Nat.ltb collection set_collection].
  split; intros Hsafe; rewrite Hsafe;
    cbn -[List.filter reSync Nat.ltb collection set_collection].
  - by rewrite <- !app_assoc.
  - destruct (Nat.ltb 0 (length (List.filter (modified E (filter u) (update u))
                                   (collection (db w) collectionName)))) eqn:Hmod;
      cbn -[List.filter reSync Nat.ltb collection set_collection].
    + match goal with
      | |- context [reSync E ?c ?docs ?n ?w0] =>
          destruct (reSync_effect c docs n w0) as (_ & _ & evs & Htrace & _);
          destruct (reSync E c docs n w0) as [[m|e] w2]
      end; cbn -[List.filter Nat.ltb collection set_collection] in *;
        rewrite Htrace, <- !app_assoc; cbn [app]; by eexists.
    + rewrite <- !app_assoc. cbn [app]. by eexists.
Qed.

(** Records that stay matched keep the re-fetch as long as the first
    selection. *)
Lemma refetch_length (f u : json) (docs : list Doc) :
  (forall d : Doc, In d docs -> matches E f d = true ->
     matches E f (applyUpdate E u d) = true) ->
  length (List.filter (matches E f) (updateMany_docs E f u docs)) =
  length (List.filter (matches E f) docs).
Proof.
  induction docs as [|d rest IH]; intros Hstable; [reflexivity|].
  cbn [updateMany_docs map List.filter].
  fold (updateMany_docs E f u rest).
  destruct (matches E f d) eqn:Hd.
  - rewrite (Hstable d (or_introl eq_refl) Hd). cbn [length]. f_equal.
    apply IH. intros d' Hin. apply Hstable. by right.
  - rewrite Hd. apply IH. intros d' Hin. apply Hstable. by right.
Qed.

(** The modified records are among the matched ones. *)
Lemma modified_le_matched (f u : json) (docs : list Doc) :
  length (List.filter (modified E f u) docs) <= length (List.filter (matches E f) docs).
Proof.
  induction docs as [|d rest IH]; [reflexivity|].
  cbn [List.filter]. unfold modified at 1.
  destruct (matches E f d); cbn [andb].
  - destruct (negb _); cbn [length]; lia.
  - exact IH.
Qed.

(** C7, as the code has it. When the update pipeline returns,
    [modifiedCount] is the number of records of the collection that the
    filter matched and the mutation changed, and the re-fetch of the
    re-embedding step is among the events of the run if and only if that
    number is positive. If moreover the mutation keeps every matched
    record matching the filter, then [reEmbeddedCount] is 0 when nothing
    was modified and otherwise the number of records the filter matches,
    changed or not, which is at least [modifiedCount]. *)
Theorem reEmbedding_follows_modification
    (userInput collectionName : string) (user : User) (w : World) (r : UpdateResult) :
  fst (runUpdatePipeline E userInput collectionName user w) = Return r ->
  exists (u : UpdateQuery) (evs : list Event),
    gemini E UPDATE_AGENT_PROMPT (Raw userInput) = Answer u /\
    trace (snd (runUpdatePipeline E userInput collectionName user w)) = trace w ++ evs /\
    let docs := collection (db w) collectionName in
    modifiedCount r = length (List.filter (modified E (filter u) (update u)) docs) /\
    (In (Find collectionName (filter u)) evs <-> 0 < modifiedCount r) /\
    ((forall d : Doc, In d docs -> matches E (filter u) d = true ->
        matches E (filter u) (applyUpdate E (update u) d) = true) ->
     reEmbeddedCount r =
       (if Nat.eqb (modifiedCount r) 0 then 0
        else length (List.filter (matches E (filter u)) docs)) /\
     modifiedCount r <= reEmbeddedCount r).
Proof.
  intros H.
  destruct (runUpdatePipeline E userInput collectionName user w) as [o w'] eqn:Hrun.
  cbn in H; subst o. cbn [snd].
  apply runUpdatePipeline_Return in Hrun
    as (_ & u & verdict & Hu & _ & _ & _ & Hmod & Hre & Htrace).
  exists u. eexists. split; [exact Hu|]. split; [exact Htrace|].
  cbn zeta. split; [exact Hmod|]. split.
  - destruct (Nat.ltb_spec 0 (modifiedCount r)) as [Hpos|Hzero].
    + split; [done|]. intros _. apply in_or_app. right.
      apply in_or_app. left. by left.
    + split; [|lia]. intros Hin. exfalso.
      apply in_app_or in Hin as [Hin|Hin].
      * cbn in Hin. repeat destruct Hin as [Hin|Hin]; try discriminate Hin; done.
      * cbn in Hin. destruct Hin as [Hin|[]]. discriminate Hin.
  - intros Hstable. rewrite Hre, (refetch_length _ _ _ Hstable).
    destruct (modifiedCount r) as [|n] eqn:Hn; cbn; [done|].
    split; [reflexivity|]. rewrite Hmod. apply modified_le_matched.
Qed.

End Update.


(** ** The permission gate *)

Section Gate.
Context (E : Env).

(** C6, as the code has it. For a request by a role that has no
    permission record, or whose record lists neither the wildcard nor the
    target collection: the update pipeline throws the access denial with
    the permission lookup as its only event, so before any model call;
    the structured-query pipeline throws, having only called the model
    and read the permissions, so without reading the collection or
    writing anything, and what it throws is the access denial whenever its
    four model calls were answered and the verdict was safe (otherwise it
    is the error of the stage that failed first). *)
Theorem unauthorized_request_is_refused
    (userInput collectionName : string) (user : User) (w : World) :
  unauthorized (db w) user collectionName ->
  runUpdatePipeline E userInput collectionName user w =
    (Throw (AccessDeniedError (role user) collectionName),
     mkWorld (db w) (trace w ++ [FindPermission (role user)]) (clock w)) /\
  let run := runNlToQueryPipeline E userInput collectionName user w in
  (exists e : Error, fst run = Throw e) /\
  db (snd run) = db w /\
  (exists evs : list Event,
     trace (snd run) = trace w ++ evs /\ Forall model_or_gate_event evs) /\
  (forall (q o : json) (s : SecurityCheck) (v : Validation),
     userInput <> "" ->
     gemini E QUERY_AGENT_PROMPT (Raw userInput) = Answer q ->
     gemini E SECURITY_AGENT_PROMPT (Stringify q) = Answer s ->
     isSafe s = true ->
     gemini E OPTIMIZATION_AGENT_PROMPT (Stringify q) = Answer o ->
     gemini E VALIDATION_AGENT_PROMPT (Raw userInput) = Answer v ->
     fst run = Throw (AccessDeniedError (role user) collectionName)).
Proof.
  intros Hun. apply permitted_false in Hun.
  split; [by apply runUpdatePipeline_denied|]. cbn zeta.
  destruct (runNlToQueryPipeline E userInput collectionName user w) as [[r|e] w'] eqn:Hrun.
  - apply runNlToQueryPipeline_Return in Hrun as (q & _ & _ & _ & _ & _ & Hperm & _).
    congruence.
  - pose proof Hrun as Hthrow.
    apply runNlToQueryPipeline_Throw in Hthrow as (Hdb & _ & evs & Htrace & Hevs & _).
    cbn [fst snd]. repeat split; eauto.
    intros q o s v Hu Hq Hs Hsafe Ho Hv.
    pose proof (runNlToQueryPipeline_denied E userInput collectionName user w
                  q o s v Hu Hq Hs Hsafe Ho Hv Hun) as Hden.
    by rewrite Hrun in Hden.
Qed.

End Gate.

(** ** Functions that run together *)

Lemma interleaved_app {X : Type} (l r : list X) : interleaved l r (l ++ r).
Proof.
  induction l as [|x l IH]; cbn.
  - induction r as [|y r IH]; constructor. exact IH.
  - constructor. exact IH.
Qed.

Lemma interleaved_In {X : Type} (l r t : list X) (x : X) :
  interleaved l r t -> (In x t <-> In x l \/ In x r).
Proof.
  induction 1 as [|y l r t H IH|y l r t H IH]; cbn; tauto.
Qed.

Section Together.
Context {A B : Type}.

(** A function that leaves the collections, run to its end: the outcome,
    the store, the clock and the events are a function of the store and
    the clock it starts from. *)
Lemma keeper_run (l : Task A) :
  keeper l ->
  forall w : World,
    exists (o : Outcome A) (d' : DB) (c' : nat) (evs : list Event),
      collections d' = collections (db w) /\
      forall w1 : World,
        same_state w1 w ->
        run_task l w1 = (o, mkWorld d' (trace w1 ++ evs) c').
Proof.
  induction l as [o|C m k IH]; intros Hl w.
  - exists o, (db w), (clock w), []. split; [reflexivity|].
    intros [d1 t1 c1] [Hd Hc]. cbn in *. subst. by rewrite app_nil_r.
  - destruct Hl as [Hm Hk].
    destruct (Hm w) as (o & d1 & c1 & ev & Hcoll & Hstep).
    destruct o as [b|e].
    + destruct (IH b (Hk b) (mkWorld d1 (trace w ++ [ev]) c1))
        as (o2 & d2 & c2 & evs & Hcoll2 & Hrest).
      exists o2, d2, c2, (ev :: evs). split; [by rewrite Hcoll2|].
      intros w1 Hw1. cbn [run_task]. run_M. rewrite (Hstep w1 Hw1).
      rewrite (Hrest (mkWorld d1 (trace w1 ++ [ev]) c1)) by done.
      cbn. by rewrite <- app_assoc.
    + exists (Throw e), d1, c1, [ev]. split; [exact Hcoll|].
      intros w1 Hw1. cbn [run_task]. run_M. by rewrite (Hstep w1 Hw1).
Qed.

(** A function that only reads the collections, run to its end. *)
Lemma reader_run (r : Task B) :
  reader r ->
  forall w : World,
    exists (o : Outcome B) (evs : list Event),
      forall w1 : World,
        collections (db w1) = collections (db w) ->
        run_task r w1 = (o, mkWorld (db w1) (trace w1 ++ evs) (clock w1)).
Proof.
  induction r as [o|C m k IH]; intros Hr w.
  - exists o, []. intros [d1 t1 c1] _. cbn. by rewrite app_nil_r.
  - destruct Hr as [Hm Hk].
    destruct (Hm w) as (o & ev & Hstep).
    destruct o as [b|e].
    + destruct (IH b (Hk b) w) as (o2 & evs & Hrest).
      exists o2, (ev :: evs). intros w1 Hw1. cbn [run_task]. run_M.
      rewrite (Hstep w1 Hw1).
      rewrite (Hrest (mkWorld (db w1) (trace w1 ++ [ev]) (clock w1))) by exact Hw1.
      cbn. by rewrite <- app_assoc.
    + exists (Throw e), [ev]. intros w1 Hw1. cbn [run_task]. run_M.
      by rewrite (Hstep w1 Hw1).
Qed.

(** One step of a function that leaves the collections. *)
Lemma keeper_resume (C : Type) (m : M C) (k : C -> Task A) :
  keeper (Await m k) ->
  forall w : World,
    exists (l' : Task A) (d' : DB) (c' : nat) (ev : Event),
      keeper l' /\
      collections d' = collections (db w) /\
      forall w1 : World,
        same_state w1 w ->
        resume (Await m k) w1 = (l', mkWorld d' (trace w1 ++ [ev]) c') /\
        run_task (Await m k) w1 = run_task l' (mkWorld d' (trace w1 ++ [ev]) c').
Proof.
  intros [Hm Hk] w.
  destruct (Hm w) as (o & d1 & c1 & ev & Hcoll & Hstep).
  destruct o as [b|e].
  - exists (k b), d1, c1, ev. split; [apply Hk|]. split; [exact Hcoll|].
    intros w1 Hw1. cbn [resume run_task]. run_M. by rewrite (Hstep w1 Hw1).
  - exists (Finished (Throw e)), d1, c1, ev. split; [exact I|]. split; [exact Hcoll|].
    intros w1 Hw1. cbn [resume run_task]. run_M. by rewrite (Hstep w1 Hw1).
Qed.

(** One step of a function that only reads the collections. *)
Lemma reader_resume (C : Type) (m : M C) (k : C -> Task B) :
  reader (Await m k) ->
  forall w : World,
    exists (r' : Task B) (ev : Event),
      reader r' /\
      forall w1 : World,
        collections (db w1) = collections (db w) ->
        resume (Await m k) w1 = (r', mkWorld (db w1) (trace w1 ++ [ev]) (clock w1)) /\
        run_task (Await m k) w1 =
          run_task r' (mkWorld (db w1) (trace w1 ++ [ev]) (clock w1)).
Proof.
  intros [Hm Hk] w.
  destruct (Hm w) as (o & ev & Hstep).
  destruct o as [b|e].
  - exists (k b), ev. split; [apply Hk|].
    intros w1 Hw1. cbn [resume run_task]. run_M. by rewrite (Hstep w1 Hw1).
  - exists (Finished (Throw e)), ev. split; [exact I|].
    intros w1 Hw1. cbn [resume run_task]. run_M. by rewrite (Hstep w1 Hw1).
Qed.

(** The rejection that is seen first is one that the outcomes allow. *)
Lemma settles_rejection
    (seen : option Error) (l : Task A) (r : Task B) (a : Outcome A) (b : Outcome B)
    (res : Outcome (A * B)) :
  (forall e : Error, l = Finished (Throw e) -> a = Throw e) ->
  (forall e : Error, r = Finished (Throw e) -> b = Throw e) ->
  settles (rejection seen l r) a b res ->
  settles seen a b res.
Proof.
  intros Hl Hr. destruct seen as [e|]; [done|].
  destruct l as [[x|e1]|C m k].
  - destruct r as [[y|e2]|C' m' k']; [done| |done].
    rewrite (Hr e2 eq_refl). cbn. destruct a; auto.
  - rewrite (Hl e1 eq_refl). cbn. destruct b; auto.
  - destruct r as [[y|e2]|C' m' k']; [done| |done].
    rewrite (Hr e2 eq_refl). cbn. destruct a; auto.
Qed.

Lemma settles_settle (a : Outcome A) (b : Outcome B) :
  settles None a b (settle None a b).
Proof. destruct a, b; cbn; auto. Qed.

Lemma settles_seen (e : Error) (a : Outcome A) (b : Outcome B) :
  settles (Some e) a b (settle (Some e) a b).
Proof. reflexivity. Qed.

Lemma run_task_thrown {C : Type} (t : Task C) (w w' : World) (o : Outcome C) :
  run_task t w = (o, w') -> forall e : Error, t = Finished (Throw e) -> o = Throw e.
Proof. intros H e ->. cbn in H. by inversion H. Qed.

(** Two functions under [Promise.all], one that leaves the collections
    and one that only reads them: under every schedule each has the
    outcome and the events it has when it runs alone, the events of the
    two are interleaved, and the store and the clock are those the first
    function leaves. *)
Lemma Promise_all_runs (schedule : list Pick) :
  forall (seen : option Error) (l : Task A) (r : Task B) (w wl wr : World)
         (a : Outcome A) (b : Outcome B),
    keeper l -> reader r ->
    run_task l w = (a, wl) ->
    run_task r w = (b, wr) ->
    exists tl tr t : list Event,
      trace wl = trace w ++ tl /\
      trace wr = trace w ++ tr /\
      interleaved tl tr t /\
      snd (Promise_all schedule seen l r w) = mkWorld (db wl) (trace w ++ t) (clock wl) /\
      settles seen a b (fst (Promise_all schedule seen l r w)).
Proof.
  induction schedule as [|pick rest IH]; intros seen l r w wl wr a b Hl Hr Hrunl Hrunr.
  - destruct (keeper_run l Hl w) as (o1 & d1 & c1 & tl & Hcoll & Hkeep).
    destruct (reader_run r Hr w) as (o2 & tr & Hread).
    rewrite (Hkeep w) in Hrunl by done. symmetry in Hrunl. injection Hrunl as -> ->.
    rewrite (Hread w) in Hrunr by done. symmetry in Hrunr. injection Hrunr as -> ->.
    exists tl, tr, (tl ++ tr). cbn [trace db clock].
    split; [reflexivity|]. split; [reflexivity|]. split; [apply interleaved_app|].
    cbn [Promise_all]. rewrite (Hkeep w) by done.
    rewrite (Hread (mkWorld d1 (trace w ++ tl) c1)) by exact Hcoll.
    cbn [fst snd db trace clock]. rewrite <- app_assoc. split; [reflexivity|].
    apply (settles_rejection seen l r).
    + intros e ->. specialize (Hkeep w (conj eq_refl eq_refl)). cbn in Hkeep.
      by inversion Hkeep.
    + intros e ->. specialize (Hread w eq_refl). cbn in Hread. by inversion Hread.
    + destruct (rejection seen l r); [apply settles_seen|apply settles_settle].
  - destruct pick.
    + (* the first function is resumed *)
      destruct l as [o|C m k].
      * cbn [Promise_all resume].
        destruct (IH (rejection seen (Finished o) r) (Finished o) r w wl wr a b Hl Hr Hrunl Hrunr)
          as (tl & tr & t & H1 & H2 & H3 & H4 & H5).
        exists tl, tr, t. repeat (split; [assumption|]).
        apply (settles_rejection seen (Finished o) r); [| |exact H5].
        -- by apply (run_task_thrown _ _ _ _ Hrunl).
        -- by apply (run_task_thrown _ _ _ _ Hrunr).
      * destruct (keeper_resume C m k Hl w) as (l' & d1 & c1 & ev & Hl' & Hcoll & Hstep).
        destruct (Hstep w (conj eq_refl eq_refl)) as [Hresume Hsame].
        destruct (reader_run r Hr w) as (o2 & tr & Hread).
        rewrite (Hread w) in Hrunr by done. symmetry in Hrunr. injection Hrunr as -> ->.
        rewrite Hsame in Hrunl.
        destruct (IH (rejection seen (Await m k) r) l' r (mkWorld d1 (trace w ++ [ev]) c1)
                     wl (mkWorld d1 ((trace w ++ [ev]) ++ tr) c1) a o2 Hl' Hr Hrunl)
          as (tl & tr' & t & H1 & H2 & H3 & H4 & H5).
        { by rewrite (Hread (mkWorld d1 (trace w ++ [ev]) c1)) by exact Hcoll. }
        cbn [trace db clock] in *. apply app_inv_head in H2. subst tr'.
        exists (ev :: tl), tr, (ev :: t).
        rewrite <- app_assoc in H1, H4. cbn [app] in H1, H4.
        split; [exact H1|]. split; [reflexivity|]. split; [by constructor|].
        cbn [Promise_all]. rewrite Hresume. split; [exact H4|].
        apply (settles_rejection seen (Await m k) r); [discriminate| |exact H5].
        intros e ->. specialize (Hread w eq_refl). cbn in Hread. by inversion Hread.
    + (* the second function is resumed *)
      destruct r as [o|C m k].
      * cbn [Promise_all resume].
        destruct (IH (rejection seen l (Finished o)) l (Finished o) w wl wr a b Hl Hr Hrunl Hrunr)
          as (tl & tr & t & H1 & H2 & H3 & H4 & H5).
        exists tl, tr, t. repeat (split; [assumption|]).
        apply (settles_rejection seen l (Finished o)); [| |exact H5].
        -- by apply (run_task_thrown _ _ _ _ Hrunl).
        -- by apply (run_task_thrown _ _ _ _ Hrunr).
      * destruct (reader_resume C m k Hr w) as (r' & ev & Hr' & Hstep).
        destruct (Hstep w eq_refl) as [Hresume Hsame].
        destruct (keeper_run l Hl w) as (o1 & d1 & c1 & tl & Hcoll & Hkeep).
        rewrite (Hkeep w) in Hrunl by done. symmetry in Hrunl. injection Hrunl as -> ->.
        rewrite Hsame in Hrunr.
        destruct (IH (rejection seen l (Await m k)) l r'
                     (mkWorld (db w) (trace w ++ [ev]) (clock w))
                     (mkWorld d1 ((trace w ++ [ev]) ++ tl) c1) wr o1 b Hl Hr')
          as (tl' & tr & t & H1 & H2 & H3 & H4 & H5).
        { by rewrite (Hkeep (mkWorld (db w) (trace w ++ [ev]) (clock w))) by done. }
        { exact Hrunr. }
        cbn [trace db clock] in *. apply app_inv_head in H1. subst tl'.
        exists tl, (ev :: tr), (ev :: t).
        rewrite <- app_assoc in H2, H4. cbn [app] in H2, H4.
        split; [reflexivity|]. split; [exact H2|]. split; [by constructor|].
        cbn [Promise_all]. rewrite Hresume. split; [exact H4|].
        apply (settles_rejection seen l (Await m k)); [|discriminate|exact H5].
        intros e ->. specialize (Hkeep w (conj eq_refl eq_refl)). cbn in Hkeep.
        by inversion Hkeep.
Qed.

(** Every interleaving of the events of the two functions is the order of
    some schedule. *)
Lemma Promise_all_any_order (tl tr t : list Event) :
  interleaved tl tr t ->
  forall (seen : option Error) (l : Task A) (r : Task B) (w : World),
    keeper l -> reader r ->
    trace (snd (run_task l w)) = trace w ++ tl ->
    trace (snd (run_task r w)) = trace w ++ tr ->
    exists schedule : list Pick,
      trace (snd (Promise_all schedule seen l r w)) = trace w ++ t.
Proof.
  induction 1 as [|x tl tr t H IH|x tl tr t H IH]; intros seen l r w Hl Hr Htl Htr.
  - exists [].
    destruct (run_task l w) as [a wl] eqn:Hrunl.
    destruct (run_task r w) as [b wr] eqn:Hrunr.
    destruct (Promise_all_runs [] seen l r w wl wr a b Hl Hr Hrunl Hrunr)
      as (tl' & tr' & t' & H1 & H2 & H3 & H4 & _).
    cbn [snd] in *. rewrite Htl in H1. rewrite Htr in H2.
    apply app_inv_head in H1, H2. subst. inversion H3; subst. by rewrite H4.
  - destruct l as [o|C m k].
    { cbn in Htl. rewrite <- (app_nil_r (trace w)) in Htl at 1.
      apply app_inv_head in Htl. discriminate Htl. }
    destruct (keeper_resume C m k Hl w) as (l' & d1 & c1 & ev & Hl' & Hcoll & Hstep).
    destruct (Hstep w (conj eq_refl eq_refl)) as [Hresume Hsame].
    destruct (keeper_run l' Hl' (mkWorld d1 (trace w ++ [ev]) c1))
      as (o1 & d2 & c2 & evs & _ & Hkeep).
    destruct (reader_run r Hr w) as (o2 & tr' & Hread).
    rewrite Hsame, (Hkeep _ (conj eq_refl eq_refl)) in Htl. cbn [snd trace] in Htl.
    rewrite <- app_assoc in Htl. apply app_inv_head in Htl. cbn in Htl.
    injection Htl as -> ->.
    rewrite (Hread w eq_refl) in Htr. cbn [snd trace] in Htr.
    apply app_inv_head in Htr. subst tr'.
    destruct (IH (rejection seen (Await m k) r) l' r (mkWorld d1 (trace w ++ [x]) c1) Hl' Hr)
      as (schedule & Hs).
    { by rewrite (Hkeep _ (conj eq_refl eq_refl)). }
    { by rewrite (Hread (mkWorld d1 (trace w ++ [x]) c1)) by exact Hcoll. }
    exists (fst_task :: schedule). cbn [Promise_all]. rewrite Hresume, Hs.
    cbn [trace]. by rewrite <- app_assoc.
  - destruct r as [o|C m k].
    { cbn in Htr. rewrite <- (app_nil_r (trace w)) in Htr at 1.
      apply app_inv_head in Htr. discriminate Htr. }
    destruct (reader_resume C m k Hr w) as (r' & ev & Hr' & Hstep).
    destruct (Hstep w eq_refl) as [Hresume Hsame].
    destruct (reader_run r' Hr' (mkWorld (db w) (trace w ++ [ev]) (clock w)))
      as (o2 & evs & Hread).
    destruct (keeper_run l Hl w) as (o1 & d1 & c1 & tl' & _ & Hkeep).
    rewrite Hsame, (Hread _ eq_refl) in Htr. cbn [snd trace] in Htr.
    rewrite <- app_assoc in Htr. apply app_inv_head in Htr. cbn in Htr.
    injection Htr as -> ->.
    rewrite (Hkeep w (conj eq_refl eq_refl)) in Htl. cbn [snd trace] in Htl.
    apply app_inv_head in Htl. subst tl'.
    destruct (IH (rejection seen l (Await m k)) l r'
                 (mkWorld (db w) (trace w ++ [x]) (clock w)) Hl Hr')
      as (schedule & Hs).
    { by rewrite (Hkeep (mkWorld (db w) (trace w ++ [x]) (clock w))) by done. }
    { by rewrite (Hread _ eq_refl). }
    exists (snd_task :: schedule). cbn [Promise_all]. rewrite Hresume, Hs.
    cbn [trace]. by rewrite <- app_assoc.
Qed.

End Together.

(** ** The two pipelines of a hybrid request, run together *)

Section HybridTogether.
Context (E : Env).

Lemma reads_then_keeps {C : Type} (m : M C) : reads_collections m -> keeps_collections m.
Proof.
  intros Hm w. destruct (Hm w) as (o & ev & Hstep).
  exists o, (db w), (clock w), ev. split; [reflexivity|].
  intros w1 [Hd Hc]. rewrite (Hstep w1) by (by rewrite Hd). by rewrite Hd, Hc.
Qed.

Lemma callGemini_reads (systemPrompt : Prompt) (userQuery : Text) :
  is_empty_text userQuery = false ->
  reads_collections (callGemini E systemPrompt userQuery).
Proof.
  intros Hempty w. unfold callGemini. rewrite Hempty. run_M.
  destruct (gemini E systemPrompt userQuery) as [| | | | |a];
    try (eexists; eexists; intros w1 _; reflexivity).
  destruct (empty_candidate systemPrompt a); eexists; eexists; intros w1 _; reflexivity.
Qed.

Lemma getEmbedding_reads (text : Text) : reads_collections (getEmbedding E text).
Proof.
  intros w. unfold getEmbedding. run_M.
  destruct (embedContent E text); eexists; eexists; intros w1 _; reflexivity.
Qed.

Lemma aggregate_managers_reads (queryVector : list Q) :
  reads_collections (aggregate_managers E queryVector).
Proof.
  intros w. unfold aggregate_managers, collection. run_M.
  eexists; eexists; intros w1 ->; reflexivity.
Qed.

Lemma findOnePermission_keeps (r : string) : keeps_collections (findOnePermission r).
Proof.
  intros w. unfold findOnePermission. run_M.
  eexists; exists (db w), (clock w); eexists. split; [reflexivity|].
  intros w1 [-> ->]. reflexivity.
Qed.

Lemma find_keeps (collectionName : string) (f : json) :
  keeps_collections (found ← find E collectionName f;
                     timestamp ← new_Date;
                     mret (found, timestamp)).
Proof.
  intros w. unfold find. run_M.
  eexists; exists (db w), (S (clock w)); eexists. split; [reflexivity|].
  intros w1 [-> ->]. reflexivity.
Qed.

Lemma insertAudit_keeps (entry : AuditEntry) : keeps_collections (insertAudit entry).
Proof.
  intros w. unfold insertAudit. run_M.
  eexists; exists (insert_audit (db w) entry), (clock w); eexists. split; [reflexivity|].
  intros w1 [-> ->]. reflexivity.
Qed.

(** The structured-query pipeline leaves every collection as it is. *)
Lemma runNlToQueryPipeline_async_keeper (userInput collectionName : string) (user : User) :
  userInput <> "" ->
  keeper (runNlToQueryPipeline_async E userInput collectionName user).
Proof.
  intros Hu.
  assert (Hraw : is_empty_text (Raw userInput) = false) by (by destruct userInput).
  unfold runNlToQueryPipeline_async. cbn [keeper].
  split; [by apply reads_then_keeps, callGemini_reads|]. intros mongoQuery.
  split; [by apply reads_then_keeps, callGemini_reads|]. intros securityCheck.
  destruct (negb (isSafe securityCheck)); cbn [keeper]; [exact I|].
  split; [by apply reads_then_keeps, callGemini_reads|]. intros optimizedQuery.
  split; [by apply reads_then_keeps, callGemini_reads|]. intros validation.
  split; [apply findOnePermission_keeps|]. intros permission.
  destruct (negb (hasPermission permission collectionName)); cbn [keeper]; [exact I|].
  split; [apply find_keeps|]. intros [found timestamp].
  split; [apply insertAudit_keeps|]. intros _. exact I.
Qed.

(** The retrieval pipeline only reads the collections. *)
Lemma runRagPipeline_async_reader (userInput : string) (user : User) :
  reader (runRagPipeline_async E userInput user).
Proof.
  unfold runRagPipeline_async. cbn [reader].
  split; [apply getEmbedding_reads|]. intros queryVector.
  split; [apply aggregate_managers_reads|]. intros [|first hits]; cbn [reader]; [exact I|].
  split; [by apply callGemini_reads|]. intros answer. exact I.
Qed.

(** [runNlToQueryPipeline_async] run alone is [runNlToQueryPipeline]. *)
Lemma runNlToQueryPipeline_async_alone
    (userInput collectionName : string) (user : User) (w : World) :
  run_task (runNlToQueryPipeline_async E userInput collectionName user) w =
  runNlToQueryPipeline E userInput collectionName user w.
Proof.
  unfold runNlToQueryPipeline_async, runNlToQueryPipeline. cbn [run_task].
  unfold callGemini, findOnePermission, find, insertAudit. run_M.
  destruct (is_empty_text (Raw userInput)); [reflexivity|].
  cbn -[List.find List.filter hasPermission].
  destruct (gemini E QUERY_AGENT_PROMPT (Raw userInput)) as [| | | | |q];
    cbn -[List.find List.filter hasPermission]; try reflexivity.
  run_M.
  destruct (gemini E SECURITY_AGENT_PROMPT (Stringify q)) as [| | | | |s];
    cbn -[List.find List.filter hasPermission]; try reflexivity.
  destruct (isSafe s); cbn -[List.find List.filter hasPermission]; [|reflexivity].
  run_M.
  destruct (gemini E OPTIMIZATION_AGENT_PROMPT (Stringify q)) as [| | | | |o];
    cbn -[List.find List.filter hasPermission]; try reflexivity.
  run_M.
  destruct (gemini E VALIDATION_AGENT_PROMPT (Raw userInput)) as [| | | | |v];
    cbn -[List.find List.filter hasPermission]; try reflexivity.
  run_M. cbn -[List.find List.filter hasPermission].
  destruct (hasPermission _ collectionName); cbn -[List.filter]; [|reflexivity].
  run_M. reflexivity.
Qed.

(** [runRagPipeline_async] run alone is [runRagPipeline]. *)
Lemma runRagPipeline_async_alone (userInput : string) (user : User) (w : World) :
  run_task (runRagPipeline_async E userInput user) w = runRagPipeline E userInput user w.
Proof.
  unfold runRagPipeline_async, runRagPipeline, aggregate_managers. cbn [run_task].
  unfold getEmbedding, callGemini. run_M.
  destruct (embedContent E (Raw userInput)) as [m|c b| |v]; cbn -[collection];
    try reflexivity.
  run_M.
  destruct (vectorSearch E "vectorIndex" "docEmbedding" v 100 5 (collection (db w) "managers"))
    as [|first hits]; cbn -[collection]; [reflexivity|].
  unfold callGemini. run_M. cbn -[collection].
  destruct (gemini E RAG_AGENT_PROMPT _) as [| | | | |a]; reflexivity.
Qed.

(** A hybrid request under any schedule: each pipeline has the outcome
    and the events it has when it runs alone on the request, the events
    of the two are interleaved, the store and the clock are those the
    structured-query pipeline leaves, and the answer is the one of
    [answers]. *)
Lemma hybrid_query_scheduled_runs
    (schedule : list Pick) (userInput collectionName : string) (w : World) :
  userInput <> "" -> collectionName <> "" ->
  let nl := runNlToQueryPipeline E userInput collectionName hard_coded_user w in
  let rg := runRagPipeline E userInput hard_coded_user w in
  let run := hybrid_query_scheduled E schedule userInput collectionName w in
  exists structured retrieved evs : list Event,
    trace (snd nl) = trace w ++ structured /\
    trace (snd rg) = trace w ++ retrieved /\
    interleaved structured retrieved evs /\
    snd run = mkWorld (db (snd nl)) (trace w ++ evs) (clock (snd nl)) /\
    answers (fst nl) (fst rg) (fst run).
Proof.
  intros Hu Hc. cbn zeta.
  destruct (runNlToQueryPipeline E userInput collectionName hard_coded_user w)
    as [a wl] eqn:Hnl.
  destruct (runRagPipeline E userInput hard_coded_user w) as [b wr] eqn:Hrg.
  rewrite <- runNlToQueryPipeline_async_alone in Hnl.
  rewrite <- runRagPipeline_async_alone in Hrg.
  destruct (Promise_all_runs schedule None _ _ w wl wr a b
              (runNlToQueryPipeline_async_keeper userInput collectionName hard_coded_user Hu)
              (runRagPipeline_async_reader userInput hard_coded_user) Hnl Hrg)
    as (tl & tr & t & H1 & H2 & H3 & H4 & H5).
  exists tl, tr, t. cbn [fst snd]. repeat (split; [assumption|]).
  unfold hybrid_query_scheduled.
  apply String.eqb_neq in Hu, Hc. rewrite Hu, Hc. cbn [orb]. cbn zeta.
  destruct (Promise_all schedule None
              (runNlToQueryPipeline_async E userInput collectionName hard_coded_user)
              (runRagPipeline_async E userInput hard_coded_user) w) as [res w'].
  cbn [fst snd] in *. subst w'.
  destruct a as [x|e1], b as [y|e2]; cbn in H5 |- *.
  - subst res. by destruct (Qgtb _ _).
  - by subst res.
  - by subst res.
  - by destruct H5 as [-> | ->]; auto.
Qed.

(** [hybrid_query] is the request under the empty schedule. *)
Lemma hybrid_query_scheduled_nil (userInput collectionName : string) (w : World) :
  hybrid_query_scheduled E [] userInput collectionName w =
  hybrid_query E userInput collectionName w.
Proof.
  unfold hybrid_query_scheduled, hybrid_query.
  destruct (String.eqb userInput "" || String.eqb collectionName "")%bool; [reflexivity|].
  cbn zeta. cbn [Promise_all rejection].
  rewrite runNlToQueryPipeline_async_alone.
  destruct (runNlToQueryPipeline E userInput collectionName hard_coded_user w) as [nl w1].
  rewrite runRagPipeline_async_alone.
  destruct (runRagPipeline E userInput hard_coded_user w1) as [rg w2].
  destruct nl, rg; reflexivity.
Qed.

End HybridTogether.

(** ** The collections of a hybrid request *)

Section Hybrid.
Context (E : Env).

(** The events of the structured-query pipeline, whatever its outcome. *)
Lemma runNlToQueryPipeline_events
    (userInput collectionName : string) (user : User) (w : World) :
  exists evs : list Event,
    trace (snd (runNlToQueryPipeline E userInput collectionName user w)) = trace w ++ evs /\
    Forall (nl_event userInput collectionName) evs.
Proof.
  destruct (runNlToQueryPipeline E userInput collectionName user w) as [[r|e] w'] eqn:Hrun.
  - apply runNlToQueryPipeline_Return in Hrun
      as (q & _ & _ & _ & _ & _ & _ & _ & _ & _ & Htrace).
    eexists. split; [exact Htrace|]. repeat econstructor.
  - apply runNlToQueryPipeline_Throw in Hrun as (_ & _ & evs & Htrace & _ & Hevs).
    by exists evs.
Qed.

(** The first interaction of a function is its first event. *)
Lemma first_event {A C : Type} (m : M C) (k : C -> Task A) (ev : Event) (w : World) :
  keeper (Await m k) ->
  (exists o : Outcome C, m w = (o, mkWorld (db w) (trace w ++ [ev]) (clock w))) ->
  exists rest : list Event,
    trace (snd (run_task (Await m k) w)) = trace w ++ ev :: rest.
Proof.
  intros [_ Hk] ([b|e] & Hm); cbn [run_task]; run_M; rewrite Hm.
  - destruct (keeper_run (k b) (Hk b) (mkWorld (db w) (trace w ++ [ev]) (clock w)))
      as (o & d' & c' & evs & _ & Hrun).
    rewrite (Hrun _ (conj eq_refl eq_refl)). cbn. exists evs. by rewrite <- app_assoc.
  - by exists [].
Qed.

(** The structured-query pipeline starts with the query agent on the
    input text. *)
Lemma runNlToQueryPipeline_first_event
    (userInput collectionName : string) (user : User) (w : World) :
  userInput <> "" ->
  exists rest : list Event,
    trace (snd (runNlToQueryPipeline E userInput collectionName user w)) =
    trace w ++ CallGemini QUERY_AGENT_PROMPT (Raw userInput) :: rest.
Proof.
  intros Hu. rewrite <- runNlToQueryPipeline_async_alone.
  apply first_event; [by apply runNlToQueryPipeline_async_keeper|].
  unfold callGemini. destruct userInput as [|c0 s0]; [done|]. cbn. run_M.
  destruct (gemini E QUERY_AGENT_PROMPT _); by eexists.
Qed.

(** The retrieval pipeline starts with the embedding of the input text. *)
Lemma runRagPipeline_first_event (userInput : string) (user : User) (w : World) :
  exists rest : list Event,
    trace (snd (runRagPipeline E userInput user w)) =
    trace w ++ CallEmbedding (Raw userInput) :: rest.
Proof.
  rewrite <- runRagPipeline_async_alone.
  apply first_event.
  - split.
    + apply reads_then_keeps, getEmbedding_reads.
    + intros queryVector. split; [apply reads_then_keeps, aggregate_managers_reads|].
      intros [|first hits]; cbn [keeper]; [exact I|].
      split; [by apply reads_then_keeps, callGemini_reads|]. by intros answer.
  - unfold getEmbedding. run_M. destruct (embedContent E (Raw userInput)); by eexists.
Qed.

(** The world a hybrid request leaves is the one [Promise.all] leaves. *)
Lemma hybrid_query_scheduled_world
    (schedule : list Pick) (userInput collectionName : string) (w : World) :
  userInput <> "" -> collectionName <> "" ->
  snd (hybrid_query_scheduled E schedule userInput collectionName w) =
  snd (Promise_all schedule None
         (runNlToQueryPipeline_async E userInput collectionName hard_coded_user)
         (runRagPipeline_async E userInput hard_coded_user) w).
Proof.
  intros Hu Hc. unfold hybrid_query_scheduled.
  apply String.eqb_neq in Hu, Hc. rewrite Hu, Hc. cbn [orb]. cbn zeta.
  destruct (Promise_all schedule None _ _ w) as [[[nlResult ragResult]|e] w']; [|reflexivity].
  by destruct (Qgtb _ _).
Qed.

(** What the events of a hybrid request are, by the pipeline they come
    from. *)
Lemma hybrid_events (userInput collectionName : string) (structured retrieved evs : list Event) :
  Forall (nl_event userInput collectionName) structured ->
  Forall (rag_event userInput) retrieved ->
  interleaved structured retrieved evs ->
  (forall (name : string) (f : json), In (Find name f) evs -> name = collectionName) /\
  (forall (name : string) (v : list Q), In (Aggregate name v) evs -> name = "managers").
Proof.
  intros Hnl Hrag Hevs. rewrite Forall_forall in Hnl, Hrag.
  split.
  - intros name f Hin. apply (interleaved_In _ _ _ _ Hevs) in Hin as [Hin|Hin].
    + apply list_elem_of_In, Hnl in Hin. exact Hin.
    + apply list_elem_of_In, Hrag in Hin. contradiction.
  - intros name v Hin. apply (interleaved_In _ _ _ _ Hevs) in Hin as [Hin|Hin].
    + apply list_elem_of_In, Hnl in Hin. contradiction.
    + apply list_elem_of_In, Hrag in Hin. exact Hin.
Qed.

(** C9, as the code has it. A hybrid request with both fields starts the
    structured-query pipeline and the retrieval pipeline together, under
    [Promise.all], on the same input text: the first event of the one is
    the call of the query agent on that text, the first event of the other
    the embedding of that text. They run concurrently: under every
    schedule the events of the request are an interleaving of the events
    that each pipeline has when it runs alone on the request, and every
    interleaving of them is the order of events under some schedule. The
    structured-query pipeline is given the collection of the request and
    the retrieval pipeline is not: under every schedule, every read of a
    collection by filter is on the requested collection and every vector
    search is on [managers]. *)
Theorem hybrid_pipelines_run_concurrently (userInput collectionName : string) (w : World) :
  userInput <> "" -> collectionName <> "" ->
  exists structured retrieved : list Event,
    trace (snd (runNlToQueryPipeline E userInput collectionName hard_coded_user w)) =
      trace w ++ structured /\
    trace (snd (runRagPipeline E userInput hard_coded_user w)) = trace w ++ retrieved /\
    (exists rest : list Event,
       structured = CallGemini QUERY_AGENT_PROMPT (Raw userInput) :: rest) /\
    (exists rest : list Event, retrieved = CallEmbedding (Raw userInput) :: rest) /\
    (forall schedule : list Pick,
       exists evs : list Event,
         trace (snd (hybrid_query_scheduled E schedule userInput collectionName w)) =
           trace w ++ evs /\
         interleaved structured retrieved evs /\
         (forall (name : string) (f : json), In (Find name f) evs -> name = collectionName) /\
         (forall (name : string) (v : list Q), In (Aggregate name v) evs -> name = "managers")) /\
    (forall evs : list Event,
       interleaved structured retrieved evs ->
       exists schedule : list Pick,
         trace (snd (hybrid_query_scheduled E schedule userInput collectionName w)) =
           trace w ++ evs).
Proof.
  intros Hu Hc.
  destruct (runNlToQueryPipeline_events userInput collectionName hard_coded_user w)
    as (structured & Hs & Hnl).
  destruct (runRagPipeline_effect E userInput hard_coded_user w)
    as (_ & _ & retrieved & Hr & Hrag).
  exists structured, retrieved. split; [exact Hs|]. split; [exact Hr|].
  split.
  { destruct (runNlToQueryPipeline_first_event userInput collectionName hard_coded_user w Hu)
      as (rest & Hfirst).
    exists rest. rewrite Hs in Hfirst. by apply app_inv_head in Hfirst. }
  split.
  { destruct (runRagPipeline_first_event userInput hard_coded_user w) as (rest & Hfirst).
    exists rest. rewrite Hr in Hfirst. by apply app_inv_head in Hfirst. }
  split.
  - intros schedule.
    destruct (hybrid_query_scheduled_runs E schedule userInput collectionName w Hu Hc)
      as (tl & tr & evs & H1 & H2 & H3 & H4 & _).
    cbn zeta in *. rewrite Hs in H1. rewrite Hr in H2.
    apply app_inv_head in H1, H2. subst tl tr.
    exists evs. rewrite H4. split; [reflexivity|]. split; [exact H3|].
    exact (hybrid_events userInput collectionName structured retrieved evs Hnl Hrag H3).
  - intros evs Hevs.
    destruct (Promise_all_any_order structured retrieved evs Hevs None
                (runNlToQueryPipeline_async E userInput collectionName hard_coded_user)
                (runRagPipeline_async E userInput hard_coded_user) w)
      as (schedule & Hschedule).
    + by apply runNlToQueryPipeline_async_keeper.
    + apply runRagPipeline_async_reader.
    + by rewrite runNlToQueryPipeline_async_alone.
    + by rewrite runRagPipeline_async_alone.
    + exists schedule. by rewrite hybrid_query_scheduled_world.
Qed.

End Hybrid.



(** ** The backfill script *)

Section BackfillDimension.
Context (E : Env).

(** The backfill loop writes an embedding only when its length is the
    declared dimension. *)
Lemma process_stores_declared_dimension (docs : list Doc) (count : nat) (w : World) :
  exists evs : list Event,
    trace (snd (create_data_embeddings.process E docs count w)) = trace w ++ evs /\
    Forall stores_declared_dimension evs.
Proof.
  revert count w. induction docs as [|doc rest IH]; intros count w.
  - exists []. cbn. by rewrite app_nil_r.
  - cbn [create_data_embeddings.process]. rewrite bind_run.
    unfold create_data_embeddings.getEmbedding, updateOne. run_M.
    destruct (embedContent E (createTextForEmbedding doc)) as [m|c b| |v];
      cbn -[create_data_embeddings.process createTextForEmbedding Nat.eqb];
      [| | |destruct (Nat.eqb (length v) EMBEDDING_DIMENSIONS) eqn:Hlen;
            cbn -[create_data_embeddings.process createTextForEmbedding]];
      continue_with IH; cbn [trace]; rewrite <- ?app_assoc;
      eexists; (split; [reflexivity|]);
      cbn -[createTextForEmbedding];
      repeat (constructor; [cbn; auto|]); try assumption.
    by apply Nat.eqb_eq.
Qed.

(** The same for the whole script. *)
Lemma createEmbeddings_stores_declared_dimension (w : World) :
  exists evs : list Event,
    trace (snd (create_data_embeddings.createEmbeddings E w)) = trace w ++ evs /\
    Forall stores_declared_dimension evs.
Proof.
  unfold create_data_embeddings.createEmbeddings, find. run_M.
  destruct (Nat.eqb _ 0).
  - cbn. eexists. split; [reflexivity|]. repeat constructor.
  - match goal with
    | |- context [create_data_embeddings.process E ?docs 0 ?w1] =>
        destruct (process_stores_declared_dimension docs 0 w1) as (evs & Ht & He)
    end.
    rewrite Ht. cbn [trace]. rewrite <- app_assoc. eexists. split; [reflexivity|].
    constructor; [exact I|exact He].
Qed.

End BackfillDimension.


(** ** Runs on the sample store *)

Section Runs.
Import Sample.

(** C1. The optimization agent is a model call like the others. Here the
    translated filter is [{ Branch: "CO" }], which the security agent is
    shown and accepts, and the optimization agent answers
    [{ $where: "sleep(10000)" }]: the pipeline sends that filter to the
    store and returns, and the security agent, which would have rejected
    it, was never shown it. *)
Theorem optimized_filter_runs_unchecked :
  query_is_dangerous where_sleep = true /\
  gemini env_where SECURITY_AGENT_PROMPT (Stringify where_sleep) =
    Answer (mkSecurityCheck false "Query contains potentially dangerous operators.") /\
  fst (runNlToQueryPipeline env_where find_CO "managers" admin world) =
    Return (mkNlResult "data" 0 [] where_sleep
              (mkSecurityCheck true "Query uses safe find operators.") specific) /\
  trace (snd (runNlToQueryPipeline env_where find_CO "managers" admin world)) =
    [CallGemini QUERY_AGENT_PROMPT (Raw find_CO);
     CallGemini SECURITY_AGENT_PROMPT (Stringify in_CO);
     CallGemini OPTIMIZATION_AGENT_PROMPT (Stringify in_CO);
     CallGemini VALIDATION_AGENT_PROMPT (Raw find_CO);
     FindPermission "Admin";
     Find "managers" where_sleep;
     InsertAudit (QueryAudit "user-123" "Admin" find_CO where_sleep 0 0)].
Proof. repeat split; vm_compute; reflexivity. Qed.

(** C2. A hybrid request on the sample store: the audit log gets the one
    entry of the structured-query pipeline and the permissions are read
    once, by that pipeline; the three events of the retrieval pipeline
    are the embedding call, the vector search and the model call. Run on
    its own, the retrieval pipeline leaves the audit log empty. *)
Theorem retrieval_pipeline_neither_asks_nor_audits :
  AuditLogs (db (snd (hybrid_query env_plain find_CO "managers" world))) =
    [QueryAudit "user-123" "Admin" find_CO in_CO 2 0] /\
  trace (snd (hybrid_query env_plain find_CO "managers" world)) =
    [CallGemini QUERY_AGENT_PROMPT (Raw find_CO);
     CallGemini SECURITY_AGENT_PROMPT (Stringify in_CO);
     CallGemini OPTIMIZATION_AGENT_PROMPT (Stringify in_CO);
     CallGemini VALIDATION_AGENT_PROMPT (Raw find_CO);
     FindPermission "Admin";
     Find "managers" in_CO;
     InsertAudit (QueryAudit "user-123" "Admin" find_CO in_CO 2 0);
     CallEmbedding (Raw find_CO);
     Aggregate "managers" short_vector;
     CallGemini RAG_AGENT_PROMPT
       (QuestionContext find_CO [project_score (kangan, 4 # 5)])] /\
  fst (runRagPipeline env_plain find_CO admin world) =
    Return (mkRagResult "answer" (4 # 5) "Kangan Gupta is in the CO branch."
              [project_score (kangan, 4 # 5)]) /\
  AuditLogs (db (snd (runRagPipeline env_plain find_CO admin world))) = [] /\
  trace (snd (runRagPipeline env_plain find_CO admin world)) =
    [CallEmbedding (Raw find_CO);
     Aggregate "managers" short_vector;
     CallGemini RAG_AGENT_PROMPT
       (QuestionContext find_CO [project_score (kangan, 4 # 5)])].
Proof. repeat split; vm_compute; reflexivity. Qed.

(** C8. The update pipeline on the sample store, with an embedding
    endpoint that answers a vector of length 2: the run returns with one
    record re-embedded, and that vector is now the stored embedding of
    the record. *)
Theorem update_resync_persists_short_vector :
  length short_vector <> EMBEDDING_DIMENSIONS /\
  fst (runUpdatePipeline env_plain "Change the CTC for Kangan Gupta to 75" "managers"
         admin world) = Return (mkUpdateResult true 1 1) /\
  collection (db (snd (runUpdatePipeline env_plain "Change the CTC for Kangan Gupta to 75"
                         "managers" admin world))) "managers" =
    [<["docEmbedding" := vector_json short_vector]> (<["CTC" := JNum 75]> kangan); vidit].
Proof. split; [discriminate|]. split; vm_compute; reflexivity. Qed.

(** Against C3 as the specification has it. The update agent answers an
    empty filter with a [$set] of the CTC, and the update security agent
    answers that it is safe: the pipeline does not reject, the update is
    sent to the store and both records of the collection are rewritten. *)
Lemma unfiltered_update_is_applied :
  let run := runUpdatePipeline env_lax "Set every CTC to 75" "managers" admin world in
  gemini env_lax UPDATE_AGENT_PROMPT (Raw "Set every CTC to 75") = Answer everyone_75 /\
  is_empty_object (filter everyone_75) = true /\
  fst run = Return (mkUpdateResult true 2 2) /\
  In (UpdateMany "managers" (JObj []) set_CTC_75) (trace (snd run)) /\
  collection (db (snd run)) "managers" =
    [<["docEmbedding" := vector_json short_vector]> (<["CTC" := JNum 75]> kangan);
     <["docEmbedding" := vector_json short_vector]> (<["CTC" := JNum 75]> vidit)] /\
  collection (db (snd run)) "managers" <> collection (db world) "managers".
Proof.
  cbn zeta.
  split; [reflexivity|]. split; [reflexivity|].
  split; [vm_compute; reflexivity|].
  split; [vm_compute; tauto|].
  split; [vm_compute; reflexivity|].
  intros H.
  apply (f_equal (fun docs : list Doc =>
                    length (List.filter (equal_attributes (JObj [("CTC", JNum 75)])) docs)))
    in H.
  vm_compute in H. discriminate H.
Qed.

(** The hypotheses of C3 hold of a refused request on the sample store:
    "set all CO branch CTCs to 50" comes back as an empty filter and an
    empty mutation, the update security agent answers that the filter is
    too broad, and the run stops there. *)
Lemma unsafe_verdict_aborts_update_witness :
  let verdict := mkSecurityCheck false "Update filter is empty. This is too broad." in
  permitted (db world) admin "managers" = true /\
  "Set all CO branch CTCs to 50" <> "" /\
  gemini env_refusal UPDATE_AGENT_PROMPT (Raw "Set all CO branch CTCs to 50") =
    Answer no_update /\
  gemini env_refusal UPDATE_SECURITY_AGENT_PROMPT (StringifyUpdate no_update) =
    Answer verdict /\
  isSafe verdict = false /\
  runUpdatePipeline env_refusal "Set all CO branch CTCs to 50" "managers" admin world =
    (Throw (UpdateSecurityRejectedError "Update filter is empty. This is too broad."),
     mkWorld (db world)
             (trace world ++
                [FindPermission (role admin);
                 CallGemini UPDATE_AGENT_PROMPT (Raw "Set all CO branch CTCs to 50");
                 CallGemini UPDATE_SECURITY_AGENT_PROMPT (StringifyUpdate no_update)])
             (clock world)).
Proof.
  cbn zeta.
  assert (h1 : permitted (db world) admin "managers" = true) by reflexivity.
  assert (h2 : "Set all CO branch CTCs to 50" <> "") by discriminate.
  assert (h3 : gemini env_refusal UPDATE_AGENT_PROMPT (Raw "Set all CO branch CTCs to 50") =
               Answer no_update) by reflexivity.
  assert (h4 : gemini env_refusal UPDATE_SECURITY_AGENT_PROMPT (StringifyUpdate no_update) =
               Answer (mkSecurityCheck false "Update filter is empty. This is too broad."))
    by reflexivity.
  assert (h5 : isSafe (mkSecurityCheck false "Update filter is empty. This is too broad.")
               = false) by reflexivity.
  repeat (split; [assumption|]).
  exact (proj1 (unsafe_verdict_aborts_update env_refusal _ _ _ _ _ _ h1 h2 h3 h4) h5).
Defined.



Lemma guest_is_unauthorized : unauthorized (db world) guest "managers".
Proof.
  cbn. split; intros [H|[]]; discriminate H.
Defined.

(** Against C6 as the specification has it. The role Guest may not read [managers]; the query
    agent answers a [$where] filter, the security agent rejects it, and
    the structured-query pipeline throws the security rejection, not the
    access denial: the permission gate is the fifth stage. *)
Lemma security_rejection_precedes_the_gate :
  unauthorized (db world) guest "managers" /\
  fst (runNlToQueryPipeline env_unsafe "run sleep" "managers" guest world) =
    Throw (QuerySecurityRejectedError "Query contains potentially dangerous operators.") /\
  fst (runNlToQueryPipeline env_unsafe "run sleep" "managers" guest world) <>
    Throw (AccessDeniedError "Guest" "managers").
Proof.
  split; [exact guest_is_unauthorized|].
  split; [vm_compute; reflexivity|].
  vm_compute. discriminate.
Qed.

(** The hypothesis of C6 holds of the role Guest on the sample store. *)
Lemma unauthorized_request_is_refused_witness :
  unauthorized (db world) guest "managers" /\
  runUpdatePipeline env_plain "Change the CTC for Kangan Gupta to 75" "managers" guest world =
    (Throw (AccessDeniedError "Guest" "managers"),
     mkWorld (db world) (trace world ++ [FindPermission "Guest"]) (clock world)) /\
  fst (runNlToQueryPipeline env_plain find_CO "managers" guest world) =
    Throw (AccessDeniedError "Guest" "managers").
Proof.
  pose proof guest_is_unauthorized as h.
  split; [exact h|].
  pose proof (unauthorized_request_is_refused env_plain
                "Change the CTC for Kangan Gupta to 75" "managers" guest world h) as [Hu _].
  split; [exact Hu|].
  pose proof (unauthorized_request_is_refused env_plain find_CO "managers" guest world h)
    as (_ & _ & _ & _ & Hnl).
  apply (Hnl in_CO in_CO safe_verdict specific); try reflexivity. discriminate.
Defined.

(** Against C7 as the specification has it. Both records of the CO branch match the filter,
    one of them already has a CTC of 70: one record is modified, two are
    re-embedded. *)
Lemma unchanged_records_are_re_embedded :
  fst (runUpdatePipeline env_level "Set the CTC of the CO branch to 70" "managers"
         admin world) = Return (mkUpdateResult true 1 2) /\
  length (List.filter (modified env_level in_CO set_CTC_70) (collection (db world) "managers"))
    = 1 /\
  reEmbeddedCount (mkUpdateResult true 1 2) <> 1.
Proof. repeat split; try (vm_compute; reflexivity). discriminate. Qed.

(** When the mutation moves a record out of the filter, the record is
    modified and not re-embedded (here its embedding stays absent). *)
Lemma moved_records_are_not_re_embedded :
  fst (runUpdatePipeline env_raise_60 "Raise the CTC of 60 to 70" "managers"
         admin world) = Return (mkUpdateResult true 1 0) /\
  collection (db (snd (runUpdatePipeline env_raise_60 "Raise the CTC of 60 to 70" "managers"
                         admin world))) "managers" =
    [kangan; <["CTC" := JNum 70]> vidit].
Proof. split; vm_compute; reflexivity. Qed.

(** The hypotheses of C7 hold on the sample store: the filter is on the
    name, the mutation on the CTC, one record is matched and modified. *)
Lemma reEmbedding_follows_modification_witness :
  let run := runUpdatePipeline env_plain "Change the CTC for Kangan Gupta to 75"
               "managers" admin world in
  let r := mkUpdateResult true 1 1 in
  fst run = Return r /\
  (forall d : Doc, In d (collection (db world) "managers") ->
     matches env_plain named_kangan d = true ->
     matches env_plain named_kangan (applyUpdate env_plain set_CTC_75 d) = true) /\
  exists evs : list Event,
    trace (snd run) = trace world ++ evs /\
    (In (Find "managers" named_kangan) evs <-> 0 < modifiedCount r) /\
    reEmbeddedCount r =
      length (List.filter (matches env_plain named_kangan) (collection (db world) "managers")).
Proof.
  cbn zeta.
  assert (h : fst (runUpdatePipeline env_plain "Change the CTC for Kangan Gupta to 75"
                     "managers" admin world) = Return (mkUpdateResult true 1 1))
    by (vm_compute; reflexivity).
  assert (hs : forall d : Doc, In d (collection (db world) "managers") ->
                 matches env_plain named_kangan d = true ->
                 matches env_plain named_kangan (applyUpdate env_plain set_CTC_75 d) = true).
  { intros d [<-|[<-|[]]]; vm_compute; intros H; exact H. }
  split; [exact h|]. split; [exact hs|].
  destruct (reEmbedding_follows_modification env_plain _ _ _ _ _ h)
    as (u & evs & Hu & Htrace & _ & Hiff & Hcount).
  cbn in Hu. injection Hu as <-.
  exists evs. split; [exact Htrace|]. split; [exact Hiff|].
  exact (proj1 (Hcount hs)).
Defined.

(** Against C9 as the specification has it. A hybrid request on the
    collection [students], under any schedule: the structured-query
    pipeline reads [students], the retrieval pipeline searches [managers]
    and never [students], and the answer is made from a record of
    [managers] that is not in [students]. *)
Lemma retrieval_searches_managers :
  In kangan (collection (db world) "managers") /\
  ~ In kangan (collection (db world) "students") /\
  forall schedule : list Pick,
    let run := hybrid_query_scheduled env_plain schedule find_CO "students" world in
    fst run =
      Json (rag (mkRagResult "answer" (4 # 5) "Kangan Gupta is in the CO branch."
                   [project_score (kangan, 4 # 5)])) /\
    In (Find "students" in_CO) (trace (snd run)) /\
    In (Aggregate "managers" short_vector) (trace (snd run)) /\
    forall v : list Q, ~ In (Aggregate "students" v) (trace (snd run)).
Proof.
  split; [left; vm_compute; reflexivity|].
  split.
  { intros [H|[]]. apply (f_equal (fun d : Doc => d !! "Branch")) in H.
    vm_compute in H. discriminate H. }
  intros schedule. cbn zeta.
  assert (h1 : find_CO <> "") by discriminate.
  assert (h2 : "students" <> "") by discriminate.
  destruct (hybrid_query_scheduled_runs env_plain schedule find_CO "students" world h1 h2)
    as (structured & retrieved & evs & Hs & Hr & Hevs & Hworld & Hanswer).
  cbn zeta in *.
  assert (Hnl : runNlToQueryPipeline env_plain find_CO "students" hard_coded_user world =
                (Return (mkNlResult "data" 0 [] in_CO safe_verdict specific),
                 mkWorld (insert_audit store (QueryAudit "user-123" "Admin" find_CO in_CO 0 0))
                   [CallGemini QUERY_AGENT_PROMPT (Raw find_CO);
                    CallGemini SECURITY_AGENT_PROMPT (Stringify in_CO);
                    CallGemini OPTIMIZATION_AGENT_PROMPT (Stringify in_CO);
                    CallGemini VALIDATION_AGENT_PROMPT (Raw find_CO);
                    FindPermission "Admin";
                    Find "students" in_CO;
                    InsertAudit (QueryAudit "user-123" "Admin" find_CO in_CO 0 0)]
                   1))
    by (vm_compute; reflexivity).
  assert (Hrg : runRagPipeline env_plain find_CO hard_coded_user world =
                (Return (mkRagResult "answer" (4 # 5) "Kangan Gupta is in the CO branch."
                           [project_score (kangan, 4 # 5)]),
                 mkWorld store
                   [CallEmbedding (Raw find_CO);
                    Aggregate "managers" short_vector;
                    CallGemini RAG_AGENT_PROMPT
                      (QuestionContext find_CO [project_score (kangan, 4 # 5)])]
                   0))
    by (vm_compute; reflexivity).
  rewrite Hnl in Hs, Hworld, Hanswer. rewrite Hrg in Hr, Hanswer.
  cbn [fst snd trace world app] in Hs, Hr, Hworld, Hanswer. subst structured retrieved.
  rewrite Hworld. cbn [trace].
  split; [exact Hanswer|].
  split; [apply (interleaved_In _ _ _ _ Hevs); left; cbn; tauto|].
  split; [apply (interleaved_In _ _ _ _ Hevs); right; cbn; tauto|].
  intros v Hin. apply (interleaved_In _ _ _ _ Hevs) in Hin as [Hin|Hin];
    cbn in Hin; repeat destruct Hin as [Hin|Hin]; try discriminate Hin; exact Hin.
Qed.

(** The hypotheses of C9 hold of that request: under every schedule the
    read is on [students] and the vector search on [managers]. *)
Lemma hybrid_pipelines_run_concurrently_witness :
  find_CO <> "" /\ "students" <> "" /\
  forall schedule : list Pick,
    exists evs : list Event,
      trace (snd (hybrid_query_scheduled env_plain schedule find_CO "students" world)) =
        trace world ++ evs /\
      (forall (name : string) (f : json), In (Find name f) evs -> name = "students") /\
      (forall (name : string) (v : list Q), In (Aggregate name v) evs -> name = "managers").
Proof.
  assert (h1 : find_CO <> "") by discriminate.
  assert (h2 : "students" <> "") by discriminate.
  repeat (split; [assumption|]).
  destruct (hybrid_pipelines_run_concurrently env_plain find_CO "students" world h1 h2)
    as (structured & retrieved & _ & _ & _ & _ & Hall & _).
  intros schedule. destruct (Hall schedule) as (evs & Htrace & _ & Hfind & Hagg).
  exists evs. auto.
Defined.

End Runs.


(** * Further properties of the code *)

(** ** More on the structured-query pipeline *)

Section NlToQueryMore.
Context (E : Env).

(** X2. When the structured-query pipeline returns it has added one audit
    entry to the database and changed nothing else: the entry has the
    caller, the role, the input text, the filter that was executed, the
    number of records returned and the time. An audit entry is written
    only after the collection was read, and a run that ends without
    having read the collection, stopped at a model stage, at the verdict
    of the security agent or at the permission gate, leaves the database
    as it was: a request refused there is not audited. *)
Theorem structured_query_audit_entry
    (userInput collectionName : string) (user : User) (w : World) :
  let run := runNlToQueryPipeline E userInput collectionName user w in
  (forall r : NlResult,
     fst run = Return r ->
     db (snd run) =
       insert_audit (db w)
         (QueryAudit (id user) (role user) userInput (mongoQuery r)
                     (length (data r)) (clock w))) /\
  exists evs : list Event,
    trace (snd run) = trace w ++ evs /\
    (forall entry : AuditEntry,
       In (InsertAudit entry) evs -> exists f : json, In (Find collectionName f) evs) /\
    ((forall (name : string) (f : json), ~ In (Find name f) evs) -> db (snd run) = db w).
Proof.
  cbn zeta.
  destruct (runNlToQueryPipeline E userInput collectionName user w) as [[r|e] w'] eqn:Hrun;
    cbn [fst snd].
  - apply runNlToQueryPipeline_Return in Hrun
      as (q & _ & _ & _ & _ & _ & _ & _ & _ & Hdb & Htrace).
    split; [by intros r' [= <-]|].
    eexists. split; [exact Htrace|]. split.
    + intros entry _. exists (mongoQuery r). cbn. tauto.
    + intros Hno. exfalso. apply (Hno collectionName (mongoQuery r)). cbn. tauto.
  - apply runNlToQueryPipeline_Throw in Hrun as (Hdb & _ & evs & Htrace & Hevs & _).
    split; [intros r H; discriminate H|].
    exists evs. split; [exact Htrace|]. split; [|by intros _].
    intros entry Hin. rewrite Forall_forall in Hevs.
    apply list_elem_of_In, Hevs in Hin. contradiction.
Qed.

(** X3. Every read of a collection that the structured-query pipeline
    makes is on the requested collection, is made with the answer of the
    optimization agent, and comes after a safe verdict of the security
    agent on the translated filter and a granted permission for the role.
    A run that returns has made that read, with the filter that it
    reports. *)
Theorem structured_query_reads_after_clearance
    (userInput collectionName : string) (user : User) (w : World) :
  let run := runNlToQueryPipeline E userInput collectionName user w in
  exists evs : list Event,
    trace (snd run) = trace w ++ evs /\
    (forall r : NlResult,
       fst run = Return r -> In (Find collectionName (mongoQuery r)) evs) /\
    (forall (name : string) (f : json),
       In (Find name f) evs ->
       name = collectionName /\
       permitted (db w) user collectionName = true /\
       exists (q : json) (verdict : SecurityCheck),
         gemini E QUERY_AGENT_PROMPT (Raw userInput) = Answer q /\
         gemini E SECURITY_AGENT_PROMPT (Stringify q) = Answer verdict /\
         isSafe verdict = true /\
         gemini E OPTIMIZATION_AGENT_PROMPT (Stringify q) = Answer f).
Proof.
  cbn zeta.
  destruct (runNlToQueryPipeline E userInput collectionName user w) as [[r|e] w'] eqn:Hrun;
    cbn [fst snd].
  - apply runNlToQueryPipeline_Return in Hrun
      as (q & Hq & Hs & Hsafe & Ho & _ & Hperm & _ & _ & _ & Htrace).
    eexists. split; [exact Htrace|]. split.
    + intros r' [= <-]. cbn. tauto.
    + intros name f Hin. cbn in Hin.
      repeat destruct Hin as [Hin|Hin]; try discriminate Hin; try done.
      inversion Hin; subst. repeat split; auto. by exists q, (securityCheck r).
  - apply runNlToQueryPipeline_Throw in Hrun as (_ & _ & evs & Htrace & Hevs & _).
    exists evs. split; [exact Htrace|].
    split; [intros r H; discriminate H|].
    intros name f Hin. rewrite Forall_forall in Hevs.
    apply list_elem_of_In, Hevs in Hin. contradiction.
Qed.

(** X4. No record returned by the structured-query pipeline carries the
    embedding attribute. *)
Theorem structured_query_hides_embeddings
    (userInput collectionName : string) (user : User) (w : World) (r : NlResult) (d : Doc) :
  fst (runNlToQueryPipeline E userInput collectionName user w) = Return r ->
  In d (data r) ->
  d !! "docEmbedding" = None.
Proof.
  intros H Hin.
  destruct (runNlToQueryPipeline E userInput collectionName user w) as [o w'] eqn:Hrun.
  cbn in H; subst o.
  apply runNlToQueryPipeline_Return in Hrun as (q & _ & _ & _ & _ & _ & _ & Hdata & _).
  rewrite Hdata in Hin. unfold project_out_embedding in Hin.
  apply in_map_iff in Hin as (d0 & <- & _). apply lookup_delete_eq.
Qed.

(** X5. An empty input text. The structured-query pipeline throws before
    any request is sent; the update pipeline throws after the permission
    lookup, before any request to the model; the retrieval pipeline has no
    such guard and sends the empty text to the embedding endpoint. *)
Theorem empty_input_text (collectionName : string) (user : User) (w : World) :
  runNlToQueryPipeline E "" collectionName user w = (Throw EmptyQueryError, w) /\
  (permitted (db w) user collectionName = true ->
   runUpdatePipeline E "" collectionName user w =
     (Throw EmptyQueryError,
      mkWorld (db w) (trace w ++ [FindPermission (role user)]) (clock w))) /\
  exists evs : list Event,
    trace (snd (runRagPipeline E "" user w)) = trace w ++ CallEmbedding (Raw "") :: evs.
Proof.
  split; [reflexivity|]. split.
  - intros Hperm. unfold runUpdatePipeline, findOnePermission. run_M.
    fold (permitted (db w) user collectionName). by rewrite Hperm.
  - unfold runRagPipeline, getEmbedding, callGemini. run_M.
    destruct (embedContent E (Raw "")) as [m|c b| |v]; cbn;
      try (by exists []).
    destruct (vectorSearch E "vectorIndex" "docEmbedding" v 100 5 (collection (db w) "managers"))
      as [|first hits]; cbn.
    + eexists. by rewrite <- app_assoc.
    + destruct (gemini E RAG_AGENT_PROMPT _) as [| | | | |a]; cbn;
        try destruct (String.eqb a ""); cbn; eexists; by rewrite <- !app_assoc.
Qed.

End NlToQueryMore.


(** ** More on the retrieval pipeline *)

Section RagMore.
Context (E : Env).

(** A run of the retrieval pipeline that returns: this is all it did. *)
Lemma runRagPipeline_Return (userInput : string) (user : User) (w w' : World) (r : RagResult) :
  runRagPipeline E userInput user w = (Return r, w') ->
  exists (queryVector : list Q),
    embedContent E (Raw userInput) = EmbedValues queryVector /\
    let hits := vectorSearch E "vectorIndex" "docEmbedding" queryVector 100 5
                  (collection (db w) "managers") in
    context r = (if hits is [] then [] else map project_score hits) /\
    match hits with
    | [] =>
        r = nothing_found /\
        trace w' = trace w ++ [CallEmbedding (Raw userInput); Aggregate "managers" queryVector]
    | first :: _ =>
        rag_confidence r = snd first /\
        gemini E RAG_AGENT_PROMPT (QuestionContext userInput (context r)) = Answer (answer r) /\
        trace w' = trace w ++
          [CallEmbedding (Raw userInput); Aggregate "managers" queryVector;
           CallGemini RAG_AGENT_PROMPT (QuestionContext userInput (context r))]
    end.
Proof.
  intros H. unfold runRagPipeline, getEmbedding, callGemini in H. run_M.
  destruct (embedContent E (Raw userInput)) as [m|c b| |v];
    cbn -[collection] in H; try discriminate H.
  exists v. split; [reflexivity|]. cbn zeta.
  destruct (vectorSearch E "vectorIndex" "docEmbedding" v 100 5 (collection (db w) "managers"))
    as [|first hits]; cbn -[collection] in H.
  - inversion H; subst. cbn. rewrite <- app_assoc. by repeat split.
  - destruct (gemini E RAG_AGENT_PROMPT _) as [| | | | |a] eqn:Hreply;
      cbn in H; try discriminate H.
    destruct (String.eqb a ""); cbn in H; [discriminate H|].
    inversion H; subst. cbn. rewrite <- !app_assoc. by repeat split.
Qed.

(** X1. The retrieval pipeline never returns an empty answer: the answer
    of a run that returns is the fixed apology or a completion that is
    not the empty text, since [callGemini] takes an empty candidate text
    for a missing one and throws. *)
Theorem retrieval_answer_is_not_empty
    (userInput : string) (user : User) (w : World) (r : RagResult) :
  fst (runRagPipeline E userInput user w) = Return r ->
  answer r <> "" /\
  (answer r = answer nothing_found \/
   exists context : list Doc,
     gemini E RAG_AGENT_PROMPT (QuestionContext userInput context) = Answer (answer r)).
Proof.
  unfold runRagPipeline, getEmbedding, callGemini. run_M.
  destruct (embedContent E (Raw userInput)) as [m|c b| |v]; cbn -[collection];
    try (intros H; discriminate H).
  destruct (vectorSearch E "vectorIndex" "docEmbedding" v 100 5 (collection (db w) "managers"))
    as [|first hits]; cbn -[collection].
  - intros [= <-]. cbn. split; [discriminate|by left].
  - destruct (gemini E RAG_AGENT_PROMPT _) as [| | | | |a] eqn:Hreply; cbn;
      try (intros H; discriminate H).
    destruct (String.eqb a "") eqn:Hempty; cbn; [intros H; discriminate H|].
    intros [= <-]. cbn. split; [by apply String.eqb_neq|].
    right. eexists. exact Hreply.
Qed.

(** X6. When the vector search finds no record, the retrieval pipeline
    returns the fixed apology with confidence 0 and an empty context, and
    the model is not called: the embedding call and the search are the
    only events. *)
Theorem retrieval_without_hits
    (userInput : string) (user : User) (w : World) (queryVector : list Q) :
  embedContent E (Raw userInput) = EmbedValues queryVector ->
  vectorSearch E "vectorIndex" "docEmbedding" queryVector 100 5
    (collection (db w) "managers") = [] ->
  runRagPipeline E userInput user w =
    (Return nothing_found,
     mkWorld (db w)
             (trace w ++ [CallEmbedding (Raw userInput); Aggregate "managers" queryVector])
             (clock w)).
Proof.
  intros Hv Hhits. unfold runRagPipeline, getEmbedding. run_M.
  rewrite Hv. cbn -[collection]. rewrite Hhits. cbn. by rewrite <- app_assoc.
Qed.

(** X7. When the retrieval pipeline returns: no record of the context
    carries the embedding attribute and each carries a numeric score; the
    confidence is the score of the first record of the context, and 0 when
    the context is empty; and when the context is not empty the answer is
    the reply of the model to the question with exactly that context. *)
Theorem retrieval_context_and_confidence
    (userInput : string) (user : User) (w : World) (r : RagResult) :
  fst (runRagPipeline E userInput user w) = Return r ->
  (forall d : Doc, In d (context r) ->
     d !! "docEmbedding" = None /\ exists score : Q, d !! "score" = Some (JNum score)) /\
  match context r with
  | [] => rag_confidence r = 0%Q
  | first :: _ =>
      first !! "score" = Some (JNum (rag_confidence r)) /\
      gemini E RAG_AGENT_PROMPT (QuestionContext userInput (context r)) = Answer (answer r)
  end.
Proof.
  intros H.
  destruct (runRagPipeline E userInput user w) as [o w'] eqn:Hrun. cbn in H; subst o.
  apply runRagPipeline_Return in Hrun as (v & _ & Hctx & Hcase). cbn zeta in *.
  destruct (vectorSearch E "vectorIndex" "docEmbedding" v 100 5 (collection (db w) "managers"))
    as [|first hits].
  - destruct Hcase as [-> _]. cbn. split; [intros d []|reflexivity].
  - destruct Hcase as (Hconf & Hanswer & _). rewrite Hctx in *. split.
    + intros d Hin. apply in_map_iff in Hin as (hit & <- & _). unfold project_score.
      split; [by rewrite lookup_insert_ne, lookup_delete_eq|].
      exists (snd hit). by rewrite lookup_insert_eq.
    + cbn [map]. split; [|exact Hanswer].
      unfold project_score. by rewrite lookup_insert_eq, Hconf.
Qed.

(** X8. The retrieval pipeline only reads: whatever its outcome the
    database is as before, and its events are the embedding call on the
    input text, the vector search on [managers] and the call of the RAG
    agent on the question. *)
Theorem retrieval_only_reads (userInput : string) (user : User) (w : World) :
  let w' := snd (runRagPipeline E userInput user w) in
  db w' = db w /\
  exists evs : list Event,
    trace w' = trace w ++ evs /\
    forall ev : Event, In ev evs ->
      ev = CallEmbedding (Raw userInput) \/
      (exists queryVector : list Q, ev = Aggregate "managers" queryVector) \/
      (exists context : list Doc,
         ev = CallGemini RAG_AGENT_PROMPT (QuestionContext userInput context)).
Proof.
  cbn zeta.
  destruct (runRagPipeline_effect E userInput user w) as (Hdb & _ & evs & Htrace & Hevs).
  split; [exact Hdb|]. exists evs. split; [exact Htrace|].
  intros ev Hin. rewrite Forall_forall in Hevs.
  apply list_elem_of_In, Hevs in Hin.
  destruct ev as [p t|t|?|? ?|name v|? ? ?|? ? ?|?|?]; cbn in Hin; try contradiction.
  - destruct t; try contradiction. destruct Hin as [-> ->]. right; right. by eexists.
  - subst. by left.
  - subst. right; left. by eexists.
Qed.

End RagMore.


(** ** More on the update pipeline *)

Section UpdateMore.
Context (E : Env).

(** Every run of the update pipeline either stops before the update, with
    the database untouched, or applies the update that the security agent
    found safe and then only re-embeds and audits. *)
Lemma runUpdatePipeline_cases (userInput collectionName : string) (user : User) (w : World) :
  let run := runUpdatePipeline E userInput collectionName user w in
  ((exists e : Error, fst run = Throw e) /\
   db (snd run) = db w /\
   exists evs : list Event,
     trace (snd run) = trace w ++ evs /\ Forall model_or_gate_event evs) \/
  (permitted (db w) user collectionName = true /\
   exists (u : UpdateQuery) (verdict : SecurityCheck) (d2 : DB) (evs : list Event),
     gemini E UPDATE_AGENT_PROMPT (Raw userInput) = Answer u /\
     gemini E UPDATE_SECURITY_AGENT_PROMPT (StringifyUpdate u) = Answer verdict /\
     isSafe verdict = true /\
     only_embeddings_of collectionName
       (set_collection (db w) collectionName
          (updateMany_docs E (filter u) (update u) (collection (db w) collectionName)))
       d2 /\
     trace (snd run) = trace w ++ update_prefix collectionName userInput user u ++ evs /\
     Forall after_update_event evs /\
     match fst run with
     | Throw _ => db (snd run) = d2
     | Return r =>
         db (snd run) =
           insert_audit d2 (UpdateAudit (id user) (role user) userInput u
                                        (modifiedCount r) (clock w))
     end).
Proof.
  cbn zeta.
  unfold runUpdatePipeline, callGemini, findOnePermission, updateMany, find, insertAudit.
  run_M. fold (permitted (db w) user collectionName).
  destruct (is_empty_text (Raw userInput)) eqn:Hempty;
    (destruct (permitted (db w) user collectionName) eqn:Hperm;
     cbn -[List.filter reSync Nat.ltb collection set_collection]).
  1,2,4: left; (split; [by eexists|]); (split; [reflexivity|]);
         eexists; (split; [reflexivity|]); repeat constructor.
  destruct (gemini E UPDATE_AGENT_PROMPT (Raw userInput)) as [| | | | |u] eqn:Hu;
    cbn -[List.filter reSync Nat.ltb collection set_collection];
    try (left; (split; [by eexists|]); (split; [reflexivity|]);
         eexists; rewrite <- ?app_assoc; (split; [reflexivity|]); repeat constructor).
  destruct (gemini E UPDATE_SECURITY_AGENT_PROMPT (StringifyUpdate u))
    as [| | | | |verdict] eqn:Hv;
    cbn -[List.filter reSync Nat.ltb collection set_collection];
    try (left; (split; [by eexists|]); (split; [reflexivity|]);
         eexists; rewrite <- ?app_assoc; (split; [reflexivity|]); repeat constructor).
  destruct (isSafe verdict) eqn:Hsafe;
    cbn -[List.filter reSync Nat.ltb collection set_collection];
    [|left; (split; [by eexists|]); (split; [reflexivity|]);
      eexists; rewrite <- ?app_assoc; (split; [reflexivity|]); repeat constructor].
  right. split; [reflexivity|]. exists u, verdict.
  destruct (Nat.ltb 0 (length (List.filter (modified E (filter u) (update u))
                                 (collection (db w) collectionName)))) eqn:Hmod;
    cbn -[List.filter reSync Nat.ltb collection set_collection].
  - match goal with
    | |- context [reSync E ?c ?docs ?n ?w0] =>
        destruct (reSync_effect E c docs n w0) as (Hclock & Hframe & evs & Htrace & Hevs);
        destruct (reSync E c docs n w0) as [[m|e] w2] eqn:Hsync
    end; cbn -[List.filter Nat.ltb collection set_collection] in *.
    + exists (db w2). eexists. repeat (split; [first [reflexivity | exact Hu | exact Hv | exact Hsafe | exact Hframe]|]).
      rewrite Htrace, Hclock, <- !app_assoc. unfold update_prefix. cbn [app].
      split; [reflexivity|]. split; [|reflexivity].
      constructor; [exact I|]. apply Forall_app. split; [|repeat constructor].
      eapply Forall_impl; [exact Hevs|]. by intros [].
    + exists (db w2). eexists. repeat (split; [first [reflexivity | exact Hu | exact Hv | exact Hsafe | exact Hframe]|]).
      rewrite Htrace, <- !app_assoc. unfold update_prefix. cbn [app].
      split; [reflexivity|]. split; [|reflexivity].
      constructor; [exact I|]. eapply Forall_impl; [exact Hevs|]. by intros [].
  - eexists. eexists. repeat (split; [first [reflexivity | exact Hu | exact Hv | exact Hsafe | apply only_embeddings_of_refl]|]).
    rewrite <- !app_assoc. unfold update_prefix. cbn [app].
    split; [reflexivity|]. split; [|reflexivity]. repeat constructor.
Qed.

Lemma Forall2_compose {A : Type} (R1 R2 R3 : A -> A -> Prop) (l1 l2 l3 : list A) :
  (forall x y z : A, R1 x y -> R2 y z -> R3 x z) ->
  Forall2 R1 l1 l2 -> Forall2 R2 l2 l3 -> Forall2 R3 l1 l3.
Proof.
  intros Hcomp H12. revert l3. induction H12; intros l3 H23; inversion H23; subst.
  - constructor.
  - constructor; eauto.
Qed.

(** [updateMany] leaves the records the filter does not match as they are. *)
Lemma updateMany_docs_unmatched (f u : json) (docs : list Doc) :
  Forall2 (fun d d' : Doc => matches E f d = false -> d' = d)
          docs (updateMany_docs E f u docs).
Proof.
  induction docs as [|d rest IH]; cbn; constructor; auto.
  intros Hd. by rewrite Hd.
Qed.

(** X9. The update pipeline sends an update to the store only for the
    requested collection, after the permission of the role was granted,
    and only the filter and mutation that the update agent answered and
    that the update security agent was shown and found safe. *)
Theorem update_applies_only_the_cleared_update
    (userInput collectionName : string) (user : User) (w : World) :
  let run := runUpdatePipeline E userInput collectionName user w in
  exists evs : list Event,
    trace (snd run) = trace w ++ evs /\
    forall (name : string) (f m : json),
      In (UpdateMany name f m) evs ->
      name = collectionName /\
      permitted (db w) user collectionName = true /\
      exists (u : UpdateQuery) (verdict : SecurityCheck),
        gemini E UPDATE_AGENT_PROMPT (Raw userInput) = Answer u /\
        gemini E UPDATE_SECURITY_AGENT_PROMPT (StringifyUpdate u) = Answer verdict /\
        isSafe verdict = true /\
        f = filter u /\ m = update u.
Proof.
  cbn zeta.
  destruct (runUpdatePipeline_cases userInput collectionName user w)
    as [(_ & _ & evs & Htrace & Hevs)
       |(Hperm & u & verdict & d2 & evs & Hu & Hv & Hsafe & _ & Htrace & Hevs & _)].
  - exists evs. split; [exact Htrace|]. intros name f m Hin.
    rewrite Forall_forall in Hevs. apply list_elem_of_In, Hevs in Hin. contradiction.
  - eexists. split; [exact Htrace|]. intros name f m Hin.
    apply in_app_or in Hin as [Hin|Hin].
    + cbn in Hin. repeat destruct Hin as [Hin|Hin]; try discriminate Hin; try done.
      inversion Hin; subst. repeat split; auto. by exists u, verdict.
    + rewrite Forall_forall in Hevs. apply list_elem_of_In, Hevs in Hin. contradiction.
Qed.

(** X10. On a collection other than the audit log itself, the update
    pipeline writes an audit entry exactly when it returns: one entry with
    the caller, the role, the input text, the filter and mutation that
    were applied, the number of modified records and the time. A run that
    throws leaves the audit log as it was, also when the update had
    already been applied. *)
Theorem update_audits_iff_returned
    (userInput collectionName : string) (user : User) (w : World) :
  collectionName <> "AuditLogs" ->
  let run := runUpdatePipeline E userInput collectionName user w in
  match fst run with
  | Return r =>
      exists u : UpdateQuery,
        gemini E UPDATE_AGENT_PROMPT (Raw userInput) = Answer u /\
        AuditLogs (db (snd run)) =
          AuditLogs (db w) ++
          [UpdateAudit (id user) (role user) userInput u (modifiedCount r) (clock w)]
  | Throw _ => AuditLogs (db (snd run)) = AuditLogs (db w)
  end.
Proof.
  intros _. cbn zeta.
  destruct (runUpdatePipeline_cases userInput collectionName user w)
    as [((e & He) & Hdb & _)
       |(Hperm & u & verdict & d2 & evs & Hu & Hv & Hsafe & Hframe & _ & _ & Hcase)].
  - rewrite He. by rewrite Hdb.
  - destruct Hframe as (_ & Haudit & _). cbn in Haudit.
    destruct (fst (runUpdatePipeline E userInput collectionName user w)) as [r|e].
    + exists u. split; [exact Hu|]. rewrite Hcase. cbn. by rewrite Haudit.
    + by rewrite Hcase.
Qed.

(** X11. On a collection other than the permissions and the audit log,
    and whatever its outcome, the update pipeline leaves the permissions
    and every collection other than the target and those two as they
    were, and keeps the records of the target collection in number and
    order; a record that the translated filter does not match keeps every
    attribute other than the embedding. *)
Theorem update_touches_only_matched_records
    (userInput collectionName : string) (user : User) (w : World) :
  collectionName <> "Permissions" ->
  collectionName <> "AuditLogs" ->
  let w' := snd (runUpdatePipeline E userInput collectionName user w) in
  Permissions (db w') = Permissions (db w) /\
  (forall other : string,
     other <> collectionName -> other <> "Permissions" -> other <> "AuditLogs" ->
     collection (db w') other = collection (db w) other) /\
  length (collection (db w') collectionName) = length (collection (db w) collectionName) /\
  forall u : UpdateQuery,
    gemini E UPDATE_AGENT_PROMPT (Raw userInput) = Answer u ->
    Forall2 (fun d d' : Doc =>
               matches E (filter u) d = false ->
               forall k : string, k <> "docEmbedding" -> d' !! k = d !! k)
            (collection (db w) collectionName) (collection (db w') collectionName).
Proof.
  intros _ _. cbn zeta.
  destruct (runUpdatePipeline_cases userInput collectionName user w)
    as [(_ & Hdb & _)
       |(Hperm & u & verdict & d2 & evs & Hu & Hv & Hsafe & Hframe & _ & _ & Hcase)].
  - rewrite Hdb. repeat split; auto. intros u _.
    eapply Forall2_impl; [apply all_same_but_docEmbedding_refl|].
    intros d d' H _. exact H.
  - destruct Hframe as (Hp & _ & Hother & Hdocs). rewrite collection_set_same in Hdocs.
    assert (Hcoll : forall name : string,
              collection (db (snd (runUpdatePipeline E userInput collectionName user w))) name
              = collection d2 name).
    { intros name.
      destruct (fst (runUpdatePipeline E userInput collectionName user w));
        by rewrite Hcase. }
    assert (Hperms : Permissions (db (snd (runUpdatePipeline E userInput collectionName
                                             user w))) = Permissions d2).
    { destruct (fst (runUpdatePipeline E userInput collectionName user w));
        by rewrite Hcase. }
    rewrite Hperms, Hp, !Hcoll. split; [reflexivity|]. split.
    { intros other Hne _ _. rewrite Hcoll, (Hother other Hne).
      by apply collection_set_other. }
    split.
    { apply Forall2_length in Hdocs. rewrite <- Hdocs.
      unfold updateMany_docs. by rewrite length_map. }
    intros u' Hu'. rewrite Hu in Hu'. injection Hu' as <-.
    eapply Forall2_compose; [|apply updateMany_docs_unmatched|exact Hdocs].
    intros d d1 d2' H1 H2 Hd k Hk. cbn beta in *. rewrite (H2 k Hk). by rewrite (H1 Hd).
Qed.

(** X12. When the embedding endpoint answers with an error status for the
    first record that is re-fetched, the update pipeline throws that
    error after the update was applied: the modified records stay
    modified, no embedding is rewritten and no audit entry is written. *)
Theorem update_fails_after_the_update
    (userInput collectionName : string) (user : User) (w : World)
    (u : UpdateQuery) (verdict : SecurityCheck) (doc : Doc) (rest : list Doc)
    (code : nat) (errorBody : string) :
  userInput <> "" ->
  permitted (db w) user collectionName = true ->
  gemini E UPDATE_AGENT_PROMPT (Raw userInput) = Answer u ->
  gemini E UPDATE_SECURITY_AGENT_PROMPT (StringifyUpdate u) = Answer verdict ->
  isSafe verdict = true ->
  0 < length (List.filter (modified E (filter u) (update u))
                (collection (db w) collectionName)) ->
  List.filter (matches E (filter u))
    (updateMany_docs E (filter u) (update u) (collection (db w) collectionName)) =
    doc :: rest ->
  embedContent E (createTextForEmbedding doc) = EmbedStatus code errorBody ->
  runUpdatePipeline E userInput collectionName user w =
    (Throw (EmbeddingUpstreamError code errorBody),
     mkWorld (set_collection (db w) collectionName
                (updateMany_docs E (filter u) (update u) (collection (db w) collectionName)))
             (trace w ++ update_prefix collectionName userInput user u ++
                [Find collectionName (filter u);
                 CallEmbedding (createTextForEmbedding doc)])
             (clock w)).
Proof.
  intros Hinput Hperm Hu Hv Hsafe Hmod Hdocs Hembed.
  unfold runUpdatePipeline, callGemini, findOnePermission, updateMany, find, getEmbedding.
  run_M. fold (permitted (db w) user collectionName). rewrite Hperm.
  destruct userInput as [|c0 s0]; [done|].
  cbn -[List.filter reSync Nat.ltb collection set_collection createTextForEmbedding].
  rewrite Hu. cbn -[List.filter reSync Nat.ltb collection set_collection createTextForEmbedding].
  rewrite Hv. cbn -[List.filter reSync Nat.ltb collection set_collection createTextForEmbedding].
  rewrite Hsafe.
  cbn -[List.filter reSync Nat.ltb collection set_collection createTextForEmbedding].
  apply Nat.ltb_lt in Hmod. rewrite Hmod.
  cbn -[List.filter reSync Nat.ltb collection set_collection createTextForEmbedding].
  rewrite collection_set_same, Hdocs.
  cbn [reSync]. unfold getEmbedding. run_M. rewrite Hembed.
  cbn -[collection set_collection createTextForEmbedding].
  by rewrite <- !app_assoc.
Qed.

End UpdateMore.


(** ** The text that is embedded *)

Section SummaryText.

Lemma or_NA_falsy (v : json) : truthy (Some v) = false -> or_NA (Some v) = or_NA None.
Proof. intros H. unfold or_NA. by rewrite H. Qed.

(** X13. The text built for a record is a function of the seven
    attributes Name, CGPA, Branch, Role, Company, CTC and Details: two
    records that agree on them get the same text, so the identifier, the
    stored embedding and any other attribute have no part in it. *)
Theorem summary_text_reads_seven_attributes (d1 d2 : Doc) :
  (forall k : string, In k summary_attributes -> d1 !! k = d2 !! k) ->
  createTextForEmbedding d1 = createTextForEmbedding d2.
Proof.
  intros H. unfold createTextForEmbedding.
  rewrite !(H _) by (cbn; tauto). reflexivity.
Qed.

(** X14. A value that JavaScript takes as false ([null], [false], [0], the
    empty string) is rendered like a missing attribute: a record with such
    a value for one of the seven attributes gets the text of the record
    without that attribute. So a CTC of 0 reads N/A. *)
Theorem summary_text_renders_falsy_as_missing (d : Doc) (k : string) (v : json) :
  In k summary_attributes ->
  truthy (Some v) = false ->
  createTextForEmbedding (<[k := v]> d) = createTextForEmbedding (delete k d).
Proof.
  intros Hk Hv. unfold createTextForEmbedding.
  cbn in Hk. repeat destruct Hk as [<-|Hk]; try contradiction;
    rewrite ?lookup_insert_eq, ?lookup_delete_eq, (or_NA_falsy v Hv);
    rewrite ?lookup_insert_ne, ?lookup_delete_ne by done; reflexivity.
Qed.

End SummaryText.

(** ** More on the backfill script *)

Section BackfillMore.
Context (E : Env).

(** The loop of the backfill script: it never throws, counts the records
    it stored an embedding for, and does for each record what
    [process_events_of] says. *)
Lemma process_run (docs : list Doc) (count : nat) (w : World) :
  let run := create_data_embeddings.process E docs count w in
  fst run = Return (count + length (List.filter (storable E) docs)) /\
  clock (snd run) = clock w /\
  trace (snd run) = trace w ++ flat_map (process_events_of E) docs /\
  only_embeddings_of "managers" (db w) (db (snd run)).
Proof.
  cbn zeta. revert count w. induction docs as [|doc rest IH]; intros count w.
  - cbn. rewrite app_nil_r, Nat.add_0_r. repeat split; auto using all_same_but_docEmbedding_refl.
  - cbn [create_data_embeddings.process flat_map List.filter].
    assert (Hst : storable E doc =
                  match embedContent E (createTextForEmbedding doc) with
                  | EmbedValues values => Nat.eqb (length values) EMBEDDING_DIMENSIONS
                  | _ => false
                  end) by reflexivity.
    rewrite Hst. clear Hst.
    unfold create_data_embeddings.getEmbedding, updateOne, process_events_of.
    run_M.
    destruct (embedContent E (createTextForEmbedding doc)) as [m|c b| |v];
      cbn -[create_data_embeddings.process createTextForEmbedding Nat.eqb
            collection set_collection];
      [| | |destruct (Nat.eqb (length v) EMBEDDING_DIMENSIONS) eqn:Hlen;
            cbn -[create_data_embeddings.process createTextForEmbedding
                  collection set_collection]];
      match goal with
      | |- context [create_data_embeddings.process E rest ?n ?w1] =>
          destruct (IH n w1) as (Hret & Hclock & Htrace & Hframe);
          destruct (create_data_embeddings.process E rest n w1) as [o w2]
      end;
      cbn -[createTextForEmbedding collection set_collection] in *;
      subst o; rewrite Hclock, Htrace, <- !app_assoc;
      (split; [f_equal; lia|]); (split; [reflexivity|]); (split; [reflexivity|]);
      try exact Hframe.
    eapply only_embeddings_of_trans; [|exact Hframe].
    repeat split; auto.
    + intros other H. by apply collection_set_other.
    + rewrite collection_set_same. apply updateOne_docs_frame.
Qed.

(** The whole script, from the records the store finds without an
    embedding. *)
Lemma createEmbeddings_run (w : World) :
  let run := create_data_embeddings.createEmbeddings E w in
  let documentsToProcess :=
    List.filter (matches E create_data_embeddings.without_embedding)
                (collection (db w) "managers") in
  fst run = Return (length (List.filter (storable E) documentsToProcess)) /\
  trace (snd run) =
    trace w ++ Find "managers" create_data_embeddings.without_embedding ::
               flat_map (process_events_of E) documentsToProcess /\
  only_embeddings_of "managers" (db w) (db (snd run)).
Proof.
  cbn zeta. unfold create_data_embeddings.createEmbeddings, find. run_M.
  destruct (List.filter (matches E create_data_embeddings.without_embedding)
              (collection (db w) "managers")) as [|doc rest] eqn:Hdocs.
  - cbn. repeat split; auto using all_same_but_docEmbedding_refl.
  - cbn [length Nat.eqb].
    match goal with
    | |- context [create_data_embeddings.process E ?docs 0 ?w1] =>
        destruct (process_run docs 0 w1) as (Hret & _ & Htrace & Hframe)
    end.
    cbn [db trace] in *. rewrite Hret, Htrace, <- app_assoc.
    split; [reflexivity|]. split; [reflexivity|]. exact Hframe.
Qed.

(** X15. The backfill script always runs to its end: a failing embedding
    call or a vector of the wrong length is skipped, not thrown. The count
    it reports is the number of records, among those the store finds
    without an embedding, for which the endpoint answered a vector of 768
    numbers. *)
Theorem backfill_completes_and_counts (w : World) :
  fst (create_data_embeddings.createEmbeddings E w) =
  Return (length (List.filter (storable E)
                    (List.filter (matches E create_data_embeddings.without_embedding)
                                 (collection (db w) "managers")))).
Proof. by destruct (createEmbeddings_run w) as (H & _). Qed.

(** X16. In the backfill script, a vector whose length is not 768 is
    reported on the console with both lengths and is not written: every
    write of the run carries a vector of length 768. *)
Theorem backfill_reports_and_skips_mismatch (w : World) (doc : Doc) (values : list Q) :
  In doc (List.filter (matches E create_data_embeddings.without_embedding)
            (collection (db w) "managers")) ->
  embedContent E (createTextForEmbedding doc) = EmbedValues values ->
  length values <> EMBEDDING_DIMENSIONS ->
  exists evs : list Event,
    trace (snd (create_data_embeddings.createEmbeddings E w)) = trace w ++ evs /\
    In (ConsoleError (DimensionMismatchError (length values) EMBEDDING_DIMENSIONS)) evs /\
    forall (name : string) (_id : option json) (embedding : list Q),
      In (UpdateOne name _id embedding) evs ->
      name = "managers" /\ length embedding = EMBEDDING_DIMENSIONS.
Proof.
  intros Hin Hreply Hlen.
  destruct (createEmbeddings_run w) as (_ & Htrace & _). cbn zeta in Htrace.
  eexists. split; [exact Htrace|]. split.
  - right. apply in_flat_map. exists doc. split; [exact Hin|].
    unfold process_events_of. rewrite Hreply.
    apply Nat.eqb_neq in Hlen. rewrite Hlen. right. by left.
  - intros name _id embedding [Hev|Hev]; [discriminate Hev|].
    apply in_flat_map in Hev as (d & _ & Hev). unfold process_events_of in Hev.
    destruct Hev as [Hev|Hev]; [discriminate Hev|].
    destruct (embedContent E (createTextForEmbedding d)) as [m|c b| |v];
      try (destruct Hev as [Hev|[]]; discriminate Hev).
    destruct (Nat.eqb (length v) EMBEDDING_DIMENSIONS) eqn:Hv;
      destruct Hev as [Hev|[]]; [|discriminate Hev].
    inversion Hev; subst. split; [reflexivity|]. by apply Nat.eqb_eq.
Qed.

(** X17. The backfill script writes embeddings of [managers] and nothing
    else: the permissions, the audit log and the other collections are as
    before, and the records of [managers] are the same in number and
    order, each with every attribute other than [docEmbedding] unchanged. *)
Theorem backfill_writes_only_embeddings (w : World) :
  let w' := snd (create_data_embeddings.createEmbeddings E w) in
  Permissions (db w') = Permissions (db w) /\
  AuditLogs (db w') = AuditLogs (db w) /\
  (forall other : string, other <> "managers" ->
     collection (db w') other = collection (db w) other) /\
  Forall2 (fun d d' : Doc => forall k : string, k <> "docEmbedding" -> d' !! k = d !! k)
          (collection (db w) "managers") (collection (db w') "managers").
Proof. cbn zeta. by destruct (createEmbeddings_run w) as (_ & _ & H). Qed.

End BackfillMore.

(** ** More on the two endpoints *)

Section EndpointsMore.
Context (E : Env).

Lemma empty_field_decides (userInput collectionName : string) :
  (String.eqb userInput "" || String.eqb collectionName "")%bool = true <->
  userInput = "" \/ collectionName = "".
Proof. by rewrite orb_true_iff, !String.eqb_eq. Qed.


(** X18. Both endpoints answer 400 exactly when the input text or the
    collection name is empty, and then nothing has run: no model call, no
    permission lookup, no access to the store. *)
Theorem endpoints_reject_empty_fields (userInput collectionName : string) (w : World) :
  (fst (hybrid_query E userInput collectionName w) = BadRequest <->
     userInput = "" \/ collectionName = "") /\
  (fst (update_query E userInput collectionName w) = BadRequest <->
     userInput = "" \/ collectionName = "") /\
  (userInput = "" \/ collectionName = "" ->
   snd (hybrid_query E userInput collectionName w) = w /\
   snd (update_query E userInput collectionName w) = w).
Proof.
  unfold hybrid_query, update_query.
  destruct (String.eqb userInput "" || String.eqb collectionName "")%bool eqn:Hempty.
  - apply empty_field_decides in Hempty. cbn. tauto.
  - assert (Hn : ~ (userInput = "" \/ collectionName = "")).
    { intros H. apply empty_field_decides in H. congruence. }
    cbn zeta.
    destruct (runNlToQueryPipeline E userInput collectionName hard_coded_user w) as [nl w1].
    destruct (runRagPipeline E userInput hard_coded_user w1) as [rg w2].
    destruct (runUpdatePipeline E userInput collectionName hard_coded_user w) as [up w3].
    repeat split; try tauto.
    + destruct nl, rg; cbn; try discriminate. by destruct (Qgtb _ _).
    + by destruct up.
Qed.


(** X20. When the structured-query pipeline of a hybrid request returns,
    the request has added its audit entry to the audit log, and nothing
    else, once both pipelines are done. This holds under every schedule,
    whether or not the structured-query result is the one that is
    answered, and also when the retrieval pipeline throws and the answer
    is an error; the permissions and the collections are as before. *)
Theorem hybrid_audits_the_structured_run
    (schedule : list Pick) (userInput collectionName : string) (w : World) (r : NlResult) :
  userInput <> "" -> collectionName <> "" ->
  fst (runNlToQueryPipeline E userInput collectionName hard_coded_user w) = Return r ->
  let w' := snd (hybrid_query_scheduled E schedule userInput collectionName w) in
  AuditLogs (db w') =
    AuditLogs (db w) ++
    [QueryAudit "user-123" "Admin" userInput (mongoQuery r) (length (data r)) (clock w)] /\
  Permissions (db w') = Permissions (db w) /\
  collections (db w') = collections (db w).
Proof.
  intros Hu Hc Hr. cbn zeta.
  destruct (hybrid_query_scheduled_runs E schedule userInput collectionName w Hu Hc)
    as (structured & retrieved & evs & _ & _ & _ & Hworld & _).
  cbn zeta in Hworld. rewrite Hworld. cbn [db].
  destruct (runNlToQueryPipeline E userInput collectionName hard_coded_user w)
    as [o w1] eqn:Hrun.
  cbn in Hr; subst o.
  apply runNlToQueryPipeline_Return in Hrun
    as (q & _ & _ & _ & _ & _ & _ & _ & _ & Hdb & _).
  cbn [snd]. by rewrite Hdb.
Qed.

(** X24. The answer of a hybrid request under any schedule. When both
    pipelines return, the answer is the one of the arbitration, the same
    under every schedule; when one of them throws the answer carries its
    error, and when both throw it carries the error of one of the two.
    The database that the request leaves does not depend on the
    schedule. *)
Theorem hybrid_answer_under_any_schedule
    (schedule : list Pick) (userInput collectionName : string) (w : World) :
  userInput <> "" -> collectionName <> "" ->
  let run := hybrid_query_scheduled E schedule userInput collectionName w in
  db (snd run) = db (snd (hybrid_query E userInput collectionName w)) /\
  match fst (runNlToQueryPipeline E userInput collectionName hard_coded_user w),
        fst (runRagPipeline E userInput hard_coded_user w) with
  | Return _, Return _ => fst run = fst (hybrid_query E userInput collectionName w)
  | Throw e, Return _ => fst run = ServerError e
  | Return _, Throw e => fst run = ServerError e
  | Throw e1, Throw e2 => fst run = ServerError e1 \/ fst run = ServerError e2
  end.
Proof.
  intros Hu Hc. cbn zeta.
  destruct (hybrid_query_scheduled_runs E schedule userInput collectionName w Hu Hc)
    as (structured & retrieved & evs & _ & _ & _ & Hworld & Hanswer).
  destruct (hybrid_query_scheduled_runs E [] userInput collectionName w Hu Hc)
    as (structured' & retrieved' & evs' & _ & _ & _ & Hworld' & Hanswer').
  cbn zeta in *. rewrite hybrid_query_scheduled_nil in Hworld', Hanswer'.
  rewrite Hworld, Hworld'. split; [reflexivity|].
  destruct (fst (runNlToQueryPipeline E userInput collectionName hard_coded_user w)),
           (fst (runRagPipeline E userInput hard_coded_user w));
    cbn in Hanswer, Hanswer' |- *; try exact Hanswer.
  by rewrite Hanswer, Hanswer'.
Qed.


End EndpointsMore.

(** ** The further properties on the sample store *)

Section RunsMore.
Import Sample.

(** The hypotheses of X4 hold on the sample store: the first record of
    [managers] has a stored embedding and is returned without it. *)
Lemma structured_query_hides_embeddings_witness :
  let r := mkNlResult "data" (95 # 100) (project_out_embedding [kangan; vidit])
                      in_CO safe_verdict specific in
  fst (runNlToQueryPipeline env_plain find_CO "managers" admin world) = Return r /\
  In (delete "docEmbedding" kangan) (data r) /\
  kangan !! "docEmbedding" <> None /\
  delete "docEmbedding" kangan !! "docEmbedding" = None.
Proof.
  cbn zeta.
  assert (h1 : fst (runNlToQueryPipeline env_plain find_CO "managers" admin world) =
               Return (mkNlResult "data" (95 # 100) (project_out_embedding [kangan; vidit])
                                  in_CO safe_verdict specific))
    by (vm_compute; reflexivity).
  assert (h2 : In (delete "docEmbedding" kangan)
                  (data (mkNlResult "data" (95 # 100) (project_out_embedding [kangan; vidit])
                                    in_CO safe_verdict specific)))
    by (left; reflexivity).
  split; [exact h1|]. split; [exact h2|]. split; [vm_compute; discriminate|].
  exact (structured_query_hides_embeddings env_plain _ _ _ _ _ _ h1 h2).
Defined.

(** The hypotheses of X6 hold on the sample store without embeddings. *)
Lemma retrieval_without_hits_witness :
  embedContent env_plain (Raw find_CO) = EmbedValues short_vector /\
  vectorSearch env_plain "vectorIndex" "docEmbedding" short_vector 100 5
    (collection (db world_unembedded) "managers") = [] /\
  runRagPipeline env_plain find_CO admin world_unembedded =
    (Return nothing_found,
     mkWorld (db world_unembedded)
             (trace world_unembedded ++
                [CallEmbedding (Raw find_CO); Aggregate "managers" short_vector])
             (clock world_unembedded)).
Proof.
  assert (h1 : embedContent env_plain (Raw find_CO) = EmbedValues short_vector)
    by reflexivity.
  assert (h2 : vectorSearch env_plain "vectorIndex" "docEmbedding" short_vector 100 5
                 (collection (db world_unembedded) "managers") = [])
    by (vm_compute; reflexivity).
  split; [exact h1|]. split; [exact h2|].
  exact (retrieval_without_hits env_plain find_CO admin world_unembedded short_vector h1 h2).
Defined.

(** The hypothesis of X7 holds on the sample store: one record is
    retrieved, scored 4/5. *)
Lemma retrieval_context_and_confidence_witness :
  let r := mkRagResult "answer" (4 # 5) "Kangan Gupta is in the CO branch."
                       [project_score (kangan, 4 # 5)] in
  fst (runRagPipeline env_plain find_CO admin world) = Return r /\
  project_score (kangan, 4 # 5) !! "score" = Some (JNum (rag_confidence r)) /\
  gemini env_plain RAG_AGENT_PROMPT (QuestionContext find_CO (context r)) = Answer (answer r).
Proof.
  cbn zeta.
  assert (h : fst (runRagPipeline env_plain find_CO admin world) =
              Return (mkRagResult "answer" (4 # 5) "Kangan Gupta is in the CO branch."
                                  [project_score (kangan, 4 # 5)]))
    by (vm_compute; reflexivity).
  split; [exact h|].
  exact (proj2 (retrieval_context_and_confidence env_plain _ _ _ _ h)).
Defined.

(** The hypotheses of X12 hold on the sample store when the embedding
    endpoint is down: the CTC of the record is raised and the run throws
    the 503. *)
Lemma update_fails_after_the_update_witness :
  let userInput := "Change the CTC for Kangan Gupta to 75" in
  let updated := updateMany_docs env_offline named_kangan set_CTC_75
                   (collection (db world) "managers") in
  userInput <> "" /\
  permitted (db world) admin "managers" = true /\
  gemini env_offline UPDATE_AGENT_PROMPT (Raw userInput) = Answer raise_kangan /\
  gemini env_offline UPDATE_SECURITY_AGENT_PROMPT (StringifyUpdate raise_kangan) =
    Answer (mkSecurityCheck true "Update uses $set operator and a specific filter.") /\
  0 < length (List.filter (modified env_offline named_kangan set_CTC_75)
                (collection (db world) "managers")) /\
  List.filter (matches env_offline named_kangan) updated = [<["CTC" := JNum 75]> kangan] /\
  embedContent env_offline (createTextForEmbedding (<["CTC" := JNum 75]> kangan)) =
    EmbedStatus 503 "Service Unavailable" /\
  runUpdatePipeline env_offline userInput "managers" admin world =
    (Throw (EmbeddingUpstreamError 503 "Service Unavailable"),
     mkWorld (set_collection (db world) "managers" updated)
             (trace world ++ update_prefix "managers" userInput admin raise_kangan ++
                [Find "managers" named_kangan;
                 CallEmbedding (createTextForEmbedding (<["CTC" := JNum 75]> kangan))])
             (clock world)).
Proof.
  cbn zeta.
  assert (h1 : "Change the CTC for Kangan Gupta to 75" <> "") by discriminate.
  assert (h2 : permitted (db world) admin "managers" = true) by reflexivity.
  assert (h3 : gemini env_offline UPDATE_AGENT_PROMPT
                 (Raw "Change the CTC for Kangan Gupta to 75") = Answer raise_kangan)
    by reflexivity.
  assert (h4 : gemini env_offline UPDATE_SECURITY_AGENT_PROMPT (StringifyUpdate raise_kangan)
               = Answer (mkSecurityCheck true
                           "Update uses $set operator and a specific filter."))
    by reflexivity.
  assert (h5 : isSafe (mkSecurityCheck true
                         "Update uses $set operator and a specific filter.") = true)
    by reflexivity.
  assert (h6 : 0 < length (List.filter (modified env_offline named_kangan set_CTC_75)
                             (collection (db world) "managers")))
    by (vm_compute; lia).
  assert (h7 : List.filter (matches env_offline named_kangan)
                 (updateMany_docs env_offline named_kangan set_CTC_75
                    (collection (db world) "managers")) = [<["CTC" := JNum 75]> kangan])
    by (vm_compute; reflexivity).
  assert (h8 : embedContent env_offline
                 (createTextForEmbedding (<["CTC" := JNum 75]> kangan)) =
               EmbedStatus 503 "Service Unavailable") by reflexivity.
  repeat (split; [assumption|]).
  exact (update_fails_after_the_update env_offline _ "managers" admin world raise_kangan
           _ _ [] _ _ h1 h2 h3 h4 h5 h6 h7 h8).
Defined.

(** The hypothesis of X13 holds of a record and the same record with a
    new embedding. *)
Lemma summary_text_reads_seven_attributes_witness :
  (forall k : string, In k summary_attributes ->
     (<["docEmbedding" := vector_json short_vector]> kangan) !! k = kangan !! k) /\
  createTextForEmbedding (<["docEmbedding" := vector_json short_vector]> kangan) =
  createTextForEmbedding kangan.
Proof.
  assert (h : forall k : string, In k summary_attributes ->
                (<["docEmbedding" := vector_json short_vector]> kangan) !! k = kangan !! k).
  { intros k Hk. apply lookup_insert_ne. intros <-. cbn in Hk.
    repeat destruct Hk as [Hk|Hk]; try discriminate Hk. exact Hk. }
  split; [exact h|].
  exact (summary_text_reads_seven_attributes _ _ h).
Defined.

(** The hypotheses of X14 hold of a CTC of 0. *)
Lemma summary_text_renders_falsy_as_missing_witness :
  In "CTC" summary_attributes /\
  truthy (Some (JNum 0)) = false /\
  createTextForEmbedding unpaid = createTextForEmbedding (delete "CTC" unpaid).
Proof.
  assert (h1 : In "CTC" summary_attributes) by (cbn; tauto).
  assert (h2 : truthy (Some (JNum 0)) = false) by reflexivity.
  split; [exact h1|]. split; [exact h2|].
  assert (Heq : unpaid = <["CTC" := JNum 0]> unpaid) by (vm_compute; reflexivity).
  rewrite Heq at 1.
  exact (summary_text_renders_falsy_as_missing unpaid "CTC" (JNum 0) h1 h2).
Defined.

(** The hypotheses of X16 hold on the sample store: the record without an
    embedding gets a vector of length 2, which is reported and skipped. *)
Lemma backfill_reports_and_skips_mismatch_witness :
  In vidit (List.filter (matches env_backfill create_data_embeddings.without_embedding)
              (collection (db world) "managers")) /\
  embedContent env_backfill (createTextForEmbedding vidit) = EmbedValues short_vector /\
  length short_vector <> EMBEDDING_DIMENSIONS /\
  exists evs : list Event,
    trace (snd (create_data_embeddings.createEmbeddings env_backfill world)) =
      trace world ++ evs /\
    In (ConsoleError (DimensionMismatchError (length short_vector) EMBEDDING_DIMENSIONS)) evs.
Proof.
  assert (h1 : In vidit (List.filter
                           (matches env_backfill create_data_embeddings.without_embedding)
                           (collection (db world) "managers")))
    by (left; vm_compute; reflexivity).
  assert (h2 : embedContent env_backfill (createTextForEmbedding vidit) =
               EmbedValues short_vector) by reflexivity.
  assert (h3 : length short_vector <> EMBEDDING_DIMENSIONS) by discriminate.
  repeat (split; [assumption|]).
  destruct (backfill_reports_and_skips_mismatch env_backfill world vidit short_vector
              h1 h2 h3) as (evs & Htrace & Hin & _).
  exists evs. by split.
Defined.



(** The hypothesis of X1 holds on the sample store: the answer is the
    completion of the model. *)
Lemma retrieval_answer_is_not_empty_witness :
  let r := mkRagResult "answer" (4 # 5) "Kangan Gupta is in the CO branch."
                       [project_score (kangan, 4 # 5)] in
  fst (runRagPipeline env_plain find_CO admin world) = Return r /\
  answer r <> "".
Proof.
  cbn zeta.
  assert (h : fst (runRagPipeline env_plain find_CO admin world) =
              Return (mkRagResult "answer" (4 # 5) "Kangan Gupta is in the CO branch."
                                  [project_score (kangan, 4 # 5)]))
    by (vm_compute; reflexivity).
  split; [exact h|].
  exact (proj1 (retrieval_answer_is_not_empty env_plain _ _ _ _ h)).
Defined.

(** The hypothesis of X10 holds of an update of [managers]: the run
    returns and the audit log has its entry. *)
Lemma update_audits_iff_returned_witness :
  let run := runUpdatePipeline env_plain "Change the CTC for Kangan Gupta to 75" "managers"
               admin world in
  "managers" <> "AuditLogs" /\
  fst run = Return (mkUpdateResult true 1 1) /\
  AuditLogs (db (snd run)) =
    [UpdateAudit "user-123" "Admin" "Change the CTC for Kangan Gupta to 75" raise_kangan 1 0].
Proof.
  cbn zeta.
  assert (h : "managers" <> "AuditLogs") by discriminate.
  assert (hr : fst (runUpdatePipeline env_plain "Change the CTC for Kangan Gupta to 75"
                      "managers" admin world) = Return (mkUpdateResult true 1 1))
    by (vm_compute; reflexivity).
  split; [exact h|]. split; [exact hr|].
  pose proof (update_audits_iff_returned env_plain "Change the CTC for Kangan Gupta to 75"
                "managers" admin world h) as H.
  cbn zeta in H. rewrite hr in H. destruct H as (u & Hu & Haudit).
  cbn in Hu. injection Hu as <-. exact Haudit.
Defined.

(** The hypotheses of X11 hold of an update of [managers]: the
    permissions and the collection [students] are as before, and
    [managers] still has two records. *)
Lemma update_touches_only_matched_records_witness :
  let w' := snd (runUpdatePipeline env_plain "Change the CTC for Kangan Gupta to 75"
                   "managers" admin world) in
  "managers" <> "Permissions" /\
  "managers" <> "AuditLogs" /\
  Permissions (db w') = Permissions (db world) /\
  collection (db w') "students" = collection (db world) "students" /\
  length (collection (db w') "managers") = 2.
Proof.
  cbn zeta.
  assert (h1 : "managers" <> "Permissions") by discriminate.
  assert (h2 : "managers" <> "AuditLogs") by discriminate.
  repeat (split; [assumption|]).
  destruct (update_touches_only_matched_records env_plain
              "Change the CTC for Kangan Gupta to 75" "managers" admin world h1 h2)
    as (Hp & Hother & Hlen & _).
  split; [exact Hp|]. split; [|exact Hlen].
  apply Hother; discriminate.
Defined.

(** The hypotheses of X20 hold on the sample store when the embedding
    endpoint is down and the retrieval pipeline is resumed first: the
    answer is the error of the retrieval pipeline, and the audit log has
    the entry of the structured-query pipeline. *)
Lemma hybrid_audits_the_structured_run_witness :
  let r := mkNlResult "data" (95 # 100) (project_out_embedding [kangan; vidit])
                      in_CO safe_verdict specific in
  let run := hybrid_query_scheduled env_offline [snd_task] find_CO "managers" world in
  find_CO <> "" /\ "managers" <> "" /\
  fst (runNlToQueryPipeline env_offline find_CO "managers" hard_coded_user world) = Return r /\
  fst run = ServerError (EmbeddingUpstreamError 503 "Service Unavailable") /\
  AuditLogs (db (snd run)) = [QueryAudit "user-123" "Admin" find_CO in_CO 2 0].
Proof.
  cbn zeta.
  assert (h1 : find_CO <> "") by discriminate.
  assert (h2 : "managers" <> "") by discriminate.
  assert (h3 : fst (runNlToQueryPipeline env_offline find_CO "managers" hard_coded_user world)
               = Return (mkNlResult "data" (95 # 100) (project_out_embedding [kangan; vidit])
                                    in_CO safe_verdict specific))
    by (vm_compute; reflexivity).
  repeat (split; [assumption|]).
  split; [vm_compute; reflexivity|].
  exact (proj1 (hybrid_audits_the_structured_run env_offline [snd_task] find_CO "managers"
                  world _ h1 h2 h3)).
Defined.

(** The hypotheses of X24 hold of a request both of whose pipelines
    throw: the answer carries one of the two errors, and which one is a
    matter of the schedule. Under the empty schedule the security
    rejection comes first, and when the retrieval pipeline is resumed
    first it is the error of the embedding endpoint. *)
Lemma hybrid_answer_under_any_schedule_witness :
  let rejected := QuerySecurityRejectedError "Query contains potentially dangerous operators." in
  let unavailable := EmbeddingUpstreamError 503 "Service Unavailable" in
  let answer schedule :=
    fst (hybrid_query_scheduled env_unsafe_offline schedule "run sleep" "managers" world) in
  "run sleep" <> "" /\ "managers" <> "" /\
  (answer [snd_task] = ServerError rejected \/ answer [snd_task] = ServerError unavailable) /\
  answer [] = ServerError rejected /\
  answer [snd_task] = ServerError unavailable.
Proof.
  cbn zeta.
  assert (h1 : "run sleep" <> "") by discriminate.
  assert (h2 : "managers" <> "") by discriminate.
  repeat (split; [assumption|]).
  split; [|split; vm_compute; reflexivity].
  exact (proj2 (hybrid_answer_under_any_schedule env_unsafe_offline [snd_task]
                  "run sleep" "managers" world h1 h2)).
Defined.

End RunsMore.


(** ** What the re-embedding achieves *)

Section ReSyncResult.
Context (E : Env).

Lemma json_eqb_refl : forall x : json, json_eqb x x = true.
Proof.
  fix IH 1. intros [|b|q|s|items|members]; cbn.
  - reflexivity.
  - by destruct b.
  - apply Qeq_bool_iff. reflexivity.
  - apply String.eqb_refl.
  - induction items as [|y ys IHl]; [reflexivity|]. by rewrite IH, IHl.
  - induction members as [|[k y] ys IHl]; [reflexivity|].
    by rewrite String.eqb_refl, IH, IHl.
Qed.

Lemma has_id_own (d : Doc) : has_id (d !! "_id") d = true.
Proof. unfold has_id. destruct (d !! "_id"); [apply json_eqb_refl|reflexivity]. Qed.

Lemma has_id_embedding (_id : option json) (v : json) (d : Doc) :
  has_id _id (<["docEmbedding" := v]> d) = has_id _id d.
Proof. unfold has_id. by rewrite lookup_insert_ne. Qed.

Lemma id_embedding (v : json) (d : Doc) :
  (<["docEmbedding" := v]> d) !! "_id" = d !! "_id".
Proof. by rewrite lookup_insert_ne. Qed.

(** A write by [_id] reaches the record with that [_id] when no earlier
    record has it. *)
Lemma updateOne_docs_hit
    (_id : option json) (embedding : list Q) (pre : list Doc) (d : Doc) (rest : list Doc) :
  Forall (fun p : Doc => has_id _id p = false) pre ->
  has_id _id d = true ->
  updateOne_docs _id embedding (pre ++ d :: rest) =
  pre ++ <["docEmbedding" := vector_json embedding]> d :: rest.
Proof.
  intros Hpre Hd. induction Hpre as [|p pre Hp Hpre IH]; cbn.
  - by rewrite Hd.
  - by rewrite Hp, IH.
Qed.

(** With different [_id]s, a completed loop over the records selected by
    [P] gives each of them the embedding of its text and leaves the other
    records alone. *)
Lemma reSync_docs_selected (P : Doc -> bool) (rest pre : list Doc) :
  distinct_ids rest ->
  (forall p r : Doc, In p pre -> In r rest -> has_id (r !! "_id") p = false) ->
  (forall d : Doc, In d rest -> P d = true ->
     exists v : list Q, embedContent E (createTextForEmbedding d) = EmbedValues v) ->
  reSync_docs E (List.filter P rest) (pre ++ rest) =
  pre ++ map (fun d : Doc => if P d then embedded E d else d) rest.
Proof.
  revert pre. induction rest as [|d rest IH]; intros pre Hdistinct Hpre Hanswers.
  - reflexivity.
  - destruct Hdistinct as [Hd Hdistinct]. cbn [List.filter map].
    assert (Hstep : forall d' : Doc,
              d' !! "_id" = d !! "_id" ->
              reSync_docs E (List.filter P rest) ((pre ++ [d']) ++ rest) =
              (pre ++ [d']) ++ map (fun d0 : Doc => if P d0 then embedded E d0 else d0) rest).
    { intros d' Hid. apply IH; [exact Hdistinct| |].
      - intros p r Hp Hr. apply in_app_or in Hp as [Hp|[<-|[]]].
        + apply Hpre; [exact Hp|by right].
        + rewrite Forall_forall in Hd. apply list_elem_of_In, Hd in Hr as [_ Hr].
          unfold has_id in *. by rewrite Hid.
      - intros d0 Hin. apply Hanswers. by right. }
    destruct (P d) eqn:HP.
    + destruct (Hanswers d (or_introl eq_refl) HP) as (v & Hv).
      unfold reSync_docs. cbn [fold_left]. rewrite Hv.
      rewrite updateOne_docs_hit; [| |apply has_id_own].
      2:{ apply Forall_forall. intros p Hp. apply list_elem_of_In in Hp.
          apply Hpre; [exact Hp|by left]. }
      unfold embedded at 1. rewrite Hv.
      specialize (Hstep (<["docEmbedding" := vector_json v]> d) (id_embedding _ _)).
      rewrite <- !app_assoc in Hstep. exact Hstep.
    + specialize (Hstep d eq_refl). rewrite <- !app_assoc in Hstep. exact Hstep.
Qed.

(** The collection after a completed loop, and the answers it relied on. *)
Lemma reSync_store
    (collectionName : string) (docs : list Doc) (n m : nat) (w w' : World) :
  reSync E collectionName docs n w = (Return m, w') ->
  collection (db w') collectionName = reSync_docs E docs (collection (db w) collectionName) /\
  forall doc : Doc, In doc docs ->
    exists v : list Q, embedContent E (createTextForEmbedding doc) = EmbedValues v.
Proof.
  revert n w. induction docs as [|doc rest IH]; intros n w H.
  - cbn in H. run_M. inversion H; subst. split; [reflexivity|]. intros doc [].
  - cbn [reSync] in H. unfold getEmbedding, updateOne in H. run_M.
    unfold reSync_docs. cbn [fold_left].
    destruct (embedContent E (createTextForEmbedding doc)) as [msg|c b| |v] eqn:Hv;
      cbn -[reSync createTextForEmbedding collection set_collection] in H;
      try discriminate H.
    apply IH in H as (Hstore & Hanswers).
    cbn -[createTextForEmbedding collection set_collection] in Hstore.
    rewrite collection_set_same in Hstore. split; [exact Hstore|].
    intros d [<-|Hin]; [by exists v|by apply Hanswers].
Qed.

(** The target collection after a run of the update pipeline that
    returns. *)
Lemma runUpdatePipeline_store
    (userInput collectionName : string) (user : User) (w w' : World) (r : UpdateResult) :
  runUpdatePipeline E userInput collectionName user w = (Return r, w') ->
  exists u : UpdateQuery,
    gemini E UPDATE_AGENT_PROMPT (Raw userInput) = Answer u /\
    let updated :=
      updateMany_docs E (filter u) (update u) (collection (db w) collectionName) in
    let refetched := List.filter (matches E (filter u)) updated in
    if Nat.ltb 0 (modifiedCount r)
    then collection (db w') collectionName = reSync_docs E refetched updated /\
         forall doc : Doc, In doc refetched ->
           exists v : list Q, embedContent E (createTextForEmbedding doc) = EmbedValues v
    else collection (db w') collectionName = updated.
Proof.
  intros H.
  unfold runUpdatePipeline, callGemini, findOnePermission, updateMany, find, insertAudit in H.
  run_M. fold (permitted (db w) user collectionName) in H.
  destruct (is_empty_text (Raw userInput)) eqn:Hempty;
    (destruct (permitted (db w) user collectionName) eqn:Hperm;
     cbn -[List.filter reSync Nat.ltb collection set_collection] in H; [|discriminate H]);
    [discriminate H|].
  destruct (gemini E UPDATE_AGENT_PROMPT (Raw userInput)) as [| | | | |u] eqn:Hu;
    cbn -[List.filter reSync Nat.ltb collection set_collection] in H; try discriminate H.
  destruct (gemini E UPDATE_SECURITY_AGENT_PROMPT (StringifyUpdate u))
    as [| | | | |verdict] eqn:Hv;
    cbn -[List.filter reSync Nat.ltb collection set_collection] in H; try discriminate H.
  destruct (isSafe verdict) eqn:Hsafe;
    cbn -[List.filter reSync Nat.ltb collection set_collection] in H; [|discriminate H].
  exists u. split; [reflexivity|]. cbn zeta.
  destruct (Nat.ltb 0 (length (List.filter (modified E (filter u) (update u))
                                 (collection (db w) collectionName)))) eqn:Hmod;
    cbn -[List.filter reSync Nat.ltb collection set_collection] in H.
  - rewrite collection_set_same in H.
    match type of H with
    | context [reSync E ?c ?docs ?n ?w0] =>
        destruct (reSync E c docs n w0) as [[m|e] w2] eqn:Hsync
    end; cbn -[List.filter reSync Nat.ltb collection set_collection] in H;
      [|discriminate H].
    apply reSync_store in Hsync as (Hstore & Hanswers).
    cbn -[List.filter collection set_collection] in Hstore.
    rewrite collection_set_same in Hstore.
    inversion H; subst; clear H. cbn -[List.filter Nat.ltb collection set_collection].
    rewrite Hmod. split; [exact Hstore|exact Hanswers].
  - inversion H; subst; clear H. cbn -[List.filter Nat.ltb collection set_collection].
    rewrite Hmod. cbn. apply collection_set_same.
Qed.

(** X22. On a collection other than the permissions and the audit log:
    when the update pipeline returns having modified at least one record,
    the records of the collection have different [_id]s after the update,
    and the embedding endpoint did not answer a body without a vector for
    any record that matches the filter, then every record that matches
    the filter now carries the embedding that the endpoint gave for its
    updated text, and every other record is exactly as the update left
    it. *)
Theorem update_re_embeds_the_matching_records
    (userInput collectionName : string) (user : User) (w : World)
    (r : UpdateResult) (u : UpdateQuery) :
  collectionName <> "Permissions" ->
  collectionName <> "AuditLogs" ->
  fst (runUpdatePipeline E userInput collectionName user w) = Return r ->
  0 < modifiedCount r ->
  gemini E UPDATE_AGENT_PROMPT (Raw userInput) = Answer u ->
  let updated := updateMany_docs E (filter u) (update u) (collection (db w) collectionName) in
  distinct_ids updated ->
  (forall d : Doc, In d updated -> matches E (filter u) d = true ->
     embedContent E (createTextForEmbedding d) <> EmbedNoValues) ->
  collection (db (snd (runUpdatePipeline E userInput collectionName user w))) collectionName =
    map (fun d : Doc => if matches E (filter u) d then embedded E d else d) updated /\
  forall d : Doc, In d updated -> matches E (filter u) d = true ->
    exists v : list Q,
      embedContent E (createTextForEmbedding d) = EmbedValues v /\
      embedded E d = <["docEmbedding" := vector_json v]> d.
Proof.
  intros _ _ H Hpos Hu updated Hdistinct _.
  destruct (runUpdatePipeline E userInput collectionName user w) as [o w'] eqn:Hrun.
  cbn in H; subst o. cbn [snd].
  apply runUpdatePipeline_store in Hrun as (u' & Hu' & Hstore).
  rewrite Hu in Hu'. injection Hu' as <-. cbn zeta in Hstore. fold updated in Hstore.
  apply Nat.ltb_lt in Hpos. rewrite Hpos in Hstore. destruct Hstore as [Hstore Hanswers].
  assert (Hall : forall d : Doc, In d updated -> matches E (filter u) d = true ->
            exists v : list Q, embedContent E (createTextForEmbedding d) = EmbedValues v).
  { intros d Hin Hd. apply Hanswers. apply filter_In. by split. }
  split.
  - rewrite Hstore.
    apply (reSync_docs_selected (matches E (filter u)) updated [] Hdistinct);
      [intros p0 r0 []|exact Hall].
  - intros d Hin Hd. destruct (Hall d Hin Hd) as (v & Hv). exists v.
    split; [exact Hv|]. unfold embedded. by rewrite Hv.
Qed.

End ReSyncResult.

Section ReSyncResultRun.
Import Sample.

(** The hypotheses of X22 hold on the sample store: the record whose CTC
    was raised now carries the vector of the endpoint, the other record is
    untouched. *)
Lemma update_re_embeds_the_matching_records_witness :
  let userInput := "Change the CTC for Kangan Gupta to 75" in
  let r := mkUpdateResult true 1 1 in
  let updated := updateMany_docs env_plain named_kangan set_CTC_75
                   (collection (db world) "managers") in
  "managers" <> "Permissions" /\
  "managers" <> "AuditLogs" /\
  fst (runUpdatePipeline env_plain userInput "managers" admin world) = Return r /\
  0 < modifiedCount r /\
  gemini env_plain UPDATE_AGENT_PROMPT (Raw userInput) = Answer raise_kangan /\
  distinct_ids updated /\
  (forall d : Doc, In d updated -> matches env_plain named_kangan d = true ->
     embedContent env_plain (createTextForEmbedding d) <> EmbedNoValues) /\
  collection (db (snd (runUpdatePipeline env_plain userInput "managers" admin world)))
             "managers" =
    map (fun d : Doc => if matches env_plain named_kangan d then embedded env_plain d else d)
        updated.
Proof.
  cbn zeta.
  assert (h01 : "managers" <> "Permissions") by discriminate.
  assert (h02 : "managers" <> "AuditLogs") by discriminate.
  assert (h1 : fst (runUpdatePipeline env_plain "Change the CTC for Kangan Gupta to 75"
                      "managers" admin world) = Return (mkUpdateResult true 1 1))
    by (vm_compute; reflexivity).
  assert (h2 : 0 < modifiedCount (mkUpdateResult true 1 1)) by (cbn; lia).
  assert (h3 : gemini env_plain UPDATE_AGENT_PROMPT
                 (Raw "Change the CTC for Kangan Gupta to 75") = Answer raise_kangan)
    by reflexivity.
  assert (h4 : distinct_ids (updateMany_docs env_plain named_kangan set_CTC_75
                               (collection (db world) "managers"))).
  { cbn [distinct_ids updateMany_docs map]. vm_compute. repeat constructor. }
  assert (h5 : forall d : Doc,
                 In d (updateMany_docs env_plain named_kangan set_CTC_75
                         (collection (db world) "managers")) ->
                 matches env_plain named_kangan d = true ->
                 embedContent env_plain (createTextForEmbedding d) <> EmbedNoValues)
    by (intros d _ _; discriminate).
  repeat (split; [assumption|]).
  exact (proj1 (update_re_embeds_the_matching_records env_plain _ "managers" admin world
                  _ raise_kangan h01 h02 h1 h2 h3 h4 h5)).
Defined.

End ReSyncResultRun.


(** ** The cost of the re-embedding *)

Section ReSyncCost.
Context (E : Env).

Lemma reSync_events_count (collectionName : string) (docs : list Doc) :
  (forall doc : Doc, In doc docs ->
     exists v : list Q, embedContent E (createTextForEmbedding doc) = EmbedValues v) ->
  length (List.filter is_embedding_call (reSync_events E collectionName docs)) = length docs /\
  length (List.filter is_embedding_write (reSync_events E collectionName docs)) = length docs.
Proof.
  unfold reSync_events. induction docs as [|doc rest IH]; intros Hanswers; [by split|].
  cbn [flat_map]. rewrite !List.filter_app, !length_app.
  destruct (Hanswers doc (or_introl eq_refl)) as (v & ->).
  destruct IH as [-> ->]; [intros d Hd; apply Hanswers; by right|].
  by split.
Qed.

(** X23. When the update pipeline returns, [reEmbeddedCount] is the number
    of requests the run made to the embedding endpoint and the number of
    embeddings it wrote: one request and one write for each re-embedded
    record. *)
Theorem reEmbeddedCount_counts_calls_and_writes
    (userInput collectionName : string) (user : User) (w : World) (r : UpdateResult) :
  fst (runUpdatePipeline E userInput collectionName user w) = Return r ->
  exists evs : list Event,
    trace (snd (runUpdatePipeline E userInput collectionName user w)) = trace w ++ evs /\
    length (List.filter is_embedding_call evs) = reEmbeddedCount r /\
    length (List.filter is_embedding_write evs) = reEmbeddedCount r.
Proof.
  intros H.
  destruct (runUpdatePipeline E userInput collectionName user w) as [o w'] eqn:Hrun.
  cbn in H; subst o. cbn [snd].
  pose proof Hrun as Hstore.
  apply runUpdatePipeline_store in Hstore as (u' & Hu' & Hstore).
  apply runUpdatePipeline_Return in Hrun
    as (_ & u & verdict & Hu & _ & _ & _ & _ & Hre & Htrace).
  rewrite Hu in Hu'. injection Hu' as <-. cbn zeta in *.
  eexists. split; [exact Htrace|].
  rewrite !List.filter_app, !length_app. cbn [List.filter is_embedding_call is_embedding_write
                                         length Nat.add].
  destruct (Nat.ltb 0 (modifiedCount r)).
  - destruct Hstore as [_ Hanswers].
    destruct (reSync_events_count collectionName _ Hanswers) as [Hc Hw].
    cbn [List.filter is_embedding_call is_embedding_write]. rewrite Hc, Hw, Hre. lia.
  - cbn. by rewrite Hre.
Qed.

End ReSyncCost.

Section ReSyncCostRun.
Import Sample.

(** The hypothesis of X23 holds on the sample store: both records of the
    CO branch are re-embedded, with two requests and two writes. *)
Lemma reEmbeddedCount_counts_calls_and_writes_witness :
  let run := runUpdatePipeline env_level "Set the CTC of the CO branch to 70" "managers"
               admin world in
  fst run = Return (mkUpdateResult true 1 2) /\
  exists evs : list Event,
    trace (snd run) = trace world ++ evs /\
    length (List.filter is_embedding_call evs) = 2 /\
    length (List.filter is_embedding_write evs) = 2.
Proof.
  cbn zeta.
  assert (h : fst (runUpdatePipeline env_level "Set the CTC of the CO branch to 70" "managers"
                     admin world) = Return (mkUpdateResult true 1 2))
    by (vm_compute; reflexivity).
  split; [exact h|].
  exact (reEmbeddedCount_counts_calls_and_writes env_level _ _ _ _ _ h).
Defined.

End ReSyncCostRun.
